(** * midi-relay-hub: the ScreenDeck satellite bridge and the surface registry

    A shallow embedding of [screendeckSatellite.js] (the line-oriented TCP
    client that registers virtual button grids with a Companion satellite
    host) and of the surface handlers of [api.js], with the properties of
    the protocol bridge stated and proved over it.

    Strings are Rocq strings: one [ascii] stands for one UTF-16 code unit
    below 256.  Numbers are the integer-valued doubles the code computes
    with, carried as [Z]. *)

From Stdlib Require Import ZArith Ascii String List Lia Bool.
From Stdlib Require Import Numbers.DecimalString Numbers.DecimalPos.
From stdpp Require Import base option gmap strings list fin_maps sets.

Local Open Scope string_scope.
Local Open Scope Z_scope.

Set Warnings "-clear-no-such-hyp".
(* ===================================================================== *)
(** * JavaScript values and the conversions the code relies on *)
(* ===================================================================== *)

Module JS.

(** The values that reach the code: parameters decoded from the wire are
    [true] or strings, missing properties read as [undefined], and JSON
    payloads add [null] and numbers.  [JNum n] is an integer-valued
    number: [n] is a double, that is [round_double n = n] below. *)
Inductive jsval :=
| JUndefined
| JNull
| JBool (b : bool)
| JNum (n : Z)
| JStr (s : string).

#[global] Instance jsval_eq_dec : EqDecision jsval.
Proof. solve_decision. Defined.

(** The result of [Number.parseInt]: an integer-valued double, an
    infinity, or NaN. *)
Inductive jsnum :=
| NaN
| PosInf
| NegInf
| Num (n : Z).

Definition dq : ascii := "034"%char.
Definition bs : ascii := "092"%char.
Definition lf : ascii := "010"%char.
Definition cr : ascii := "013"%char.
Definition sp : ascii := " "%char.

Definition is_empty (s : string) : bool :=
  match s with EmptyString => true | String _ _ => false end.

(** [s + c] for one code unit [c]. *)
Definition snoc (s : string) (c : ascii) : string := s +:+ String c EmptyString.
#[global] Arguments snoc : simpl never.

Definition Z_to_string (n : Z) : string := NilZero.string_of_int (Z.to_int n).

(** Truthiness, as used by [!v], [v || w] and [if (v)]. *)
Definition truthy (v : jsval) : bool :=
  match v with
  | JUndefined | JNull => false
  | JBool b => b
  | JNum n => negb (n =? 0)
  | JStr s => negb (is_empty s)
  end.

Definition is_string (v : jsval) : bool :=
  match v with JStr _ => true | _ => false end.

(** White space as [parseInt] and [trim] see it, among code units below
    256: TAB, LF, VT, FF, CR, SP and NBSP. *)
Definition is_space (c : ascii) : bool :=
  let n := nat_of_ascii c in
  ((9 <=? n)%nat && (n <=? 13)%nat) || (n =? 32)%nat || (n =? 160)%nat.

Fixpoint trimStart (s : string) : string :=
  match s with
  | EmptyString => EmptyString
  | String c rest => if is_space c then trimStart rest else s
  end.

Fixpoint trimEnd (s : string) : string :=
  match s with
  | EmptyString => EmptyString
  | String c rest =>
      let r := trimEnd rest in
      if is_empty r && is_space c then EmptyString else String c r
  end.

Definition trim (s : string) : string := trimEnd (trimStart s).

Definition digit_of (c : ascii) : option Z :=
  let n := nat_of_ascii c in
  if ((48 <=? n)%nat && (n <=? 57)%nat) then Some (Z.of_nat n - 48) else None.

(** The longest prefix of decimal digits of [s], read as a numeral on top
    of [acc]; [seen] tells whether a digit has been read. *)
Fixpoint digits (s : string) (acc : Z) (seen : bool) : option Z :=
  match s with
  | EmptyString => if seen then Some acc else None
  | String c rest =>
      match digit_of c with
      | Some d => digits rest (10 * acc + d) true
      | None => if seen then Some acc else None
      end
  end.

(** Round an integer to the nearest double (ties to even); the result is
    again an integer. *)
Definition round_double (n : Z) : Z :=
  let a := Z.abs n in
  if a <? 2 ^ 53 then n
  else
    let e := Z.log2 a - 52 in
    let q := a / 2 ^ e in
    let r := a mod 2 ^ e in
    let half := 2 ^ (e - 1) in
    let q' := if r <? half then q
              else if half <? r then q + 1
              else if Z.even q then q else q + 1 in
    Z.sgn n * (q' * 2 ^ e).

Definition to_double (n : Z) : jsnum :=
  let r := round_double n in
  if 2 ^ 1024 <=? r then PosInf
  else if r <=? - 2 ^ 1024 then NegInf
  else Num r.

(** The digits of [Number::toString] for an integer-valued double [a]
    of [n] decimal digits, from 10^21 on: the least number [k] of digits
    for which some [s] of [k] digits has [s * 10^(n-k)] round to [a], and
    of the two candidates next to [a] the one that is nearer, the even one
    on a tie.  No double needs more than 17 digits. *)
Fixpoint shortest (fuel : nat) (k : Z) (a n : Z) : Z * Z :=
  let p := 10 ^ (n - k) in
  let lo := a / p in
  let ok c := round_double (c * p) =? a in
  match fuel with
  | O => (lo, k)
  | S fuel' =>
      if ok lo && ok (lo + 1) then
        (if 2 * (a - lo * p) <? p then lo
         else if p <? 2 * (a - lo * p) then lo + 1
         else if Z.even lo then lo else lo + 1, k)
      else if ok lo then (lo, k)
      else if ok (lo + 1) then (lo + 1, k)
      else shortest fuel' (k + 1) a n
  end.

(** The exponent form d.ddde+x of a number from 10^21 on. *)
Definition exponent_form (a : Z) : string :=
  let n := Z.of_nat (String.length (Z_to_string a)) in
  let '(s, k) := shortest 17 1 a n in
  let '(s, e) := if s =? 10 ^ k then (1, n) else (s, n - 1) in
  match Z_to_string s with
  | EmptyString => EmptyString
  | String d EmptyString => String d ("e+" +:+ Z_to_string e)
  | String d rest => String d ("." +:+ rest +:+ "e+" +:+ Z_to_string e)
  end.

(** [Number::toString] on an integer: the plain decimal numeral below
    10^21 in magnitude, the exponent form from there on. *)
Definition Number_toString (n : Z) : string :=
  if Z.abs n <? 10 ^ 21 then Z_to_string n
  else if n <? 0 then String "-" (exponent_form (- n))
  else exponent_form n.

(** [String(v)]. *)
Definition to_String (v : jsval) : string :=
  match v with
  | JUndefined => "undefined"
  | JNull => "null"
  | JBool true => "true"
  | JBool false => "false"
  | JNum n => Number_toString n
  | JStr s => s
  end.

(** [Number.parseInt(s, 10)]: leading white space is skipped, one sign is
    accepted, then the longest run of digits is read; no digit gives
    NaN. *)
Definition parseInt (s : string) : jsnum :=
  let t := trimStart s in
  let '(neg, body) :=
    match t with
    | String c rest =>
        if Ascii.eqb c "-" then (true, rest)
        else if Ascii.eqb c "+" then (false, rest)
        else (false, t)
    | EmptyString => (false, t)
    end in
  match digits body 0 false with
  | None => NaN
  | Some n => to_double (if neg then - n else n)
  end.

(** [s.indexOf(c)], with [None] for -1. *)
Fixpoint indexOf (c : ascii) (s : string) : option nat :=
  match s with
  | EmptyString => None
  | String d rest =>
      if Ascii.eqb d c then Some O else S <$> indexOf c rest
  end.

(** [s.slice(0, n)] and [s.slice(n)] for [n] within the string. *)
Fixpoint slice_to (n : nat) (s : string) : string :=
  match n, s with
  | S k, String c rest => String c (slice_to k rest)
  | _, _ => EmptyString
  end.

Fixpoint slice_from (n : nat) (s : string) : string :=
  match n, s with
  | S k, String _ rest => slice_from k rest
  | _, _ => s
  end.

(** [s.toUpperCase()] on the letters a-z.  The code only compares the
    result with the verbs of the protocol, spelled in A-Z and '-'; what
    another code unit below 256 upper-cases to occurs in none of them. *)
Definition upper_char (c : ascii) : ascii :=
  let n := nat_of_ascii c in
  if ((97 <=? n)%nat && (n <=? 122)%nat) then ascii_of_nat (n - 32) else c.

Fixpoint toUpperCase (s : string) : string :=
  match s with
  | EmptyString => EmptyString
  | String c rest => String (upper_char c) (toUpperCase rest)
  end.

Fixpoint endsWith (c : ascii) (s : string) : bool :=
  match s with
  | EmptyString => false
  | String d EmptyString => Ascii.eqb d c
  | String _ rest => endsWith c rest
  end.

(** [s.slice(0, -1)]. *)
Fixpoint dropLast (s : string) : string :=
  match s with
  | EmptyString => EmptyString
  | String _ EmptyString => EmptyString
  | String c rest => String c (dropLast rest)
  end.

End JS.
Import JS.

(* ===================================================================== *)
(** * Command codec: [splitTokensPreservingQuotes] and [parseParams] *)
(* ===================================================================== *)

Module Codec.

(** The [for] loop of [splitTokensPreservingQuotes] over the rest of the
    line, with its three variables.  It returns the variables as they
    stand when the loop ends. *)
Fixpoint split_loop (line : string) (cur : string) (inQuotes : bool)
    (tokens : list string) : list string * string * bool :=
  match line with
  | EmptyString => (tokens, cur, inQuotes)
  | String c rest =>
      if Ascii.eqb c bs then
        (* copy next char literally if present *)
        match rest with
        | String d rest' => split_loop rest' (snoc cur d) inQuotes tokens
        | EmptyString => split_loop rest cur inQuotes tokens
        end
      else if Ascii.eqb c dq then
        split_loop rest cur (negb inQuotes) tokens
      else if negb inQuotes && Ascii.eqb c sp then
        split_loop rest EmptyString inQuotes
          (if is_empty cur then tokens else tokens ++ [cur])
      else
        split_loop rest (snoc cur c) inQuotes tokens
  end.

Definition splitTokensPreservingQuotes (line : string) : list string :=
  let '(tokens, cur, _) := split_loop line EmptyString false [] in
  if is_empty cur then tokens else tokens ++ [cur].

(** [out[k] = v] on a plain object.  Assigning to [__proto__] a value
    that is not an object goes to the accessor of [Object.prototype] and
    creates no property. *)
Definition obj_set (k : string) (v : jsval) (out : gmap string jsval)
    : gmap string jsval :=
  if String.eqb k "__proto__" then out else <[k := v]> out.

(** One iteration of the loop of [parseParams]. *)
Definition parse_token (out : gmap string jsval) (t : string)
    : gmap string jsval :=
  match indexOf "=" t with
  | None => obj_set t (JBool true) out
  | Some eq => obj_set (slice_to eq t) (JStr (slice_from (S eq) t)) out
  end.

Definition parseParams (body : string) : gmap string jsval :=
  fold_left parse_token (splitTokensPreservingQuotes body) ∅.

(** [params.K]: a property that is not there reads as [undefined]. *)
Definition get (params : gmap string jsval) (k : string) : jsval :=
  default JUndefined (params !! k).

End Codec.
Import Codec.

(* ===================================================================== *)
(** * The bridge: [ScreenDeckSatellite] *)
(* ===================================================================== *)

Module Bridge.

(** [clampInt] of screendeckSatellite.js. *)
Definition clampInt (value : jsval) (min max fallback : Z) : Z :=
  match parseInt (to_String value) with
  | Num n => Z.max min (Z.min max n)
  | _ => fallback
  end.

Definition safeString (v : jsval) (fallback : jsval) : jsval :=
  match v with JStr _ => v | _ => fallback end.

(** A device descriptor as [reloadFromConfig] stores it.  The purely
    cosmetic attributes (background, opacity, window flags) are read by
    the window code only and are left out. *)
Record Device := {
  id : string;
  columns : Z;
  rows : Z;
  bitmap : Z;
}.

(** An entry of [screenDeck.devices] in the configuration store, before
    [reloadFromConfig] has looked at it. *)
Record RawDevice := {
  raw_id : jsval;
  raw_columns : jsval;
  raw_rows : jsval;
  raw_bitmap : jsval;
}.

(** The [screenDeck] section of the configuration store.  An entry of
    [cfg_devices] that is not an object is [None]. *)
Record Config := {
  companionHost : jsval;
  companionPort : jsval;
  cfg_devices : list (option RawDevice);
}.

(** What the bridge does to the world around it, in the order it does
    it: the socket, the timers and the device windows.  What a window is
    sent for a draw carries the position only: the state object (image
    data URL, decoded text, colour) is not modelled. *)
Inductive effect :=
| SocketOpen (port : Z) (host : string)
| SocketDestroy
| SocketWrite (data : string)
| SetTimeout (handle : nat) (delay : Z)
| ClearTimeout (handle : nat)
| WindowClose (deviceId : string)
| WindowClear (deviceId : string)
| WindowDraw (deviceId : string) (x y : Z).

(** The calls into the Surface Registry of api.js that the bridge makes,
    with their arguments (the state object of a draw left out, as
    above). *)
Inductive api_call :=
| internalRegisterSurface (surfaceId : string) (columns rows : Z)
| internalRemoveSurface (surfaceId : string)
| internalSurfaceKey (surfaceId : string) (x y : Z) (pressed : bool)
| internalSurfaceClear (surfaceId : string)
| internalSurfaceDraw (surfaceId : string) (x y : Z).

(** The fields of a [ScreenDeckSatellite] object, followed by what the
    event loop holds for it: the configuration store, the timeouts that
    are outstanding (handle and delay), the next timer handle, and the
    effects so far.  [windows] holds the ids whose window is open. *)
Record State := mkState {
  apiPort : option Z;
  socket : bool;
  buffer : string;
  connected : bool;
  connecting : bool;
  reconnectTimer : option nat;
  lastBegin : option (gmap string jsval);
  devices : list Device;
  windows : list string;
  registeredDevices : gset string;
  pendingDevices : gset string;
  config : Config;
  timers : list (nat * Z);
  next_handle : nat;
  effects : list effect;
}.

Definition set_apiPort v (s : State) : State :=
  mkState v (socket s) (buffer s) (connected s) (connecting s)
    (reconnectTimer s) (lastBegin s) (devices s) (windows s)
    (registeredDevices s) (pendingDevices s) (config s) (timers s)
    (next_handle s) (effects s).
Definition set_socket v (s : State) : State :=
  mkState (apiPort s) v (buffer s) (connected s) (connecting s)
    (reconnectTimer s) (lastBegin s) (devices s) (windows s)
    (registeredDevices s) (pendingDevices s) (config s) (timers s)
    (next_handle s) (effects s).
Definition set_buffer v (s : State) : State :=
  mkState (apiPort s) (socket s) v (connected s) (connecting s)
    (reconnectTimer s) (lastBegin s) (devices s) (windows s)
    (registeredDevices s) (pendingDevices s) (config s) (timers s)
    (next_handle s) (effects s).
Definition set_connected v (s : State) : State :=
  mkState (apiPort s) (socket s) (buffer s) v (connecting s)
    (reconnectTimer s) (lastBegin s) (devices s) (windows s)
    (registeredDevices s) (pendingDevices s) (config s) (timers s)
    (next_handle s) (effects s).
Definition set_connecting v (s : State) : State :=
  mkState (apiPort s) (socket s) (buffer s) (connected s) v
    (reconnectTimer s) (lastBegin s) (devices s) (windows s)
    (registeredDevices s) (pendingDevices s) (config s) (timers s)
    (next_handle s) (effects s).
Definition set_reconnectTimer v (s : State) : State :=
  mkState (apiPort s) (socket s) (buffer s) (connected s) (connecting s)
    v (lastBegin s) (devices s) (windows s)
    (registeredDevices s) (pendingDevices s) (config s) (timers s)
    (next_handle s) (effects s).
Definition set_lastBegin v (s : State) : State :=
  mkState (apiPort s) (socket s) (buffer s) (connected s) (connecting s)
    (reconnectTimer s) v (devices s) (windows s)
    (registeredDevices s) (pendingDevices s) (config s) (timers s)
    (next_handle s) (effects s).
Definition set_devices v (s : State) : State :=
  mkState (apiPort s) (socket s) (buffer s) (connected s) (connecting s)
    (reconnectTimer s) (lastBegin s) v (windows s)
    (registeredDevices s) (pendingDevices s) (config s) (timers s)
    (next_handle s) (effects s).
Definition set_windows v (s : State) : State :=
  mkState (apiPort s) (socket s) (buffer s) (connected s) (connecting s)
    (reconnectTimer s) (lastBegin s) (devices s) v
    (registeredDevices s) (pendingDevices s) (config s) (timers s)
    (next_handle s) (effects s).
Definition set_registeredDevices v (s : State) : State :=
  mkState (apiPort s) (socket s) (buffer s) (connected s) (connecting s)
    (reconnectTimer s) (lastBegin s) (devices s) (windows s)
    v (pendingDevices s) (config s) (timers s)
    (next_handle s) (effects s).
Definition set_pendingDevices v (s : State) : State :=
  mkState (apiPort s) (socket s) (buffer s) (connected s) (connecting s)
    (reconnectTimer s) (lastBegin s) (devices s) (windows s)
    (registeredDevices s) v (config s) (timers s)
    (next_handle s) (effects s).
Definition set_config v (s : State) : State :=
  mkState (apiPort s) (socket s) (buffer s) (connected s) (connecting s)
    (reconnectTimer s) (lastBegin s) (devices s) (windows s)
    (registeredDevices s) (pendingDevices s) v (timers s)
    (next_handle s) (effects s).
Definition set_timers v (s : State) : State :=
  mkState (apiPort s) (socket s) (buffer s) (connected s) (connecting s)
    (reconnectTimer s) (lastBegin s) (devices s) (windows s)
    (registeredDevices s) (pendingDevices s) (config s) v
    (next_handle s) (effects s).
Definition set_next_handle v (s : State) : State :=
  mkState (apiPort s) (socket s) (buffer s) (connected s) (connecting s)
    (reconnectTimer s) (lastBegin s) (devices s) (windows s)
    (registeredDevices s) (pendingDevices s) (config s) (timers s)
    v (effects s).

(** Perform one effect: append it to the log. *)
Definition emit (e : effect) (s : State) : State :=
  mkState (apiPort s) (socket s) (buffer s) (connected s) (connecting s)
    (reconnectTimer s) (lastBegin s) (devices s) (windows s)
    (registeredDevices s) (pendingDevices s) (config s) (timers s)
    (next_handle s) (effects s ++ [e]).

(** A method of the bridge returns, or it raises; either way it leaves
    the object in a state.  The one thing that raises in this code is a
    call of an [API.internal...] function: the [API] class of api.js has no
    static method of any of those names, so the call expression, once its
    arguments are evaluated, raises a TypeError (... is not a function).
    [Raises c s] is that error for the call [c], raised with the object
    in state [s]. *)
Inductive outcome :=
| Returns (s : State)
| Raises (c : api_call) (s : State).

Definition after (o : outcome) : State :=
  match o with Returns s | Raises _ s => s end.

Definition raised (o : outcome) : option api_call :=
  match o with Returns _ => None | Raises c _ => Some c end.

(** [API.internal...(args)]. *)
Definition API (c : api_call) (s : State) : outcome := Raises c s.

(** One statement after another: an error ends the method. *)
Definition and_then (o : outcome) (k : State → outcome) : outcome :=
  match o with
  | Returns s => k s
  | Raises c s => Raises c s
  end.

(** [for (const a of l) body(a)]. *)
Fixpoint for_each {A} (l : list A) (body : A → State → outcome) (s : State)
    : outcome :=
  match l with
  | [] => Returns s
  | a :: l' => and_then (body a s) (for_each l' body)
  end.

(** [setTimeout(cb, delay)]: a fresh handle, outstanding from now on. *)
Definition setTimeout (delay : Z) (s : State) : nat * State :=
  let h := next_handle s in
  (h, emit (SetTimeout h delay)
        (set_next_handle (S h) (set_timers (timers s ++ [(h, delay)]) s))).

(** [clearTimeout(h)]. *)
Definition clearTimeout (h : nat) (s : State) : State :=
  emit (ClearTimeout h)
    (set_timers (filter (λ t, t.1 ≠ h) (timers s)) s).

(** ** The [devices] map, in insertion order *)

Definition devices_get (k : string) (m : list Device) : option Device :=
  List.find (λ d, String.eqb (id d) k) m.

Definition devices_has (k : string) (m : list Device) : bool :=
  match devices_get k m with Some _ => true | None => false end.

(** [m.set(k, d)]: an existing key keeps its place. *)
Fixpoint devices_set (d : Device) (m : list Device) : list Device :=
  match m with
  | [] => [d]
  | e :: m' => if String.eqb (id e) (id d) then d :: m' else e :: devices_set d m'
  end.

Definition has (k : string) (m : gset string) : bool := bool_decide (k ∈ m).

Record Status := {
  st_connected : bool;
  st_connecting : bool;
  companionVersion : jsval;
  companionApiVersion : jsval;
  deviceCount : nat;
  registeredCount : nat;
}.

Definition getStatus (s : State) : Status :=
  {| st_connected := connected s;
     st_connecting := connecting s;
     companionVersion :=
       match lastBegin s with
       | Some b => safeString (get b "CompanionVersion") JNull
       | None => JNull
       end;
     companionApiVersion :=
       match lastBegin s with
       | Some b => safeString (get b "ApiVersion") JNull
       | None => JNull
       end;
     deviceCount := length (devices s);
     registeredCount := size (registeredDevices s) |}.

(** ** Configuration *)

Definition load_device (m : list Device) (e : option RawDevice) : list Device :=
  match e with
  | None => m
  | Some d =>
      let i := match raw_id d with JStr x => trim x | _ => EmptyString end in
      if is_empty i then m
      else devices_set
             {| id := i;
                columns := clampInt (raw_columns d) 1 32 8;
                rows := clampInt (raw_rows d) 1 32 4;
                bitmap := clampInt (raw_bitmap d) 1 512 72 |} m
  end.

(** Register/update surfaces in the UI registry *)
Definition register_surfaces (s : State) : outcome :=
  for_each (devices s)
    (λ dev, API (internalRegisterSurface (id dev) (columns dev) (rows dev))) s.

(** Remove surfaces for devices no longer configured *)
Definition remove_surfaces (previousIds : list string) (s : State) : outcome :=
  for_each previousIds
    (λ i s, if devices_has i (devices s) then Returns s
            else API (internalRemoveSurface i) s) s.

(** Remove windows for devices no longer configured *)
Definition remove_windows (s : State) : State :=
  fold_left (λ s i, if devices_has i (devices s) then s
                    else set_windows (List.filter (λ w, negb (String.eqb w i)) (windows s))
                           (emit (WindowClose i) s))
    (windows s) s.

Definition reloadFromConfig (s : State) : outcome :=
  let previousIds := map id (devices s) in
  let s := set_devices (fold_left load_device (cfg_devices (config s)) []) s in
  and_then (register_surfaces s) (λ s,
  and_then (remove_surfaces previousIds s) (λ s,
  Returns (remove_windows s))).

(** ** Connection *)

Definition disconnect (s : State) : State :=
  let s := set_connecting false s in
  let s := set_connected false s in
  let s := set_lastBegin None s in
  let s := set_registeredDevices ∅ s in
  let s := set_pendingDevices ∅ s in
  let s := set_buffer EmptyString s in
  let s := match reconnectTimer s with
           | Some h => set_reconnectTimer None (clearTimeout h s)
           | None => s
           end in
  let had := socket s in
  let s := set_socket false s in
  if had then emit SocketDestroy s else s.

(** [socket.connect(port, host)] is taken not to throw: the port is
    clamped into 1..65535 and the host is a string. *)
Definition connect (host : string) (port : Z) (s : State) : State :=
  let s := disconnect s in
  let s := set_connecting true s in
  let s := set_connected false s in
  let s := set_lastBegin None s in
  let s := set_registeredDevices ∅ s in
  let s := set_pendingDevices ∅ s in
  let s := set_socket true s in
  emit (SocketOpen port host) s.

Definition reconnect (s : State) : State :=
  let host :=
    match companionHost (config s) with
    | JStr h => if is_empty (trim h) then "127.0.0.1" else trim h
    | _ => "127.0.0.1"
    end in
  let port := clampInt (companionPort (config s)) 1 65535 16622 in
  match devices s with
  | [] => disconnect s
  | _ :: _ => connect host port s
  end.

Definition scheduleReconnect (s : State) : State :=
  match reconnectTimer s with
  | Some _ => s
  | None =>
      match devices s with
      | [] => s
      | _ :: _ =>
          let '(h, s) := setTimeout 1000 s in
          set_reconnectTimer (Some h) s
      end
  end.

(** The callback handed to [setTimeout] by [scheduleReconnect]. *)
Definition reconnect_callback (s : State) : State :=
  reconnect (set_reconnectTimer None s).

(** The socket's 'connect' handler. *)
Definition on_connect (s : State) : State :=
  let s := set_connecting true s in
  let s := set_connected true s in
  set_buffer EmptyString s.

(** The socket's 'error' handler. *)
Definition on_error (s : State) : State :=
  let s := set_connecting false s in
  let s := set_connected false s in
  let s := set_lastBegin None s in
  let s := set_registeredDevices ∅ s in
  let s := set_pendingDevices ∅ s in
  scheduleReconnect s.

(** The socket's 'close' handler. *)
Definition on_close (s : State) : State :=
  let s := set_connecting false s in
  let s := set_connected false s in
  let s := set_lastBegin None s in
  let s := set_registeredDevices ∅ s in
  let s := set_pendingDevices ∅ s in
  scheduleReconnect s.

(** ** Outgoing commands *)

(** [line.endsWith('\n') ? line : line + '\n'] *)
Definition terminated (line : string) : string :=
  if endsWith lf line then line else snoc line lf.

Definition sendLine (line : string) (s : State) : State :=
  if negb (socket s) || negb (connected s) then s
  else emit (SocketWrite (terminated line)) s.

Definition render_arg (kv : string * jsval) : string :=
  match kv.2 with
  | JBool b => kv.1 +:+ "=" +:+ (if b then "1" else "0")
  | JNum n => kv.1 +:+ "=" +:+ to_String (JNum n)
  | v => kv.1 +:+ "=" +:+ String dq (snoc (to_String v) dq)
  end.

(** [chunks.join(' ')]. *)
Fixpoint join (chunks : list string) : string :=
  match chunks with
  | [] => EmptyString
  | [c] => c
  | c :: rest => c +:+ " " +:+ join rest
  end.

Definition command (cmd : string) (args : list (string * jsval)) : string :=
  join (cmd :: map render_arg args).

Definition sendCommand (cmd : string) (args : list (string * jsval)) (s : State) : State :=
  sendLine (command cmd args) s.

Definition add_device_args (dev : Device) : list (string * jsval) :=
  [ ("DEVICEID", JStr (id dev));
    ("PRODUCT_NAME", JStr ("ScreenDeck " +:+ id dev));
    ("KEYS_TOTAL", JNum (columns dev * rows dev));
    ("KEYS_PER_ROW", JNum (columns dev));
    ("BITMAPS", JNum (bitmap dev));
    ("COLORS", JBool true);
    ("TEXT", JBool true);
    ("TEXT_STYLE", JBool false);
    ("VARIABLES", JStr "W10=");
    ("BRIGHTNESS", JNum 100);
    ("PINCODE_LOCK", JStr EmptyString) ].

Definition addDeviceToCompanion (dev : Device) (s : State) : State :=
  if negb (connected s) || negb (socket s) then s
  else if has (id dev) (registeredDevices s) || has (id dev) (pendingDevices s) then s
  else
    let s := set_pendingDevices ({[ id dev ]} ∪ pendingDevices s) s in
    sendCommand "ADD-DEVICE" (add_device_args dev) s.

Definition keyPress (deviceId : string) (x y : jsval) (pressed : bool) (s : State)
    : outcome :=
  match devices_get deviceId (devices s) with
  | None => Returns s
  | Some dev =>
      let xi := clampInt x 0 (columns dev - 1) 0 in
      let yi := clampInt y 0 (rows dev - 1) 0 in
      let keyIndex := yi * columns dev + xi in
      let s := sendCommand "KEY-PRESS"
                 [("DEVICEID", JStr deviceId); ("KEY", JNum keyIndex);
                  ("PRESSED", JBool pressed)] s in
      API (internalSurfaceKey deviceId xi yi pressed) s
  end.

(** ** Windows *)

Definition truthy_port (p : option Z) : bool :=
  match p with Some n => negb (n =? 0) | None => false end.

Definition openWindow (deviceId : string) (s : State) : State :=
  match devices_get deviceId (devices s) with
  | None => s
  | Some _ =>
      if negb (truthy_port (apiPort s)) then s
      else if existsb (String.eqb deviceId) (windows s) then s
      else set_windows (windows s ++ [deviceId]) s
  end.

Definition openAllWindows (s : State) : State :=
  if negb (truthy_port (apiPort s)) then s
  else fold_left (λ s dev, openWindow (id dev) s) (devices s) s.

(** The 'closed' handler of a device window. *)
Definition on_window_closed (deviceId : string) (s : State) : State :=
  set_windows (List.filter (λ w, negb (String.eqb w deviceId)) (windows s)) s.

Definition broadcastToDeviceWindow (deviceId : string) (msg : effect) (s : State) : State :=
  if existsb (String.eqb deviceId) (windows s) then emit msg s else s.

(** ** Incoming commands *)

(** The key addressing of a KEY-STATE line: ["row/col"], or a flat
    index. *)
Definition decodeKey (dev : Device) (key : jsval) : Z * Z :=
  let flat :=
    let keyIndex := clampInt key 0 (columns dev * rows dev - 1) 0 in
    (Z.rem keyIndex (columns dev), keyIndex / columns dev) in
  match key with
  | JStr k =>
      match indexOf "/" k with
      | Some i =>
          (* const [rowStr, colStr] = params.KEY.split('/', 2) *)
          let rowStr := slice_to i k in
          let rest := slice_from (S i) k in
          let colStr := match indexOf "/" rest with
                        | Some j => slice_to j rest
                        | None => rest
                        end in
          let y := clampInt (JStr rowStr) 0 (rows dev - 1) 0 in
          let x := clampInt (JStr colStr) 0 (columns dev - 1) 0 in
          (x, y)
      | None => flat
      end
  | _ => flat
  end.

Definition nonempty_string (v : jsval) : option string :=
  match v with
  | JStr x => if is_empty x then None else Some x
  | _ => None
  end.

(** [cmd] and [body] of [handleLine]. *)
Definition verb_of (line : string) : string :=
  toUpperCase (match indexOf sp line with
               | None => line
               | Some firstSpace => slice_to firstSpace line
               end).

Definition body_of (line : string) : string :=
  match indexOf sp line with
  | None => EmptyString
  | Some firstSpace => slice_from (S firstSpace) line
  end.

(** [ok] and [deviceId] of the ADD-DEVICE branch. *)
Definition ack_ok (params : gmap string jsval) : bool :=
  bool_decide (get params "OK" = JBool true)
  || bool_decide (get params "OK" = JStr "1").

Definition ack_deviceId (params : gmap string jsval) : jsval :=
  match get params "DEVICEID" with
  | JNum n => JStr (to_String (JNum n))
  | v => v
  end.

Definition handleLine (s : State) (line : string) : outcome :=
  let cmd := verb_of line in
  let body := body_of line in
  let params := parseParams body in
  if String.eqb cmd "PING" then Returns (sendLine ("PONG " +:+ body) s)
  else if String.eqb cmd "PONG" then Returns s
  else if String.eqb cmd "BEGIN" then
    let s := set_lastBegin (Some params) s in
    let s := set_connecting false s in
    (* Register all devices *)
    Returns (fold_left (λ s dev, addDeviceToCompanion dev s) (devices s) s)
  else if String.eqb cmd "ADD-DEVICE" then
    (* Expect OK/ERROR flags in params *)
    let ok := ack_ok params in
    let deviceId := ack_deviceId params in
    match nonempty_string deviceId with
    | Some d =>
        let s := set_pendingDevices (pendingDevices s ∖ {[ d ]}) s in
        if ok && negb (truthy (get params "ERROR"))
        then Returns (set_registeredDevices ({[ d ]} ∪ registeredDevices s) s)
        else Returns s
    | None => Returns s
    end
  else if String.eqb cmd "KEYS-CLEAR" then
    match nonempty_string (safeString (get params "DEVICEID") (JStr EmptyString)) with
    | None => Returns s
    | Some deviceId =>
        and_then (API (internalSurfaceClear deviceId) s) (λ s,
        Returns (broadcastToDeviceWindow deviceId (WindowClear deviceId) s))
    end
  else if String.eqb cmd "KEY-STATE" then
    match nonempty_string (safeString (get params "DEVICEID") (JStr EmptyString)) with
    | None => Returns s
    | Some deviceId =>
        match devices_get deviceId (devices s) with
        | None => Returns s
        | Some dev =>
            let '(x, y) := decodeKey dev (get params "KEY") in
            (* the image and the text are decoded inside try/catch *)
            and_then (API (internalSurfaceDraw deviceId x y) s) (λ s,
            Returns (broadcastToDeviceWindow deviceId (WindowDraw deviceId x y) s))
        end
    end
  else Returns s.

(** The loop of [handleData].  [rest] is the part of [buffer] still to be
    searched for a newline and [line] the code units before it, back to
    the last newline: at a newline the source slices [line] off and
    assigns what follows it to [buffer], before the line is handled.
    ([handleLine] does not touch [buffer].) *)
Fixpoint handleData_loop (rest : string) (line : string) (s : State) : outcome :=
  match rest with
  | EmptyString => Returns s
  | String c rest' =>
      if Ascii.eqb c lf then
        let s := set_buffer rest' s in
        let line := if endsWith cr line then dropLast line else line in
        if is_empty line then handleData_loop rest' EmptyString s
        else and_then (handleLine s line) (handleData_loop rest' EmptyString)
      else handleData_loop rest' (snoc line c) s
  end.

Definition handleData (chunk : string) (s : State) : outcome :=
  let s := set_buffer (buffer s +:+ chunk) s in
  handleData_loop (buffer s) EmptyString s.

(** ** The bridge in its event loop *)

Definition init (port : Z) (s : State) : outcome :=
  let s := set_apiPort (Some port) s in
  and_then (reloadFromConfig s) (λ s,
  (* Keep in sync with settings: the callback below is registered here *)
  (* Start connection if anything is configured *)
  Returns (reconnect s)).

(** The callback registered with [config.onDidChange]. *)
Definition on_config_change (s : State) : outcome :=
  and_then (reloadFromConfig s) (λ s, Returns (reconnect s)).

Definition empty_config : Config :=
  {| companionHost := JUndefined; companionPort := JUndefined; cfg_devices := [] |}.

(** The object as its constructor leaves it, over a configuration
    store. *)
Definition new (cfg : Config) : State :=
  {| apiPort := None; socket := false; buffer := EmptyString;
     connected := false; connecting := false; reconnectTimer := None;
     lastBegin := None; devices := []; windows := [];
     registeredDevices := ∅; pendingDevices := ∅;
     config := cfg; timers := []; next_handle := O; effects := [] |}.

(** What can happen to the bridge: calls through its boundary, a change
    of the configuration store, socket events, a window closing, a
    timeout firing. *)
Inductive event :=
| Init (port : Z)
| ConfigSet (cfg : Config)
| Reload
| Reconnect
| Disconnect
| KeyPress (deviceId : string) (x y : jsval) (pressed : bool)
| OpenWindow (deviceId : string)
| OpenAll
| WindowClosed (deviceId : string)
| SockConnect
| SockData (chunk : string)
| SockError
| SockClose
| TimerFired (h : nat).

(** A timeout fires only while it is outstanding; it is no longer
    outstanding once it has fired. *)
Definition fire (h : nat) (s : State) : State :=
  if existsb (λ t, Nat.eqb t.1 h) (timers s)
  then reconnect_callback (set_timers (filter (λ t, t.1 ≠ h) (timers s)) s)
  else s.

(** What the bridge does at an event. *)
Definition handle (e : event) (s : State) : outcome :=
  match e with
  | Init port => init port s
  | ConfigSet cfg => on_config_change (set_config cfg s)
  | Reload => reloadFromConfig s
  | Reconnect => Returns (reconnect s)
  | Disconnect => Returns (disconnect s)
  | KeyPress d x y p => keyPress d x y p s
  | OpenWindow d => Returns (openWindow d s)
  | OpenAll => Returns (openAllWindows s)
  | WindowClosed d => Returns (on_window_closed d s)
  | SockConnect => Returns (on_connect s)
  | SockData chunk => handleData chunk s
  | SockError => Returns (on_error s)
  | SockClose => Returns (on_close s)
  | TimerFired h => Returns (fire h s)
  end.

(** The object after an event, whether its handler returned or raised:
    what the caller does with the error is not the bridge's concern. *)
Definition step (s : State) (e : event) : State := after (handle e s).

Definition run (s : State) (es : list event) : State := fold_left step es s.

(** The states the bridge can be in: any run of events from a fresh
    object.  Socket events are allowed at any point, which covers the
    events of a socket that has been replaced, and so is a change of the
    configuration, before [init] has registered the callback or
    after. *)
Inductive reachable : State → Prop :=
| reachable_new cfg : reachable (new cfg)
| reachable_step s e : reachable s → reachable (step s e).

End Bridge.

(* ===================================================================== *)
(** * The surface registry of [api.js] *)
(* ===================================================================== *)

Module Registry.

Definition id_char (c : ascii) : bool :=
  let n := nat_of_ascii c in
  ((97 <=? n) && (n <=? 122) || (65 <=? n) && (n <=? 90)
   || (48 <=? n) && (n <=? 57) || (n =? 95) || (n =? 45))%nat.

Fixpoint all_chars (p : ascii → bool) (s : string) : bool :=
  match s with
  | EmptyString => true
  | String c rest => p c && all_chars p rest
  end.

(** [sanitizeSurfaceId]; [None] is [null]. *)
Definition sanitizeSurfaceId (value : jsval) : option string :=
  match value with
  | JStr v =>
      let trimmed := trim v in
      if is_empty trimmed then None
      (* /^[a-zA-Z0-9_-]{1,64}$/ *)
      else if all_chars id_char trimmed && (String.length trimmed <=? 64)%nat
      then Some trimmed
      else None
  | _ => None
  end.

(** [clampInt] as the handlers call it.  api.js declares the function
    twice at top level; the later declaration, with a [fallback]
    parameter, is the one bound to the name, and the handlers pass three
    arguments, so [fallback] is [undefined] ([None] here).  [max] is
    [surface.columns - 1], which is NaN ([None]) when the surface was
    registered without a readable size. *)
Definition clampInt (value : jsval) (min : Z) (max : option Z) : option Z :=
  match parseInt (to_String value) with
  | Num n =>
      if n <? min then Some min
      else match max with
           | Some m => if m <? n then Some m else Some n
           | None => Some n
           end
  | _ => None
  end.

(** A cached key state is a plain object; a property can be there with
    the value [undefined]. *)
Definition field (o : gmap string jsval) (k : string) : jsval :=
  default JUndefined (o !! k).

(** [{ ...a, ...b }]: every own property of [b], whatever its value,
    then those of [a] that [b] does not have. *)
Definition spread (a b : gmap string jsval) : gmap string jsval := b ∪ a.

(** A key of the [keys] object is the text [`${x},${y}`], which
    determines and is determined by the pair; [None] prints as
    [undefined]. *)
Record Surface := {
  surfaceId : string;
  name : string;
  product : option string;
  host : jsval;
  columns : option Z;
  rows : option Z;
  connectedAt : Z;
  lastSeen : Z;
  keys : gmap (option Z * option Z) (gmap string jsval);
}.

Record Info := {
  i_surfaceId : jsval;
  i_name : jsval;
  i_product : jsval;
  i_host : jsval;
  i_columns : jsval;
  i_rows : jsval;
}.

Record Payload := {
  p_surfaceId : jsval;
  p_x : jsval;
  p_y : jsval;
  p_text : jsval;
  p_bgColor : jsval;
  p_color : jsval;
  p_imageBase64 : jsval;
  p_action : jsval;
}.

(** What is sent to the subscribers ([io.sockets.emit]) and back to the
    calling socket ([socket.emit]). *)
Inductive emission :=
| Surfaces (snapshot : gmap string Surface)
| Draw (sid : string) (x y : option Z) (state : gmap string jsval)
| Key (sid : string) (x y : option Z) (action : string)
| Registered (sid : string)
| Error.

Record State := {
  surfaces : gmap string Surface;
  surfaceIdBySocketId : gmap string string;
  emitted : list emission;
}.

Definition empty : State :=
  {| surfaces := ∅; surfaceIdBySocketId := ∅; emitted := [] |}.

Definition string_or (v : jsval) : jsval :=
  match v with JStr _ => v | _ => JUndefined end.

Definition trimmed_string (v : jsval) : option string :=
  match v with
  | JStr x => if is_empty (trim x) then None else Some (trim x)
  | _ => None
  end.

(** The 'surface_register' handler of the socket [sock], whose peer
    address is [ipAddr], at time [now].  A payload that is [null] or
    [undefined] is [None]. *)
Definition surface_register (sock : string) (ipAddr : jsval) (now : Z)
    (info : option Info) (r : State) : State :=
  match info ≫= (λ i, sanitizeSurfaceId (i_surfaceId i)), info with
  | Some sid, Some i =>
      let s := {| surfaceId := sid;
                  name := default sid (trimmed_string (i_name i));
                  product := trimmed_string (i_product i);
                  host := if truthy (i_host i) then i_host i
                          else if truthy ipAddr then ipAddr else JNull;
                  columns := clampInt (i_columns i) 1 (Some 32);
                  rows := clampInt (i_rows i) 1 (Some 32);
                  connectedAt := now;
                  lastSeen := now;
                  keys := ∅ |} in
      let m := <[sid := s]> (surfaces r) in
      {| surfaces := m;
         surfaceIdBySocketId := <[sock := sid]> (surfaceIdBySocketId r);
         emitted := emitted r ++ [Registered sid; Surfaces m] |}
  | _, _ =>
      {| surfaces := surfaces r;
         surfaceIdBySocketId := surfaceIdBySocketId r;
         emitted := emitted r ++ [Error] |}
  end.

(** The surface a draw or key event is for. *)
Definition target (sock : string) (payload : option Payload) (r : State)
    : option (string * Surface) :=
  let sid := match payload ≫= (λ p, sanitizeSurfaceId (p_surfaceId p)) with
             | Some i => Some i
             | None => surfaceIdBySocketId r !! sock
             end in
  match sid with
  | Some i => if is_empty i then None else (λ s, (i, s)) <$> surfaces r !! i
  | None => None
  end.

Definition nextState (p : Payload) : gmap string jsval :=
  <["imageBase64" := string_or (p_imageBase64 p)]>
    (<["color" := string_or (p_color p)]>
       (<["bgColor" := string_or (p_bgColor p)]>
          (<["text" := string_or (p_text p)]> ∅))).

Definition key_of (s : Surface) (p : Payload) : option Z * option Z :=
  (clampInt (p_x p) 0 ((λ c, c - 1) <$> columns s),
   clampInt (p_y p) 0 ((λ c, c - 1) <$> rows s)).

(** The 'surface_draw' handler.  Reading [payload.x] of [null] throws,
    and the handler's [catch] drops the packet. *)
Definition surface_draw (sock : string) (now : Z) (payload : option Payload)
    (r : State) : State :=
  match target sock payload r, payload with
  | Some (sid, s), Some p =>
      let key := key_of s p in
      let merged := spread (default ∅ (keys s !! key)) (nextState p) in
      let s' := {| surfaceId := surfaceId s; name := name s;
                   product := product s; host := host s;
                   columns := columns s; rows := rows s;
                   connectedAt := connectedAt s;
                   lastSeen := now;
                   keys := <[key := merged]> (keys s) |} in
      {| surfaces := <[sid := s']> (surfaces r);
         surfaceIdBySocketId := surfaceIdBySocketId r;
         emitted := emitted r ++ [Draw sid key.1 key.2 merged] |}
  | _, _ => r
  end.

(** The 'surface_key' handler. *)
Definition surface_key (sock : string) (now : Z) (payload : option Payload)
    (r : State) : State :=
  match target sock payload r, payload with
  | Some (sid, s), Some p =>
      let key := key_of s p in
      let action := match p_action p with JStr a => a | _ => "press" end in
      let s' := {| surfaceId := surfaceId s; name := name s;
                   product := product s; host := host s;
                   columns := columns s; rows := rows s;
                   connectedAt := connectedAt s;
                   lastSeen := now;
                   keys := keys s |} in
      {| surfaces := <[sid := s']> (surfaces r);
         surfaceIdBySocketId := surfaceIdBySocketId r;
         emitted := emitted r ++ [Key sid key.1 key.2 action] |}
  | _, _ => r
  end.

(** The 'disconnect' handler. *)
Definition on_disconnect (sock : string) (r : State) : State :=
  match surfaceIdBySocketId r !! sock with
  | Some sid =>
      if is_empty sid then r
      else
        let m := delete sid (surfaces r) in
        {| surfaces := m;
           surfaceIdBySocketId := delete sock (surfaceIdBySocketId r);
           emitted := emitted r ++ [Surfaces m] |}
  | None => r
  end.

(** What a reader of the cache finds for [f] at the key [(x, y)] of the
    surface [sid]. *)
Definition cached (r : State) (sid : string) (key : option Z * option Z)
    (f : string) : jsval :=
  match surfaces r !! sid with
  | Some s => field (default ∅ (keys s !! key)) f
  | None => JUndefined
  end.

End Registry.

(* ===================================================================== *)
(** * Sample inputs and the predicates the statements use *)
(* ===================================================================== *)

Module Samples.
Import Bridge.

(** [s] between double quotes. *)
Definition quoted (s : string) : string := String dq (snoc s dq).

(** [text] followed by a newline. *)
Definition ln (text : string) : string := snoc text lf.

(** The body A B="x y" C of the specification. *)
Definition sample_body : string := "A B=" +:+ quoted "x y" +:+ " C".

(** K= followed by a quoted value: a, backslash, double quote, b c. *)
Definition escaped_body : string :=
  "K=" +:+ String dq ("a" +:+ String bs (String dq ("b c" +:+ String dq EmptyString))).

(** A, then B= and an opening quote before x y that is never closed. *)
Definition unclosed_body : string := "A B=" +:+ String dq "x y".

Definition dev8x4 : Device := {| id := "dev1"; columns := 8; rows := 4; bitmap := 72 |}.

(** One 8x4 device, [dev1], and the default host and port. *)
Definition cfg1 : Config :=
  {| companionHost := JUndefined;
     companionPort := JUndefined;
     cfg_devices := [Some {| raw_id := JStr "dev1"; raw_columns := JNum 8;
                             raw_rows := JNum 4; raw_bitmap := JNum 72 |}] |}.

Definition begin_line : string := "BEGIN ApiVersion=" +:+ quoted "1.0.0".
Definition ack_dev1 : string := "ADD-DEVICE DEVICEID=" +:+ quoted "dev1" +:+ " OK=1".
Definition ack_ghost : string := "ADD-DEVICE DEVICEID=" +:+ quoted "ghost" +:+ " OK=1".
Definition clear_ghost : string := "KEYS-CLEAR DEVICEID=" +:+ quoted "ghost".
Definition clear_dev1 : string := "KEYS-CLEAR DEVICEID=" +:+ quoted "dev1".
Definition state_ghost : string := "KEY-STATE DEVICEID=" +:+ quoted "ghost" +:+ " KEY=19".

(** The ADD-DEVICE line for [dev8x4], character by character. *)
Definition add_dev1_text : string :=
  "ADD-DEVICE DEVICEID=" +:+ String dq ("dev1" +:+ String dq
  (" PRODUCT_NAME=" +:+ String dq ("ScreenDeck dev1" +:+ String dq
  (" KEYS_TOTAL=32 KEYS_PER_ROW=8 BITMAPS=72 COLORS=1 TEXT=1 TEXT_STYLE=0"
   +:+ " VARIABLES=" +:+ String dq ("W10=" +:+ String dq
  (" BRIGHTNESS=100 PINCODE_LOCK=" +:+ String dq (String dq
  (String lf EmptyString)))))))).

(** The KEY-PRESS line for a press of key 19 of [dev1]. *)
Definition key_press_19_text : string :=
  "KEY-PRESS DEVICEID=" +:+ String dq ("dev1" +:+ String dq
  (" KEY=19 PRESSED=1" +:+ String lf EmptyString)).

(** The bridge started with nothing configured, then given [cfg1] and
    asked to reconnect, with its socket connected. *)
Definition awaiting : State :=
  run (new empty_config) [Init 8090; ConfigSet cfg1; Reconnect; SockConnect].

(** ... after the peer's announcement ... *)
Definition active : State := run awaiting [SockData (ln begin_line)].

(** ... and after the acknowledgment for [dev1]. *)
Definition registered : State := run active [SockData (ln ack_dev1)].

(** A dashboard client registers the surface [dev-1], 8 by 4, draws the
    text Hello on key (0, 0), then draws on the same key with a colour
    and no text. *)
Definition info1 : Registry.Info :=
  {| Registry.i_surfaceId := JStr "dev-1"; Registry.i_name := JUndefined;
     Registry.i_product := JUndefined; Registry.i_host := JUndefined;
     Registry.i_columns := JNum 8; Registry.i_rows := JNum 4 |}.

Definition draw_at (x y : Z) (text color : jsval) : Registry.Payload :=
  {| Registry.p_surfaceId := JUndefined; Registry.p_x := JNum x; Registry.p_y := JNum y;
     Registry.p_text := text; Registry.p_bgColor := JUndefined;
     Registry.p_color := color; Registry.p_imageBase64 := JUndefined;
     Registry.p_action := JUndefined |}.

Definition reg1 : Registry.State :=
  Registry.surface_register "sock1" (JStr "10.0.0.7") 100 (Some info1) Registry.empty.

Definition reg2 : Registry.State :=
  Registry.surface_draw "sock1" 101 (Some (draw_at 0 0 (JStr "Hello") JUndefined)) reg1.

Definition reg3 : Registry.State :=
  Registry.surface_draw "sock1" 102 (Some (draw_at 0 0 JUndefined (JStr "#ffffff"))) reg2.

End Samples.

Module Predicates.
Import Bridge.

(** No double quote and no backslash. *)
Definition plain_char (c : ascii) : bool :=
  negb (Ascii.eqb c dq) && negb (Ascii.eqb c bs).

Definition plain (s : string) : bool := Registry.all_chars plain_char s.

(** The line ends in a backslash that escapes nothing. *)
Fixpoint dangling (s : string) : bool :=
  match s with
  | EmptyString => false
  | String c rest =>
      if Ascii.eqb c bs then
        match rest with
        | EmptyString => true
        | String _ rest' => dangling rest'
        end
      else dangling rest
  end.

(** The four connection states of the design, read off the two flags. *)
Inductive ConnState := Disconnected | Connecting | AwaitingHandshake | Active.

Definition conn_state (connected connecting : bool) : ConnState :=
  match connected, connecting with
  | false, false => Disconnected
  | false, true => Connecting
  | true, true => AwaitingHandshake
  | true, false => Active
  end.

(** The state that [getStatus] reports. *)
Definition state_of (s : State) : ConnState :=
  conn_state (st_connected (getStatus s)) (st_connecting (getStatus s)).

Definition is_data (e : event) : bool :=
  match e with SockData _ => true | _ => false end.

(** The ADD-DEVICE line for a device, written out in full with its
    newline: the id, a product name, the number of keys and of keys per
    row, the bitmap size, colours and text supported, no text style, an
    empty list of variables (in base64), full brightness, no pin-code
    lock. *)
Definition add_device_line (dev : Device) : string :=
  "ADD-DEVICE DEVICEID=" +:+ Samples.quoted (id dev)
  +:+ " PRODUCT_NAME=" +:+ Samples.quoted ("ScreenDeck " +:+ id dev)
  +:+ " KEYS_TOTAL=" +:+ Z_to_string (columns dev * rows dev)
  +:+ " KEYS_PER_ROW=" +:+ Z_to_string (columns dev)
  +:+ " BITMAPS=" +:+ Z_to_string (bitmap dev)
  +:+ " COLORS=1 TEXT=1 TEXT_STYLE=0 VARIABLES=" +:+ Samples.quoted "W10="
  +:+ " BRIGHTNESS=100 PINCODE_LOCK=" +:+ Samples.quoted EmptyString
  +:+ String lf EmptyString.

(** The timeouts that are outstanding when [reconnectTimer] is all there
    is: none, or that one, due after 1000 ms. *)
Definition timer_of (t : option nat) : list (nat * Z) :=
  match t with Some h => [(h, 1000)] | None => [] end.

(** What [handleLine] and the senders never touch. *)
Definition frame (s s' : State) : Prop :=
  apiPort s' = apiPort s ∧ socket s' = socket s ∧ buffer s' = buffer s
  ∧ connected s' = connected s ∧ reconnectTimer s' = reconnectTimer s
  ∧ devices s' = devices s ∧ windows s' = windows s ∧ config s' = config s
  ∧ timers s' = timers s ∧ next_handle s' = next_handle s.

(** The handshake sets, and the timer as the object and the event loop
    see it. *)
Definition hs (s : State) : gset string * gset string :=
  (pendingDevices s, registeredDevices s).

Definition tm (s : State) : option nat * list (nat * Z) :=
  (reconnectTimer s, timers s).

(** A handler that leaves devices, timer and handshake sets alone. *)
Definition keeps (s s' : State) : Prop :=
  devices s' = devices s ∧ tm s' = tm s ∧ hs s' = hs s.

(** Every outstanding timeout is the one in [reconnectTimer]. *)
Definition timers_ok (s : State) : Prop :=
  timers s = timer_of (reconnectTimer s).

Definition ids_unique (s : State) : Prop := NoDup (map id (devices s)).

Definition socket_down (e : event) : Prop := e = SockError ∨ e = SockClose.

End Predicates.

(* ===================================================================== *)
(** * More of [api.js] and [index.js] *)
(* ===================================================================== *)

Module Settings.

(** [clampInt] of api.js called with a fallback and a numeric bound: the
    declaration that [Registry.clampInt] embeds, with [fallback] given. *)
Definition clampInt (value : jsval) (min max fallback : Z) : Z :=
  default fallback (Registry.clampInt value min (Some max)).

Definition clampOpacity01Or100 (value : jsval) (fallback : Z) : Z :=
  (* UI currently uses 0-100. Store as 0-100 integer. *)
  clampInt value 0 100 fallback.

Definition sanitizeColorString (value : jsval) (fallback : string) : string :=
  match value with
  | JStr x =>
      let v := trim x in
      if is_empty v then fallback
      else if (32 <? String.length v)%nat then fallback
      else v
  | _ => fallback
  end.

(** An element of the [devices] array posted to /integrations/screendeck,
    when it is an object. *)
Record Entry := {
  e_id : jsval;
  e_columns : jsval;
  e_rows : jsval;
  e_bitmap : jsval;
  e_backgroundColor : jsval;
  e_backgroundOpacity : jsval;
  e_alwaysOnTop : jsval;
  e_movable : jsval;
  e_disableButtonPresses : jsval;
}.

(** What [sanitizeScreenDeckDevices] pushes for an element. *)
Record Cleaned := {
  c_id : string;
  c_columns : Z;
  c_rows : Z;
  c_bitmap : Z;
  c_backgroundColor : string;
  c_backgroundOpacity : Z;
  c_alwaysOnTop : bool;
  c_movable : bool;
  c_disableButtonPresses : bool;
}.

(** The body of the loop of [sanitizeScreenDeckDevices] up to the [push]:
    [None] where the loop says [continue]. *)
Definition clean_entry (e : option Entry) : option Cleaned :=
  match e with
  | None => None
  | Some d =>
      let i := match e_id d with JStr x => trim x | _ => EmptyString end in
      if is_empty i || (128 <? String.length i)%nat then None
      else Some {| c_id := i;
                   c_columns := clampInt (e_columns d) 1 32 8;
                   c_rows := clampInt (e_rows d) 1 32 4;
                   c_bitmap := clampInt (e_bitmap d) 1 512 72;
                   c_backgroundColor := sanitizeColorString (e_backgroundColor d) "#000000";
                   c_backgroundOpacity := clampOpacity01Or100 (e_backgroundOpacity d) 60;
                   c_alwaysOnTop := truthy (e_alwaysOnTop d);
                   c_movable := truthy (e_movable d);
                   c_disableButtonPresses := truthy (e_disableButtonPresses d) |}
  end.

(** The loop, with its [break] once 32 devices are kept. *)
Fixpoint sanitize_loop (devices : list (option Entry)) (cleaned : list Cleaned)
    : list Cleaned :=
  match devices with
  | [] => cleaned
  | d :: rest =>
      match clean_entry d with
      | None => sanitize_loop rest cleaned
      | Some c =>
          let cleaned := (cleaned ++ [c])%list in
          if (32 <=? length cleaned)%nat then cleaned else sanitize_loop rest cleaned
      end
  end.

(** [sanitizeScreenDeckDevices]; the argument is [None] when it is not an
    array, and the result [None] is [undefined]. *)
Definition sanitizeScreenDeckDevices (devices : option (list (option Entry)))
    : option (list Cleaned) :=
  (λ ds, sanitize_loop ds []) <$> devices.

(** A kept device as the bridge reads it back from the configuration
    store. *)
Definition stored (c : Cleaned) : option Bridge.RawDevice :=
  Some {| Bridge.raw_id := JStr (c_id c);
          Bridge.raw_columns := JNum (c_columns c);
          Bridge.raw_rows := JNum (c_rows c);
          Bridge.raw_bitmap := JNum (c_bitmap c) |}.

(** The descriptor the bridge holds for a kept device. *)
Definition device_of (c : Cleaned) : Bridge.Device :=
  {| Bridge.id := c_id c; Bridge.columns := c_columns c;
     Bridge.rows := c_rows c; Bridge.bitmap := c_bitmap c |}.

(** The body of a POST to /integrations/screendeck, as far as the
    settings the bridge reads go.  A property that is absent is
    [JUndefined]; [b_devices] is [None] when the property is absent or is
    not an array, the two cases in which the stored list is kept. *)
Record Body := {
  b_companionHost : jsval;
  b_companionPort : jsval;
  b_devices : option (list (option Entry));
}.

(** [next], which the handler stores with [config.set('screenDeck', next)],
    from the body and the section as it was. *)
Definition post (body : Body) (existing : Bridge.Config) : Bridge.Config :=
  {| Bridge.companionHost :=
       match b_companionHost body with
       | JStr h => if is_empty (trim h) then Bridge.companionHost existing
                   else JStr (trim h)
       | _ => Bridge.companionHost existing
       end;
     Bridge.companionPort :=
       match b_companionPort body with
       | JUndefined => Bridge.companionPort existing
       | v => match parseInt (to_String v) with
              | Num p => if (1 <=? p) && (p <=? 65535) then JNum p
                         else Bridge.companionPort existing
              | _ => Bridge.companionPort existing
              end
       end;
     Bridge.cfg_devices :=
       match sanitizeScreenDeckDevices (b_devices body) with
       | Some cleaned => map stored cleaned
       | None => Bridge.cfg_devices existing
       end |}.

End Settings.

Module Ipc.
Import Bridge.

(** The payload of a 'screendeck:key' message, when it is an object. *)
Record KeyMessage := {
  m_deviceId : jsval;
  m_x : jsval;
  m_y : jsval;
  m_pressed : jsval;
}.

(** The 'screendeck:key' listener of index.js; a payload that is [null] or
    [undefined] is [None].  The listener's [catch] swallows what
    [keyPress] raises. *)
Definition on_key (payload : option KeyMessage) (s : State) : State :=
  match payload with
  | None => s
  | Some m =>
      match nonempty_string (m_deviceId m) with
      | Some deviceId =>
          after (keyPress deviceId (m_x m) (m_y m) (truthy (m_pressed m)) s)
      | None => s
      end
  end.

(** The 'screendeck:getDevice' handler; [None] is [null]. *)
Definition getDevice (deviceId : jsval) (s : State) : option Device :=
  match deviceId with
  | JStr d => devices_get d (devices s)
  | _ => None
  end.

(** The 'screendeck:reconnect' handler: [reconnect], then the status is
    returned. *)
Definition on_reconnect (s : State) : Status * State :=
  let s := reconnect s in (getStatus s, s).

End Ipc.

Module RegistryRun.
Import Registry.

(** What the socket.io clients of the registry do. *)
Inductive event :=
| Register (sock : string) (ipAddr : jsval) (now : Z) (info : option Info)
| DrawKey (sock : string) (now : Z) (payload : option Payload)
| PressKey (sock : string) (now : Z) (payload : option Payload)
| Gone (sock : string).

Definition step (r : State) (e : event) : State :=
  match e with
  | Register sock ip now info => surface_register sock ip now info r
  | DrawKey sock now payload => surface_draw sock now payload r
  | PressKey sock now payload => surface_key sock now payload r
  | Gone sock => on_disconnect sock r
  end.

Definition run (r : State) (es : list event) : State := fold_left step es r.

Inductive reachable : State → Prop :=
| reachable_empty : reachable empty
| reachable_step r e : reachable r → reachable (step r e).

End RegistryRun.

Module Shapes.
Import Bridge.

(** A device descriptor within the limits [reloadFromConfig] imposes. *)
Definition well_formed (d : Device) : Prop :=
  is_empty (id d) = false
  ∧ 1 ≤ columns d ≤ 32 ∧ 1 ≤ rows d ≤ 32 ∧ 1 ≤ bitmap d ≤ 512.

Definition no_newline (s : string) : Prop := indexOf lf s = None.








(** A surface whose sizes and cached keys are within the limits of
    'surface_register' and 'surface_draw'. *)
Definition in_range (bound : option Z) (v : option Z) : Prop :=
  match v with
  | None => True
  | Some x => 0 ≤ x ∧ match bound with Some c => x ≤ c - 1 | None => True end
  end.

Definition size_ok (c : option Z) : Prop :=
  match c with Some n => 1 ≤ n ≤ 32 | None => True end.

Definition surface_ok (sid : string) (s : Registry.Surface) : Prop :=
  Registry.surfaceId s = sid
  ∧ Registry.sanitizeSurfaceId (JStr sid) = Some sid
  ∧ size_ok (Registry.columns s) ∧ size_ok (Registry.rows s)
  ∧ ∀ key st, Registry.keys s !! key = Some st →
      in_range (Registry.columns s) key.1 ∧ in_range (Registry.rows s) key.2.

(** Every registered surface is well shaped, and every socket is mapped
    to an id that [sanitizeSurfaceId] accepts as it stands. *)
Definition registry_ok (r : Registry.State) : Prop :=
  (∀ sid s, Registry.surfaces r !! sid = Some s → surface_ok sid s)
  ∧ (∀ sock sid, Registry.surfaceIdBySocketId r !! sock = Some sid →
       Registry.sanitizeSurfaceId (JStr sid) = Some sid).

(** A device entry within the limits of [sanitizeScreenDeckDevices]. *)
Definition clean_ok (c : Settings.Cleaned) : Prop :=
  is_empty (Settings.c_id c) = false
  ∧ (String.length (Settings.c_id c) ≤ 128)%nat
  ∧ trim (Settings.c_id c) = Settings.c_id c
  ∧ 1 ≤ Settings.c_columns c ≤ 32
  ∧ 1 ≤ Settings.c_rows c ≤ 32
  ∧ 1 ≤ Settings.c_bitmap c ≤ 512
  ∧ 0 ≤ Settings.c_backgroundOpacity c ≤ 100
  ∧ (1 ≤ String.length (Settings.c_backgroundColor c) ≤ 32)%nat.

(** The bridge at rest: nothing configured, no window, no socket, no
    timeout. *)
Definition idle (s : State) : Prop :=
  devices s = [] ∧ windows s = [] ∧ socket s = false
  ∧ reconnectTimer s = None ∧ timers s = [].

(** What [disconnect] does to the world: the pending timeout is cleared,
    then the socket destroyed. *)
Definition teardown (s : State) : list effect :=
  (match reconnectTimer s with Some h => [ClearTimeout h] | None => [] end
   ++ if socket s then [SocketDestroy] else [])%list.

(** An event that does not read the configuration store. *)
Definition leaves_config (e : event) : bool :=
  match e with
  | Init _ | ConfigSet _ | Reload => false
  | _ => true
  end.

(** The KEY-PRESS line for a key of a device, written out in full with
    its newline. *)
Definition key_press_line (deviceId : string) (keyIndex : Z) (pressed : bool)
    : string :=
  "KEY-PRESS DEVICEID=" +:+ Samples.quoted deviceId
  +:+ " KEY=" +:+ Z_to_string keyIndex
  +:+ " PRESSED=" +:+ (if pressed then "1" else "0")
  +:+ String lf EmptyString.

End Shapes.

Module Images.

(** [detectImageMime].  A buffer is the list of its bytes; [None] is a
    buffer that is missing, and the result [None] is [null]. *)
Definition detectImageMime (buffer : option (list Z)) : option string :=
  match buffer with
  | None => None
  | Some b =>
      if (length b <? 4)%nat then None
      else
        let byte i := nth i b 0 in
        (* PNG: 89 50 4E 47 *)
        if (byte 0%nat =? 0x89) && (byte 1%nat =? 0x50) && (byte 2%nat =? 0x4e)
           && (byte 3%nat =? 0x47) then Some "image/png"
        (* JPEG: FF D8 *)
        else if (byte 0%nat =? 0xff) && (byte 1%nat =? 0xd8) then Some "image/jpeg"
        (* BMP: 42 4D *)
        else if (byte 0%nat =? 0x42) && (byte 1%nat =? 0x4d) then Some "image/bmp"
        (* GIF: 47 49 46 *)
        else if (byte 0%nat =? 0x47) && (byte 1%nat =? 0x49) && (byte 2%nat =? 0x46)
        then Some "image/gif"
        else None
  end.

(** The media type [handleLine] puts into the data URL of a bitmap. *)
Definition mime_of (buf : list Z) : string :=
  default "application/octet-stream" (detectImageMime (Some buf)).

End Images.

Module Examples.
Import Settings.

(** A settings request: a host with blanks around it, a port, and one
    device of five columns that leaves the rest to the defaults. *)
Definition deck_entry : Entry :=
  {| e_id := JStr "deck"; e_columns := JNum 5; e_rows := JUndefined;
     e_bitmap := JUndefined; e_backgroundColor := JUndefined;
     e_backgroundOpacity := JUndefined; e_alwaysOnTop := JUndefined;
     e_movable := JUndefined; e_disableButtonPresses := JUndefined |}.

Definition posted_body : Body :=
  {| b_companionHost := JStr " companion.local ";
     b_companionPort := JNum 16623;
     b_devices := Some [Some deck_entry] |}.

(** A key message of a device window. *)
Definition key_message : Ipc.KeyMessage :=
  {| Ipc.m_deviceId := JStr "dev1"; Ipc.m_x := JNum 9; Ipc.m_y := JStr "1";
     Ipc.m_pressed := JNum 1 |}.

End Examples.
(* ===================================================================== *)
(** * Properties of the codec *)
(* ===================================================================== *)

Section CodecFacts.
Import Samples Predicates.

Lemma append_cons (a : ascii) (s t : string) :
  String a s +:+ t = String a (s +:+ t).
Proof. reflexivity. Qed.

Lemma append_nil (t : string) : EmptyString +:+ t = t.
Proof. reflexivity. Qed.

Lemma append_snoc (cur : string) (c : ascii) (rest : string) :
  snoc cur c +:+ rest = cur +:+ String c rest.
Proof.
  unfold snoc. induction cur as [|a cur IH]; [done|].
  rewrite !append_cons. by rewrite IH.
Qed.

Lemma append_empty_r (s : string) : s +:+ EmptyString = s.
Proof. induction s as [|a s IH]; [done|]. rewrite append_cons. by rewrite IH. Qed.

Lemma is_empty_false_ne (s : string) : is_empty s = false ↔ s ≠ EmptyString.
Proof. destruct s; simpl; split; congruence. Qed.

(** Inside quotes, text without quote or backslash is taken whole. *)
Lemma split_loop_quoted_plain (body : string) :
  ∀ cur toks, plain body = true →
    split_loop body cur true toks = (toks, cur +:+ body, true).
Proof.
  induction body as [|c body IH]; intros cur toks Hp; simpl.
  - by rewrite append_empty_r.
  - simpl in Hp. apply andb_true_iff in Hp as [Hc Hb].
    unfold plain_char in Hc. apply andb_true_iff in Hc as [Hq Hs].
    apply negb_true_iff in Hq, Hs. rewrite Hs, Hq. simpl.
    rewrite IH by done. by rewrite append_snoc.
Qed.

Lemma split_loop_cons (c : ascii) (rest cur : string) (q : bool) (toks : list string) :
  split_loop (String c rest) cur q toks
  = if Ascii.eqb c bs then
      match rest with
      | String d rest' => split_loop rest' (snoc cur d) q toks
      | EmptyString => split_loop rest cur q toks
      end
    else if Ascii.eqb c dq then split_loop rest cur (negb q) toks
    else if negb q && Ascii.eqb c sp then
      split_loop rest EmptyString q (if is_empty cur then toks else toks ++ [cur])
    else split_loop rest (snoc cur c) q toks.
Proof. reflexivity. Qed.

Lemma dangling_cons (c : ascii) (rest : string) :
  dangling (String c rest)
  = if Ascii.eqb c bs then
      match rest with
      | EmptyString => true
      | String _ rest' => dangling rest'
      end
    else dangling rest.
Proof. reflexivity. Qed.

(** The loop over [pre +:+ rest] is the loop over [rest], started where
    the loop over [pre] ends, as long as [pre] leaves no escape open. *)
Lemma split_loop_app_aux (pre : string) :
  let P p := ∀ rest cur q toks, dangling p = false →
    split_loop (p +:+ rest) cur q toks
    = let '(t, c, q') := split_loop p cur q toks in split_loop rest c q' t in
  P pre ∧ ∀ a, P (String a pre).
Proof.
  induction pre as [|d pre [IH1 IH2]]; cbv zeta.
  - split; [done|]. intros a rest cur q toks.
    rewrite append_cons, append_nil, dangling_cons.
    rewrite (split_loop_cons a rest), (split_loop_cons a EmptyString).
    destruct (Ascii.eqb a bs) eqn:Ea; [done|]. intros _.
    destruct (Ascii.eqb a dq); [done|].
    destruct (negb q && Ascii.eqb a sp); done.
  - split; [apply IH2|]. intros a rest cur q toks.
    rewrite (append_cons a), (dangling_cons a).
    rewrite (split_loop_cons a (String d pre +:+ rest)), (split_loop_cons a (String d pre)).
    destruct (Ascii.eqb a bs) eqn:Ea.
    + rewrite append_cons. apply IH1.
    + destruct (Ascii.eqb a dq); [apply IH2|].
      destruct (negb q && Ascii.eqb a sp); apply IH2.
Qed.

Lemma split_loop_app (pre rest cur : string) (q : bool) (toks : list string) :
  dangling pre = false →
  split_loop (pre +:+ rest) cur q toks
  = let '(t, c, q') := split_loop pre cur q toks in split_loop rest c q' t.
Proof. intros. by apply (split_loop_app_aux pre). Qed.

(** C7. The body tokenizer: [A B="x y" C] splits into [A], [B=x y] and
    [C], and parses to the map A: true, B: "x y", C: true; whatever the
    loop has accumulated is flushed at the end of the line even when the
    line ends inside quotes, so a line made of [pre], an opening quote
    and quote-free text [body] ends with the token that [pre] left
    unfinished followed by [body]; and a backslash followed by a double
    quote adds a double quote to the token being read and leaves the
    quote mode as it is. *)
Theorem tokenizer_quotes (line pre body cur cur' : string) (toks toks' : list string) :
  split_loop line EmptyString false [] = (toks, cur, true) →
  cur ≠ EmptyString →
  dangling pre = false →
  split_loop pre EmptyString false [] = (toks', cur', false) →
  plain body = true →
  cur' +:+ body ≠ EmptyString →
  splitTokensPreservingQuotes sample_body = ["A"; "B=x y"; "C"]
  ∧ parseParams sample_body
    = <["C" := JBool true]> (<["B" := JStr "x y"]> (<["A" := JBool true]> ∅))
  ∧ splitTokensPreservingQuotes line = (toks ++ [cur])%list
  ∧ splitTokensPreservingQuotes (pre +:+ String dq body) = (toks' ++ [cur' +:+ body])%list
  ∧ (∀ rest acc q ts,
       split_loop (String bs (String dq rest)) acc q ts
       = split_loop rest (snoc acc dq) q ts)
  ∧ splitTokensPreservingQuotes escaped_body = ["K=a" +:+ String dq "b c"].
Proof.
  intros Hline Hcur Hd Hpre Hp Hne.
  split; [by vm_compute|]. split; [by vm_compute|].
  split.
  { unfold splitTokensPreservingQuotes. rewrite Hline.
    apply is_empty_false_ne in Hcur. by rewrite Hcur. }
  split.
  { unfold splitTokensPreservingQuotes.
    rewrite split_loop_app, Hpre by done. cbv beta iota.
    rewrite split_loop_cons.
    replace (Ascii.eqb dq bs) with false by done.
    replace (Ascii.eqb dq dq) with true by done.
    cbv beta iota. change (negb false) with true.
    rewrite split_loop_quoted_plain by done.
    apply is_empty_false_ne in Hne. by rewrite Hne. }
  split; [done|]. by vm_compute.
Qed.

Lemma tokenizer_quotes_witness :
  splitTokensPreservingQuotes unclosed_body = ["A"; "B=x y"]
  ∧ splitTokensPreservingQuotes ("A B=" +:+ String dq "x y") = (["A"] ++ ["B=" +:+ "x y"])%list.
Proof.
  pose proof (tokenizer_quotes unclosed_body "A B=" "x y" "B=x y" "B=" ["A"] ["A"]) as H.
  destruct H as (_ & _ & H1 & H2 & _).
  - vm_compute. reflexivity.
  - discriminate.
  - vm_compute. reflexivity.
  - vm_compute. reflexivity.
  - vm_compute. reflexivity.
  - discriminate.
  - split; [exact H1 | exact H2].
Defined.

End CodecFacts.
(* ===================================================================== *)
(** * Properties of the bridge *)
(* ===================================================================== *)

(** Reduce the projections of a state through the field updates above
    them, and nothing else. *)
Ltac st_simpl :=
  unfold Predicates.hs, Predicates.tm in *;
  cbn [Bridge.apiPort Bridge.socket Bridge.buffer Bridge.connected
       Bridge.connecting Bridge.reconnectTimer Bridge.lastBegin Bridge.devices
       Bridge.windows Bridge.registeredDevices Bridge.pendingDevices
       Bridge.config Bridge.timers Bridge.next_handle Bridge.effects
       Bridge.set_apiPort Bridge.set_socket Bridge.set_buffer
       Bridge.set_connected Bridge.set_connecting Bridge.set_reconnectTimer
       Bridge.set_lastBegin Bridge.set_devices Bridge.set_windows
       Bridge.set_registeredDevices Bridge.set_pendingDevices
       Bridge.set_config Bridge.set_timers Bridge.set_next_handle Bridge.emit
       fst snd] in *.

Section BridgeFacts.
Import Bridge Samples Predicates Shapes.

(** ** Text *)

Lemma append_assoc_s (a b c : string) : (a +:+ b) +:+ c = a +:+ (b +:+ c).
Proof.
  induction a as [|x a IH]; [done|]. rewrite !append_cons. by rewrite IH.
Qed.

Lemma endsWith_skip c x e r : endsWith c (x +:+ String e r) = endsWith c (String e r).
Proof.
  induction x as [|d x IH]; [done|]. rewrite append_cons.
  cbn [endsWith]. destruct (x +:+ String e r) eqn:E; [by destruct x|]. exact IH.
Qed.

Lemma quoted_shape (v : string) :
  String dq (snoc v dq) = String dq EmptyString +:+ v +:+ String dq EmptyString.
Proof. reflexivity. Qed.

(** Below 10^21 a number prints as its plain numeral. *)
Lemma Number_small (n : Z) : Z.abs n < 10 ^ 21 → to_String (JNum n) = Z_to_string n.
Proof.
  intros H. cbn [to_String]. unfold Number_toString.
  by rewrite (proj2 (Z.ltb_lt _ _) H).
Qed.

(** What [sendCommand] renders for a registration, and for a key press,
    is the line written out in full. *)
Lemma add_device_rendered (dev : Device) :
  well_formed dev →
  terminated (command "ADD-DEVICE" (add_device_args dev)) = add_device_line dev.
Proof.
  intros (_ & Hc & Hr & Hb).
  assert (H21 : 10 ^ 21 = 1000000000000000000000) by reflexivity.
  unfold command, add_device_args, add_device_line, quoted.
  cbn [map render_arg fst snd join].
  rewrite !Number_small by nia. cbn [to_String].
  rewrite !quoted_shape.
  match goal with |- terminated ?w = _ =>
    assert (E : endsWith lf w = false)
      by (rewrite <- !append_assoc_s; by rewrite endsWith_skip) end.
  unfold terminated. rewrite E. unfold snoc.
  rewrite !append_assoc_s. reflexivity.
Qed.

Lemma key_press_rendered (d : string) (k : Z) (p : bool) :
  Z.abs k < 10 ^ 21 →
  terminated (command "KEY-PRESS"
    [("DEVICEID", JStr d); ("KEY", JNum k); ("PRESSED", JBool p)])
  = key_press_line d k p.
Proof.
  intros Hk. unfold command, key_press_line, quoted.
  cbn [map render_arg fst snd join].
  rewrite !Number_small by done. cbn [to_String].
  rewrite !quoted_shape.
  destruct p;
    (match goal with |- terminated ?w = _ =>
       assert (E : endsWith lf w = false)
         by (rewrite <- !append_assoc_s; by rewrite endsWith_skip) end;
     unfold terminated; rewrite E; unfold snoc;
     rewrite !append_assoc_s; reflexivity).
Qed.

(** ** What the senders leave alone *)

Lemma frame_refl s : frame s s.
Proof. by repeat split. Qed.

Lemma frame_trans s1 s2 s3 : frame s1 s2 → frame s2 s3 → frame s1 s3.
Proof. unfold frame. intuition congruence. Qed.

Lemma fold_left_frame {B} (f : State → B → State) (l : list B) :
  (∀ s b, frame s (f s b)) → ∀ s, frame s (fold_left f l s).
Proof.
  intros Hf. induction l as [|b l IH]; intros s; simpl; [apply frame_refl|].
  eapply frame_trans; [apply Hf | apply IH].
Qed.

Lemma sendLine_frame line s : frame s (sendLine line s).
Proof. unfold sendLine. destruct (_ || _); by repeat split. Qed.

Lemma sendLine_connecting line s : connecting (sendLine line s) = connecting s.
Proof. unfold sendLine. by destruct (_ || _). Qed.

Lemma addDevice_frame dev s : frame s (addDeviceToCompanion dev s).
Proof.
  unfold addDeviceToCompanion, sendCommand, sendLine.
  repeat (destruct (_ || _); simpl); by repeat split.
Qed.

Lemma addDevice_connecting dev s :
  connecting (addDeviceToCompanion dev s) = connecting s.
Proof.
  unfold addDeviceToCompanion, sendCommand, sendLine.
  by repeat (destruct (_ || _); simpl).
Qed.

Lemma fold_addDevice_connecting l : ∀ s,
  connecting (fold_left (λ s dev, addDeviceToCompanion dev s) l s) = connecting s.
Proof.
  induction l as [|d l IH]; intros s; simpl; [done|].
  by rewrite IH, addDevice_connecting.
Qed.

Lemma broadcast_frame d m s : frame s (broadcastToDeviceWindow d m s).
Proof. unfold broadcastToDeviceWindow. destruct (existsb _ _); by repeat split. Qed.

Lemma broadcast_connecting d m s :
  connecting (broadcastToDeviceWindow d m s) = connecting s.
Proof. unfold broadcastToDeviceWindow. by destruct (existsb _ _). Qed.

(** ** Returning and raising *)

Lemma after_and_then o k :
  after (and_then o k)
  = match o with Returns s => after (k s) | Raises _ s => s end.
Proof. by destruct o. Qed.

(** What holds before a loop and is kept by its body holds after it,
    however it ends. *)
Lemma for_each_kept {A} (p : State → Prop) (body : A → State → outcome)
    (l : list A) :
  (∀ a s, p s → p (after (body a s))) →
  ∀ s, p s → p (after (for_each l body s)).
Proof.
  intros Hb. induction l as [|a l IH]; intros s Hs; cbn [for_each]; [done|].
  rewrite after_and_then. specialize (Hb a s Hs).
  destruct (body a s) as [s'|c s']; [by apply IH | done].
Qed.

(** ** What a line does *)

Lemma handleLine_frame s line : frame s (after (handleLine s line)).
Proof.
  unfold handleLine.
  destruct (String.eqb _ "PING"); [apply sendLine_frame|].
  destruct (String.eqb _ "PONG"); [apply frame_refl|].
  destruct (String.eqb _ "BEGIN").
  { cbn [after].
    eapply frame_trans; [|apply fold_left_frame; intros; apply addDevice_frame].
    by repeat split. }
  destruct (String.eqb _ "ADD-DEVICE").
  { destruct (nonempty_string _); [|apply frame_refl].
    destruct (_ && _); by repeat split. }
  destruct (String.eqb _ "KEYS-CLEAR").
  { destruct (nonempty_string _); apply frame_refl. }
  destruct (String.eqb _ "KEY-STATE"); [|apply frame_refl].
  destruct (nonempty_string _); [|apply frame_refl].
  destruct (devices_get _ _); [|apply frame_refl].
  destruct (decodeKey _ _). apply frame_refl.
Qed.

(** Only BEGIN changes [connecting], and it clears it. *)
Lemma handleLine_connecting s line :
  connecting (after (handleLine s line))
  = if String.eqb (verb_of line) "BEGIN" then false else connecting s.
Proof.
  unfold handleLine.
  destruct (String.eqb _ "PING") eqn:E1.
  { apply String.eqb_eq in E1. rewrite E1. apply sendLine_connecting. }
  destruct (String.eqb _ "PONG") eqn:E2.
  { apply String.eqb_eq in E2. by rewrite E2. }
  destruct (String.eqb _ "BEGIN"); [cbn [after]; by rewrite fold_addDevice_connecting|].
  destruct (String.eqb _ "ADD-DEVICE").
  { destruct (nonempty_string _); [|done]. by destruct (_ && _). }
  destruct (String.eqb _ "KEYS-CLEAR").
  { by destruct (nonempty_string _). }
  destruct (String.eqb _ "KEY-STATE"); [|done].
  destruct (nonempty_string _); [|done].
  destruct (devices_get _ _); [|done].
  by destruct (decodeKey _ _).
Qed.

Lemma handleLine_connected s line :
  connected (after (handleLine s line)) = connected s.
Proof. apply (handleLine_frame s line). Qed.

(** What holds of the object before a chunk, and is kept by a change of
    [buffer] and by every line, holds after the chunk, however its
    handling ends. *)
Lemma handleData_loop_kept (p : State → Prop) :
  (∀ s b, p s → p (set_buffer b s)) →
  (∀ s line, p s → p (after (handleLine s line))) →
  ∀ rest line s, p s → p (after (handleData_loop rest line s)).
Proof.
  intros Hb Hl. induction rest as [|c rest IH]; intros line s Hs;
    cbn [handleData_loop]; [done|].
  destruct (Ascii.eqb c lf); [|by apply IH].
  destruct (is_empty _); [apply IH; by apply Hb|].
  rewrite after_and_then.
  pose proof (Hl (set_buffer rest s)
                (if endsWith cr line then dropLast line else line)
                (Hb _ _ Hs)) as H.
  destruct (handleLine _ _) as [s'|c' s']; [by apply IH | done].
Qed.

Lemma handleData_kept (p : State → Prop) chunk s :
  (∀ s b, p s → p (set_buffer b s)) →
  (∀ s line, p s → p (after (handleLine s line))) →
  p s → p (after (handleData chunk s)).
Proof.
  intros Hb Hl Hs. unfold handleData. apply handleData_loop_kept; auto.
Qed.

(** C9. While the socket is absent or the [connected] flag is false,
    [sendLine], and with it [sendCommand], leaves the bridge exactly as it
    was: nothing is written, nothing is kept for later. *)
Theorem send_while_disconnected (s : State) (line cmd : string)
    (args : list (string * jsval)) :
  socket s = false ∨ connected s = false →
  sendLine line s = s ∧ sendCommand cmd args s = s.
Proof.
  intros H. unfold sendCommand, sendLine.
  destruct H as [-> | ->]; simpl; [done|]. by rewrite orb_true_r.
Qed.

Lemma send_while_disconnected_witness :
  sendLine "PONG" (new cfg1) = new cfg1
  ∧ sendCommand "KEY-PRESS" [("DEVICEID", JStr "dev1"); ("KEY", JNum 3);
                             ("PRESSED", JBool true)] (new cfg1) = new cfg1.
Proof.
  apply (send_while_disconnected (new cfg1)). left. reflexivity.
Defined.

Lemma addDevice_known dev s :
  id dev ∈ pendingDevices s ∨ id dev ∈ registeredDevices s →
  addDeviceToCompanion dev s = s.
Proof.
  intros H. unfold addDeviceToCompanion, has.
  destruct (_ || _); [done|].
  destruct H as [H | H].
  - rewrite (bool_decide_eq_true_2 (id dev ∈ pendingDevices s)) by done.
    by rewrite orb_true_r.
  - by rewrite (bool_decide_eq_true_2 (id dev ∈ registeredDevices s)) by done.
Qed.

Lemma addDevice_fresh dev s :
  connected s = true → socket s = true →
  id dev ∉ registeredDevices s → id dev ∉ pendingDevices s →
  addDeviceToCompanion dev s
  = emit (SocketWrite (terminated (command "ADD-DEVICE" (add_device_args dev))))
      (set_pendingDevices ({[ id dev ]} ∪ pendingDevices s) s).
Proof.
  intros Hc Hs Hr Hp. unfold addDeviceToCompanion, has, sendCommand, sendLine.
  rewrite Hc, Hs. cbn [negb orb].
  rewrite (bool_decide_eq_false_2 (id dev ∈ registeredDevices s)) by done.
  rewrite (bool_decide_eq_false_2 (id dev ∈ pendingDevices s)) by done.
  cbn [orb]. st_simpl. by rewrite Hc, Hs.
Qed.

Lemma addDevice_idem dev s :
  addDeviceToCompanion dev (addDeviceToCompanion dev s) = addDeviceToCompanion dev s.
Proof.
  destruct (negb (connected s) || negb (socket s)) eqn:Hup.
  { assert (E : addDeviceToCompanion dev s = s)
      by (unfold addDeviceToCompanion; by rewrite Hup).
    by rewrite !E. }
  apply orb_false_iff in Hup as [Hc Hs].
  apply negb_false_iff in Hc, Hs.
  destruct (decide (id dev ∈ pendingDevices s ∨ id dev ∈ registeredDevices s)) as [H|H].
  { by rewrite !(addDevice_known dev s). }
  apply addDevice_known. left.
  rewrite addDevice_fresh by (try done; intros ?; apply H; auto).
  st_simpl. set_solver.
Qed.

(** C6. With the connection up and a device of the configuration that
    is neither pending nor registered, two registration attempts in a row
    write exactly one line, the ADD-DEVICE line of that device in full,
    and leave the device in [pendingDevices] once: the second attempt
    changes nothing.  In any state, a second attempt right after a first
    changes nothing, and an attempt for a device that is pending or
    registered leaves the bridge as it was. *)
Theorem registration_idempotent (s : State) (dev : Device) :
  connected s = true → socket s = true →
  id dev ∉ registeredDevices s → id dev ∉ pendingDevices s →
  well_formed dev →
  let s1 := addDeviceToCompanion dev s in
  let s2 := addDeviceToCompanion dev s1 in
  effects s2
  = (effects s
     ++ [SocketWrite
           ("ADD-DEVICE DEVICEID=" +:+ quoted (id dev)
            +:+ " PRODUCT_NAME=" +:+ quoted ("ScreenDeck " +:+ id dev)
            +:+ " KEYS_TOTAL=" +:+ Z_to_string (columns dev * rows dev)
            +:+ " KEYS_PER_ROW=" +:+ Z_to_string (columns dev)
            +:+ " BITMAPS=" +:+ Z_to_string (bitmap dev)
            +:+ " COLORS=1 TEXT=1 TEXT_STYLE=0 VARIABLES=" +:+ quoted "W10="
            +:+ " BRIGHTNESS=100 PINCODE_LOCK=" +:+ quoted EmptyString
            +:+ String lf EmptyString)])%list
  ∧ pendingDevices s2 = {[ id dev ]} ∪ pendingDevices s
  ∧ size (pendingDevices s2) = S (size (pendingDevices s))
  ∧ registeredDevices s2 = registeredDevices s
  ∧ s2 = s1
  ∧ (∀ s' dev',
       addDeviceToCompanion dev' (addDeviceToCompanion dev' s')
       = addDeviceToCompanion dev' s')
  ∧ (∀ s' dev', id dev' ∈ pendingDevices s' ∨ id dev' ∈ registeredDevices s' →
       addDeviceToCompanion dev' s' = s').
Proof.
  intros Hc Hs Hr Hp Hwf s1 s2.
  assert (Hs1 : s1 = emit (SocketWrite (add_device_line dev))
                       (set_pendingDevices ({[ id dev ]} ∪ pendingDevices s) s)).
  { unfold s1. rewrite addDevice_fresh by done. by rewrite add_device_rendered. }
  assert (Hs2 : s2 = s1) by apply addDevice_idem.
  rewrite Hs2, Hs1. st_simpl. repeat split; try done.
  - rewrite size_union by set_solver. by rewrite size_singleton.
  - intros. apply addDevice_idem.
  - intros. by apply addDevice_known.
Qed.

Lemma registration_idempotent_witness :
  effects (addDeviceToCompanion dev8x4 (addDeviceToCompanion dev8x4 awaiting))
  = (effects awaiting ++ [SocketWrite add_dev1_text])%list
  ∧ pendingDevices (addDeviceToCompanion dev8x4 (addDeviceToCompanion dev8x4 awaiting))
    = {[ "dev1" ]} ∪ pendingDevices awaiting.
Proof.
  pose proof (registration_idempotent awaiting dev8x4) as H.
  destruct H as (H1 & H2 & _).
  - reflexivity.
  - reflexivity.
  - vm_compute. discriminate.
  - vm_compute. discriminate.
  - vm_compute. repeat split; discriminate.
  - split; [exact H1 | exact H2].
Defined.

Lemma fold_handleLine_connected ls : ∀ s,
  connected (fold_left (λ s l, after (handleLine s l)) ls s) = connected s.
Proof.
  induction ls as [|l ls IH]; intros s; simpl; [done|].
  by rewrite IH, handleLine_connected.
Qed.

Lemma fold_handleLine_connecting ls : ∀ s,
  Forall (λ l, verb_of l ≠ "BEGIN") ls →
  connecting (fold_left (λ s l, after (handleLine s l)) ls s) = connecting s.
Proof.
  induction ls as [|l ls IH]; intros s Hls; simpl; [done|].
  inversion Hls as [|? ? Hl Hrest]; subst.
  rewrite IH by done. rewrite handleLine_connecting.
  apply String.eqb_neq in Hl. by rewrite Hl.
Qed.

Lemma scheduleReconnect_flags s :
  connected (scheduleReconnect s) = connected s
  ∧ connecting (scheduleReconnect s) = connecting s.
Proof.
  unfold scheduleReconnect. destruct (reconnectTimer s); [done|].
  by destruct (devices s).
Qed.

Lemma disconnect_flags s :
  connected (disconnect s) = false ∧ connecting (disconnect s) = false.
Proof.
  unfold disconnect. simpl. destruct (reconnectTimer s); simpl; by destruct (socket s).
Qed.

Lemma on_error_flags s :
  connected (on_error s) = false ∧ connecting (on_error s) = false.
Proof.
  unfold on_error.
  destruct (scheduleReconnect_flags
              (set_pendingDevices ∅ (set_registeredDevices ∅ (set_lastBegin None
                 (set_connected false (set_connecting false s)))))) as [-> ->].
  done.
Qed.

Lemma on_close_eq s : on_close s = on_error s.
Proof. unfold on_close, on_error. reflexivity. Qed.

Lemma on_close_flags s :
  connected (on_close s) = false ∧ connecting (on_close s) = false.
Proof. rewrite on_close_eq. apply on_error_flags. Qed.

Lemma conn_state_inj a b c d : conn_state a b = conn_state c d ↔ (a, b) = (c, d).
Proof. destruct a, b, c, d; simpl; split; congruence. Qed.

(** C10. After the socket's 'connect' event [getStatus] reports
    connected and connecting both true, and it keeps doing so while the
    lines that arrive are not BEGIN; a BEGIN line clears connecting and
    leaves connected true.  The four connection states are the four
    values of the flag pair: [connect] leaves the pair at Connecting, the
    'error' and 'close' handlers and [disconnect] at Disconnected. *)
Theorem handshake_flags (s : State) (ls : list string) (line host : string) (port : Z) :
  Forall (λ l, verb_of l ≠ "BEGIN") ls →
  verb_of line = "BEGIN" →
  let s1 := on_connect s in
  let s2 := fold_left (λ s l, after (handleLine s l)) ls s1 in
  let s3 := after (handleLine s2 line) in
  (st_connected (getStatus s1) = true ∧ st_connecting (getStatus s1) = true)
  ∧ (st_connected (getStatus s2) = true ∧ st_connecting (getStatus s2) = true)
  ∧ (st_connected (getStatus s3) = true ∧ st_connecting (getStatus s3) = false)
  ∧ (state_of s1 = AwaitingHandshake ∧ state_of s2 = AwaitingHandshake
     ∧ state_of s3 = Active)
  ∧ (state_of (connect host port s) = Connecting
     ∧ state_of (on_error s) = Disconnected
     ∧ state_of (on_close s) = Disconnected
     ∧ state_of (disconnect s) = Disconnected)
  ∧ (∀ a b c d, conn_state a b = conn_state c d ↔ (a, b) = (c, d)).
Proof.
  intros Hls Hline s1 s2 s3.
  assert (H1 : connected s1 = true ∧ connecting s1 = true) by done.
  assert (H2 : connected s2 = true ∧ connecting s2 = true).
  { unfold s2. by rewrite fold_handleLine_connected, fold_handleLine_connecting. }
  assert (H3 : connected s3 = true ∧ connecting s3 = false).
  { unfold s3. rewrite handleLine_connected, handleLine_connecting, Hline.
    by destruct H2. }
  unfold state_of. cbn [getStatus st_connected st_connecting].
  clearbody s1 s2 s3.
  destruct H1 as [-> ->], H2 as [-> ->], H3 as [-> ->].
  destruct (disconnect_flags s) as [Hd1 Hd2].
  destruct (on_error_flags s) as [He1 He2].
  destruct (on_close_flags s) as [Hc1 Hc2].
  rewrite Hd1, Hd2, He1, He2, Hc1, Hc2.
  repeat split; try done; apply conn_state_inj.
Qed.

Lemma handshake_flags_witness :
  state_of awaiting = AwaitingHandshake
  ∧ state_of (fold_left (λ s l, after (handleLine s l)) ["PING 1"; "PONG"] awaiting)
    = AwaitingHandshake
  ∧ state_of (after (handleLine
                (fold_left (λ s l, after (handleLine s l)) ["PING 1"; "PONG"] awaiting)
                begin_line))
    = Active.
Proof.
  pose proof (handshake_flags (run (new empty_config) [Init 8090; ConfigSet cfg1; Reconnect]) ["PING 1"; "PONG"]
                begin_line "127.0.0.1" 16622) as H.
  destruct H as (_ & _ & _ & H & _).
  - repeat constructor; vm_compute; discriminate.
  - vm_compute. reflexivity.
  - exact H.
Defined.

(** ** Key addressing *)

Lemma clampInt_bounds v lo hi fb :
  lo ≤ hi → lo ≤ fb ≤ hi → lo ≤ clampInt v lo hi fb ≤ hi.
Proof. intros. unfold clampInt. destruct (parseInt _); lia. Qed.

Lemma clampInt_numeral t n lo hi fb :
  parseInt t = Num n → clampInt (JStr t) lo hi fb = Z.max lo (Z.min hi n).
Proof. intros H. unfold clampInt. simpl. by rewrite H. Qed.

Lemma flat_bounds (dev : Device) (i : Z) :
  1 ≤ columns dev → 1 ≤ rows dev → 0 ≤ i ≤ columns dev * rows dev - 1 →
  Z.rem i (columns dev) = i mod columns dev
  ∧ 0 ≤ Z.rem i (columns dev) ≤ columns dev - 1
  ∧ 0 ≤ i / columns dev ≤ rows dev - 1.
Proof.
  intros Hc Hr Hi.
  rewrite Z.rem_mod_nonneg by lia.
  pose proof (Z.mod_pos_bound i (columns dev)) as Hm.
  assert (i / columns dev < rows dev) by (apply Z.div_lt_upper_bound; lia).
  assert (0 ≤ i / columns dev) by (apply Z.div_pos; lia).
  lia.
Qed.

Lemma decodeKey_flat dev key :
  (∀ k, key = JStr k → indexOf "/" k = None) →
  decodeKey dev key
  = (Z.rem (clampInt key 0 (columns dev * rows dev - 1) 0) (columns dev),
     clampInt key 0 (columns dev * rows dev - 1) 0 / columns dev).
Proof.
  intros H. unfold decodeKey. destruct key as [| | | |k]; try done.
  by rewrite (H k eq_refl).
Qed.

Lemma indexOf_append (c : ascii) (a b : string) :
  indexOf c a = None →
  indexOf c (a +:+ String c b) = Some (String.length a)
  ∧ slice_to (String.length a) (a +:+ String c b) = a
  ∧ slice_from (S (String.length a)) (a +:+ String c b) = b.
Proof.
  induction a as [|d a IH]; intros H.
  - rewrite append_nil. simpl. by rewrite Ascii.eqb_refl.
  - rewrite append_cons. simpl in *.
    destruct (Ascii.eqb d c); [done|].
    destruct (indexOf c a) eqn:E; [done|].
    destruct (IH eq_refl) as (-> & -> & ->). done.
Qed.

Lemma decodeKey_row_col dev rowStr colStr :
  indexOf "/" rowStr = None → indexOf "/" colStr = None →
  decodeKey dev (JStr (rowStr +:+ String "/" colStr))
  = (clampInt (JStr colStr) 0 (columns dev - 1) 0,
     clampInt (JStr rowStr) 0 (rows dev - 1) 0).
Proof.
  intros Hr Hc. unfold decodeKey.
  destruct (indexOf_append "/" rowStr colStr Hr) as (-> & -> & ->).
  by rewrite Hc.
Qed.

Lemma decodeKey_bounds dev key :
  1 ≤ columns dev → 1 ≤ rows dev →
  0 ≤ (decodeKey dev key).1 ≤ columns dev - 1
  ∧ 0 ≤ (decodeKey dev key).2 ≤ rows dev - 1.
Proof.
  intros Hc Hr.
  assert (Hflat : ∀ i, 0 ≤ i ≤ columns dev * rows dev - 1 →
            0 ≤ Z.rem i (columns dev) ≤ columns dev - 1
            ∧ 0 ≤ i / columns dev ≤ rows dev - 1)
    by (intros; by apply flat_bounds).
  assert (Hidx : 0 ≤ clampInt key 0 (columns dev * rows dev - 1) 0
                   ≤ columns dev * rows dev - 1)
    by (apply clampInt_bounds; nia).
  unfold decodeKey. destruct key as [| | | |k]; simpl; try by apply Hflat.
  destruct (indexOf "/" k); simpl; [|by apply Hflat].
  split; apply clampInt_bounds; lia.
Qed.

(** C8. Key addressing of KEY-STATE.  The decoded position is always
    within the grid.  A key without '/' is a flat index, clamped into
    0 .. columns*rows-1, with x = index mod columns and y = index div
    columns; with 8 columns (and at least 3 rows) index 19 is (3, 2).
    A key row/col gives y from the row, clamped into 0 .. rows-1, and x
    from the column, clamped into 0 .. columns-1; 2/3 is (3, 2).  On an
    8 by 4 grid, index 999 is (7, 3), index -1 is (0, 0), 9/40 is
    (7, 3). *)
Theorem key_addressing (dev : Device) (key : jsval) (rowStr colStr : string) :
  1 ≤ columns dev → 1 ≤ rows dev →
  indexOf "/" rowStr = None → indexOf "/" colStr = None →
  (0 ≤ (decodeKey dev key).1 ≤ columns dev - 1
   ∧ 0 ≤ (decodeKey dev key).2 ≤ rows dev - 1)
  ∧ ((∀ k, key = JStr k → indexOf "/" k = None) →
     let index := clampInt key 0 (columns dev * rows dev - 1) 0 in
     0 ≤ index ≤ columns dev * rows dev - 1
     ∧ (decodeKey dev key).1 = index mod columns dev
     ∧ (decodeKey dev key).2 = index / columns dev)
  ∧ (decodeKey dev (JStr (rowStr +:+ String "/" colStr))
     = (clampInt (JStr colStr) 0 (columns dev - 1) 0,
        clampInt (JStr rowStr) 0 (rows dev - 1) 0))
  ∧ (columns dev = 8 → 3 ≤ rows dev →
     decodeKey dev (JStr "19") = (3, 2) ∧ decodeKey dev (JStr "2/3") = (3, 2))
  ∧ (decodeKey dev8x4 (JStr "999") = (7, 3)
     ∧ decodeKey dev8x4 (JStr "-1") = (0, 0)
     ∧ decodeKey dev8x4 (JStr "9/40") = (7, 3)).
Proof.
  intros Hc Hr Hrow Hcol.
  split; [by apply decodeKey_bounds|].
  split.
  { intros Hflat index.
    assert (Hidx : 0 ≤ index ≤ columns dev * rows dev - 1)
      by (apply clampInt_bounds; nia).
    rewrite decodeKey_flat by done. simpl. fold index.
    destruct (flat_bounds dev index Hc Hr Hidx) as (-> & _ & _). done. }
  split; [by apply decodeKey_row_col|].
  split.
  { intros H8 H3. split.
    - rewrite decodeKey_flat by (intros k [= <-]; reflexivity).
      rewrite (clampInt_numeral "19" 19) by (vm_compute; reflexivity).
      rewrite H8.
      replace (Z.max 0 (Z.min (8 * rows dev - 1) 19)) with 19 by lia.
      reflexivity.
    - change "2/3" with ("2" +:+ String "/" "3").
      rewrite decodeKey_row_col by reflexivity.
      rewrite (clampInt_numeral "3" 3), (clampInt_numeral "2" 2)
        by (vm_compute; reflexivity).
      f_equal; lia. }
  repeat split; vm_compute; reflexivity.
Qed.

Lemma key_addressing_witness :
  decodeKey dev8x4 (JStr "19") = (3, 2) ∧ decodeKey dev8x4 (JStr "2/3") = (3, 2).
Proof.
  pose proof (key_addressing dev8x4 (JStr "19") "2" "3") as H.
  destruct H as (_ & _ & _ & H & _).
  - simpl. lia.
  - simpl. lia.
  - reflexivity.
  - reflexivity.
  - apply H; simpl; [reflexivity | lia].
Defined.

(** ** What each handler does to devices, timer and handshake sets *)

Lemma keeps_refl s : keeps s s.
Proof. by repeat split. Qed.

Lemma keeps_trans s1 s2 s3 : keeps s1 s2 → keeps s2 s3 → keeps s1 s3.
Proof. unfold keeps. intuition congruence. Qed.

Lemma fold_left_keeps {B} (f : State → B → State) (l : list B) :
  (∀ s b, keeps s (f s b)) → ∀ s, keeps s (fold_left f l s).
Proof.
  intros Hf. induction l as [|b l IH]; intros s; simpl; [apply keeps_refl|].
  eapply keeps_trans; [apply Hf | apply IH].
Qed.

Lemma keyPress_keeps d x y p s : keeps s (after (keyPress d x y p s)).
Proof.
  unfold keyPress, sendCommand, sendLine.
  destruct (devices_get _ _); [|apply keeps_refl].
  cbn [API after]. destruct (_ || _); by repeat split.
Qed.

Lemma openWindow_keeps d s : keeps s (openWindow d s).
Proof.
  unfold openWindow. destruct (devices_get _ _); [|apply keeps_refl].
  destruct (negb _); [apply keeps_refl|].
  destruct (existsb _ _); by repeat split.
Qed.

Lemma openAllWindows_keeps s : keeps s (openAllWindows s).
Proof.
  unfold openAllWindows. destruct (negb _); [apply keeps_refl|].
  apply fold_left_keeps. intros. apply openWindow_keeps.
Qed.

Lemma fold_left_kept {B} (p : State → Prop) (f : State → B → State) (l : list B) :
  (∀ a b, p a → p (f a b)) → ∀ a, p a → p (fold_left f l a).
Proof.
  intros Hf. induction l as [|b l IH]; intros a Ha; simpl; [done|].
  apply IH. by apply Hf.
Qed.

(** However [reloadFromConfig] ends, the devices are those of the
    configuration: they are loaded before the first call that can
    raise. *)
Lemma reloadFromConfig_rest s :
  tm (after (reloadFromConfig s)) = tm s ∧ hs (after (reloadFromConfig s)) = hs s
  ∧ devices (after (reloadFromConfig s))
    = fold_left load_device (cfg_devices (config s)) []
  ∧ config (after (reloadFromConfig s)) = config s.
Proof.
  unfold reloadFromConfig.
  set (s1 := set_devices _ s).
  set (p := λ a : State, tm a = tm s ∧ hs a = hs s ∧ devices a = devices s1
                         ∧ config a = config s).
  change (p (after (and_then (register_surfaces s1) (λ s0,
               and_then (remove_surfaces (map id (devices s)) s0)
                 (λ s2, Returns (remove_windows s2)))))).
  assert (H1 : p (after (register_surfaces s1))).
  { unfold register_surfaces. apply for_each_kept; [intros a b Hb; exact Hb|].
    by repeat split. }
  rewrite after_and_then.
  destruct (register_surfaces s1) as [s2|c s2]; [|exact H1]. cbn [after] in H1.
  assert (H2 : p (after (remove_surfaces (map id (devices s)) s2))).
  { unfold remove_surfaces. apply for_each_kept; [|exact H1].
    intros a b Hb. by destruct (devices_has _ _). }
  rewrite after_and_then.
  destruct (remove_surfaces _ s2) as [s3|c s3]; [|exact H2]. cbn [after] in H2 |- *.
  unfold remove_windows. apply fold_left_kept; [|exact H2].
  intros a b Ha. destruct (devices_has _ _); [done|]. exact Ha.
Qed.

Lemma devices_set_ids d m :
  (id d ∈ map id m → map id (devices_set d m) = map id m)
  ∧ (id d ∉ map id m → map id (devices_set d m) = (map id m ++ [id d])%list).
Proof.
  induction m as [|e m [IH1 IH2]].
  - split; [by intros ?%elem_of_nil | done].
  - cbn [devices_set map]. destruct (String.eqb (id e) (id d)) eqn:E.
    + apply String.eqb_eq in E. cbn [map]. split; [by rewrite E|].
      intros H. exfalso. apply H. rewrite E. apply list_elem_of_here.
    + apply String.eqb_neq in E. cbn [map]. split.
      * intros [?|?]%elem_of_cons; [congruence|]. by rewrite IH1.
      * intros H. rewrite IH2; [done|]. intros ?. apply H. by apply list_elem_of_further.
Qed.

Lemma devices_set_NoDup d m : NoDup (map id m) → NoDup (map id (devices_set d m)).
Proof.
  intros H. destruct (devices_set_ids d m) as [H1 H2].
  destruct (decide (id d ∈ map id m)) as [Hm|Hm].
  - by rewrite H1.
  - rewrite H2 by done. apply NoDup_app. split; [done|]. split.
    + intros x Hx [->|[]%elem_of_nil]%elem_of_cons. done.
    + apply NoDup_singleton.
Qed.

Lemma load_devices_NoDup l : ∀ m,
  NoDup (map id m) → NoDup (map id (fold_left load_device l m)).
Proof.
  induction l as [|e l IH]; intros m Hm; simpl; [done|].
  apply IH. unfold load_device. destruct e as [d|]; [|done].
  destruct (is_empty _); [done|]. by apply devices_set_NoDup.
Qed.

Lemma reloadFromConfig_unique s : ids_unique (after (reloadFromConfig s)).
Proof.
  unfold ids_unique. destruct (reloadFromConfig_rest s) as (_ & _ & -> & _).
  apply load_devices_NoDup. constructor.
Qed.

Lemma filter_own (h : nat) (d : Z) :
  filter (λ t : nat * Z, t.1 ≠ h) [(h, d)] = [].
Proof.
  rewrite filter_cons. simpl. by rewrite decide_False by (intros H; by apply H).
Qed.

Lemma disconnect_rest s :
  devices (disconnect s) = devices s ∧ hs (disconnect s) = (∅, ∅)
  ∧ lastBegin (disconnect s) = None
  ∧ (timers_ok s → tm (disconnect s) = (None, [])).
Proof.
  unfold timers_ok.
  destruct s as [? sk ? ? ? rt ? ? ? ? ? ? ts ? ?].
  unfold disconnect, clearTimeout. st_simpl.
  destruct rt as [h|], sk; st_simpl; repeat split; intros ->;
    cbn [timer_of]; by rewrite ?filter_own.
Qed.

Lemma connect_rest host port s :
  devices (connect host port s) = devices s ∧ hs (connect host port s) = (∅, ∅)
  ∧ lastBegin (connect host port s) = None
  ∧ (timers_ok s → tm (connect host port s) = (None, [])).
Proof.
  unfold timers_ok.
  destruct s as [? sk ? ? ? rt ? ? ? ? ? ? ts ? ?].
  unfold connect, disconnect, clearTimeout. st_simpl.
  destruct rt as [h|], sk; st_simpl; repeat split; intros ->;
    cbn [timer_of]; by rewrite ?filter_own.
Qed.

Lemma reconnect_rest s :
  devices (reconnect s) = devices s ∧ hs (reconnect s) = (∅, ∅)
  ∧ lastBegin (reconnect s) = None
  ∧ (timers_ok s → tm (reconnect s) = (None, [])).
Proof.
  unfold reconnect. destruct (devices s) eqn:E.
  - rewrite <- E. apply disconnect_rest.
  - rewrite <- E. apply connect_rest.
Qed.

Lemma scheduleReconnect_rest s :
  devices (scheduleReconnect s) = devices s ∧ hs (scheduleReconnect s) = hs s
  ∧ lastBegin (scheduleReconnect s) = lastBegin s
  ∧ (timers_ok s → timers_ok (scheduleReconnect s)).
Proof.
  unfold scheduleReconnect, timers_ok.
  destruct (reconnectTimer s) eqn:Et; [by rewrite Et|].
  destruct (devices s) eqn:Ed; [by rewrite Et|].
  simpl. repeat split; try done. by intros ->.
Qed.

Lemma on_error_rest s :
  devices (on_error s) = devices s ∧ hs (on_error s) = (∅, ∅)
  ∧ lastBegin (on_error s) = None
  ∧ (timers_ok s → timers_ok (on_error s)).
Proof.
  unfold on_error.
  set (s' := set_pendingDevices _ _).
  destruct (scheduleReconnect_rest s') as (-> & -> & -> & H). done.
Qed.

Lemma fire_rest h s :
  devices (fire h s) = devices s
  ∧ (hs (fire h s) = hs s ∨ hs (fire h s) = (∅, ∅))
  ∧ (timers_ok s → timers_ok (fire h s)).
Proof.
  unfold fire. destruct (existsb _ _) eqn:E; [|by repeat split; [left|]].
  unfold reconnect_callback.
  set (s' := set_reconnectTimer None _).
  destruct (reconnect_rest s') as (Hd & Hh & _ & Ht).
  repeat split; [done | by right |].
  intros Hok. unfold timers_ok in *.
  assert (Hs' : timers s' = timer_of (reconnectTimer s')).
  { unfold s'. simpl. rewrite Hok in E |- *.
    destruct (reconnectTimer s) as [h'|]; simpl in *; [|done].
    rewrite orb_false_r in E. apply Nat.eqb_eq in E. subst h'.
    by rewrite filter_own. }
  apply Ht in Hs'. by injection Hs' as -> ->.
Qed.

Lemma handleData_frame chunk s :
  devices (after (handleData chunk s)) = devices s
  ∧ tm (after (handleData chunk s)) = tm s.
Proof.
  apply (handleData_kept (λ a, devices a = devices s ∧ tm a = tm s)).
  - intros a b Ha. exact Ha.
  - intros a line [Hd Ht].
    destruct (handleLine_frame a line) as (_ & _ & _ & _ & Hrt & Hd' & _ & _ & Ht' & _).
    unfold tm in *. rewrite Hrt, Hd', Ht'. by split.
  - by split.
Qed.

Lemma keeps_ok s s' :
  keeps s s' → (ids_unique s → ids_unique s') ∧ (timers_ok s → timers_ok s').
Proof.
  unfold keeps, ids_unique, timers_ok, tm. intros (-> & [= -> ->] & _). done.
Qed.

Lemma reload_invariant s :
  timers_ok s →
  ids_unique (after (reloadFromConfig s)) ∧ timers_ok (after (reloadFromConfig s)).
Proof.
  intros Ht. split; [apply reloadFromConfig_unique|].
  destruct (reloadFromConfig_rest s) as (Htm & _).
  unfold timers_ok, tm in *. injection Htm as E1 E2. by rewrite E1, E2.
Qed.

Lemma cleared_invariant s s' :
  devices s' = devices s → (timers_ok s → tm s' = (None, [])) →
  ids_unique s ∧ timers_ok s → ids_unique s' ∧ timers_ok s'.
Proof.
  unfold ids_unique, timers_ok, tm. intros Hd Hk [Hu Ht]. rewrite Hd.
  split; [exact Hu|]. apply Hk in Ht. injection Ht as E1 E2. by rewrite E1, E2.
Qed.

Lemma reload_reconnect_invariant s :
  timers_ok s →
  let s' := after (and_then (reloadFromConfig s) (λ s, Returns (reconnect s))) in
  ids_unique s' ∧ timers_ok s'.
Proof.
  intros Ht. cbv zeta. rewrite after_and_then.
  pose proof (reload_invariant s Ht) as H.
  destruct (reloadFromConfig s) as [s'|c s']; cbn [after] in *; [|exact H].
  destruct (reconnect_rest s') as (Hd & _ & _ & Hk). by apply (cleared_invariant s').
Qed.

(** In every reachable state the device ids are distinct and the only
    timeout outstanding, if any, is [reconnectTimer], due after 1000 ms. *)
Lemma step_invariant s e :
  ids_unique s ∧ timers_ok s → ids_unique (step s e) ∧ timers_ok (step s e).
Proof.
  intros [Hu Ht]. unfold step. destruct e; cbn [handle].
  - unfold init. by apply reload_reconnect_invariant.
  - unfold on_config_change. by apply reload_reconnect_invariant.
  - by apply reload_invariant.
  - destruct (reconnect_rest s) as (Hd & _ & _ & Hk). by apply (cleared_invariant s).
  - destruct (disconnect_rest s) as (Hd & _ & _ & Hk). by apply (cleared_invariant s).
  - destruct (keeps_ok _ _ (keyPress_keeps deviceId x y pressed s)). auto.
  - destruct (keeps_ok _ _ (openWindow_keeps deviceId s)). auto.
  - destruct (keeps_ok _ _ (openAllWindows_keeps s)). auto.
  - split; [exact Hu | exact Ht].
  - split; [exact Hu | exact Ht].
  - destruct (handleData_frame chunk s) as [Hd Htm].
    unfold ids_unique, timers_ok, tm in *. rewrite Hd.
    injection Htm as E1 E2. by rewrite E1, E2.
  - destruct (on_error_rest s) as (Hd & _ & _ & Hk).
    unfold ids_unique in *. cbn [after]. rewrite Hd. auto.
  - destruct (on_error_rest s) as (Hd & _ & _ & Hk).
    unfold ids_unique in *. cbn [after]. rewrite on_close_eq, Hd. auto.
  - destruct (fire_rest h s) as (Hd & _ & Hk).
    unfold ids_unique in *. cbn [after]. rewrite Hd. auto.
Qed.

Lemma reachable_invariant s : reachable s → ids_unique s ∧ timers_ok s.
Proof.
  induction 1 as [cfg | s e _ IH].
  - split; [constructor | done].
  - by apply step_invariant.
Qed.

Lemma reachable_run s es : reachable s → reachable (run s es).
Proof.
  revert s. induction es as [|e es IH]; intros s H; simpl; [done|].
  apply IH. by constructor.
Qed.

(** ** The devices of a reachable state *)

Lemma devices_set_wf d m :
  well_formed d → Forall well_formed m → Forall well_formed (devices_set d m).
Proof.
  intros Hd. induction m as [|e m IH]; intros Hm; cbn [devices_set].
  - constructor; [done | constructor].
  - inversion Hm as [|? ? He Hm']; subst.
    destruct (String.eqb (id e) (id d)); constructor; auto.
Qed.

Lemma load_device_wf m e :
  Forall well_formed m → Forall well_formed (load_device m e).
Proof.
  intros Hm. unfold load_device. destruct e as [d|]; [|done].
  destruct (is_empty _) eqn:E; [done|].
  apply devices_set_wf; [|done].
  split; [exact E|]. cbn [columns rows bitmap].
  repeat split; apply clampInt_bounds; lia.
Qed.

Lemma load_devices_wf l : ∀ m,
  Forall well_formed m → Forall well_formed (fold_left load_device l m).
Proof.
  induction l as [|e l IH]; intros m Hm; cbn [fold_left]; [done|].
  apply IH. by apply load_device_wf.
Qed.

(** An event keeps the devices, or leaves those loaded from some
    configuration. *)
Lemma reload_devices s :
  devices (after (and_then (reloadFromConfig s) (λ s, Returns (reconnect s))))
  = fold_left load_device (cfg_devices (config s)) [].
Proof.
  rewrite after_and_then.
  destruct (reloadFromConfig_rest s) as (_ & _ & Hd & _).
  destruct (reloadFromConfig s) as [s'|c s']; cbn [after] in *; [|exact Hd].
  by destruct (reconnect_rest s') as (-> & _).
Qed.

Lemma step_devices s e :
  devices (step s e) = devices s
  ∨ ∃ cfg, devices (step s e) = fold_left load_device (cfg_devices cfg) [].
Proof.
  unfold step. destruct e; cbn [handle].
  - right. exists (config s). unfold init. by rewrite reload_devices.
  - right. exists cfg. unfold on_config_change. by rewrite reload_devices.
  - right. exists (config s).
    by destruct (reloadFromConfig_rest s) as (_ & _ & -> & _).
  - left. apply reconnect_rest.
  - left. apply disconnect_rest.
  - left. apply keyPress_keeps.
  - left. apply openWindow_keeps.
  - left. apply openAllWindows_keeps.
  - by left.
  - by left.
  - left. apply handleData_frame.
  - left. apply on_error_rest.
  - left. cbn [after]. rewrite on_close_eq. apply on_error_rest.
  - left. apply fire_rest.
Qed.

Lemma devices_get_Some k m dev :
  devices_get k m = Some dev → id dev = k ∧ dev ∈ m.
Proof.
  unfold devices_get. intros H. apply find_some in H as [Hin Heq].
  apply String.eqb_eq in Heq. split; [done|]. by apply list_elem_of_In.
Qed.

Lemma reachable_devices_wf s : reachable s → Forall well_formed (devices s).
Proof.
  induction 1 as [cfg | s e _ IH]; [constructor|].
  destruct (step_devices s e) as [-> | [cfg ->]]; [done|].
  apply load_devices_wf. constructor.
Qed.

Lemma reachable_get_wf s k dev :
  reachable s → devices_get k (devices s) = Some dev → id dev = k ∧ well_formed dev.
Proof.
  intros Hreach Hget. apply devices_get_Some in Hget as [Hid Hin].
  split; [exact Hid|].
  pose proof (reachable_devices_wf s Hreach) as Hwf.
  rewrite Forall_forall in Hwf. by apply Hwf.
Qed.

(** ** Reconnection *)

Lemma on_error_idem s : on_error (on_error s) = on_error s.
Proof.
  destruct s as [? ? ? ? ? rt ? ds ? ? ? ? ? ? ?].
  destruct rt, ds; vm_compute; reflexivity.
Qed.

Lemma scheduleReconnect_idem s :
  scheduleReconnect (scheduleReconnect s) = scheduleReconnect s.
Proof.
  destruct s as [? ? ? ? ? rt ? ds ? ? ? ? ? ? ?].
  destruct rt, ds; vm_compute; reflexivity.
Qed.

Lemma socket_down_step s e : socket_down e → step s e = on_error s.
Proof. intros [-> | ->]; cbn [step]; [reflexivity | apply on_close_eq]. Qed.

Lemma on_error_timer s :
  timers_ok s →
  (devices s ≠ [] →
   ∃ h, reconnectTimer (on_error s) = Some h ∧ timers (on_error s) = [(h, 1000)])
  ∧ (devices s ≠ [] → reconnectTimer s = None →
     effects (on_error s) = (effects s ++ [SetTimeout (next_handle s) 1000])%list)
  ∧ (devices s = [] →
     scheduleReconnect s = s ∧ timers (on_error s) = timers s
     ∧ effects (on_error s) = effects s).
Proof.
  unfold timers_ok.
  destruct s as [? ? ? ? ? rt ? ds ? ? ? ? ts nh ?]. st_simpl. intros ->.
  destruct rt as [h|], ds as [|dev ds]; cbn [timer_of].
  - split; [done|]. split; [done|]. intros _. by vm_compute.
  - split; [intros _; by exists h|]. split; [discriminate|]. discriminate.
  - split; [done|]. split; [done|]. intros _. by vm_compute.
  - split; [intros _; by exists nh|]. split; [|discriminate]. intros _ _. by vm_compute.
Qed.

(** C5. In every reachable state the timeouts outstanding are at most
    one, the one held in [reconnectTimer], due after 1000 ms.  Two socket
    'error' or 'close' events in a row leave the bridge as the first one
    left it: with devices configured one timeout is outstanding
    afterwards, and when none was outstanding before, exactly one
    [setTimeout] has been issued, for 1000 ms.  With no device configured
    [scheduleReconnect] does nothing and the two events issue no
    timeout. *)
Theorem reconnect_singleton (s : State) (e1 e2 : event) :
  reachable s → socket_down e1 → socket_down e2 →
  let s1 := step s e1 in
  let s2 := step s1 e2 in
  (timers s = timer_of (reconnectTimer s)
   ∧ (length (timers s) ≤ 1)%nat
   ∧ Forall (λ t, t.2 = 1000) (timers s))
  ∧ s2 = s1
  ∧ scheduleReconnect (scheduleReconnect s) = scheduleReconnect s
  ∧ (devices s ≠ [] →
     ∃ h, reconnectTimer s2 = Some h ∧ timers s2 = [(h, 1000)])
  ∧ (devices s ≠ [] → reconnectTimer s = None →
     effects s2 = (effects s ++ [SetTimeout (next_handle s) 1000])%list)
  ∧ (devices s = [] →
     scheduleReconnect s = s ∧ timers s2 = timers s ∧ effects s2 = effects s).
Proof.
  intros Hreach H1 H2 s1 s2.
  destruct (reachable_invariant s Hreach) as [_ Hok].
  assert (E1 : s1 = on_error s) by by apply socket_down_step.
  assert (E2 : s2 = s1).
  { unfold s2. rewrite (socket_down_step s1 e2 H2), E1. apply on_error_idem. }
  rewrite E2, E1. clear E1 E2 s1 s2.
  destruct (on_error_timer s Hok) as (T1 & T2 & T3).
  unfold timers_ok in Hok.
  split.
  { split; [exact Hok|]. rewrite Hok. destruct (reconnectTimer s); cbn [timer_of length].
    - split; [lia|]. by repeat constructor.
    - split; [lia|]. constructor. }
  split; [reflexivity|]. split; [apply scheduleReconnect_idem|].
  split; [exact T1|]. split; [exact T2 | exact T3].
Qed.

Lemma reachable_registered : reachable registered.
Proof.
  unfold registered, active, awaiting.
  repeat apply reachable_run. apply reachable_new.
Defined.

Lemma reconnect_singleton_witness :
  run registered [SockError; SockError] = run registered [SockError]
  ∧ ∃ h, reconnectTimer (run registered [SockError; SockError]) = Some h
         ∧ timers (run registered [SockError; SockError]) = [(h, 1000)].
Proof.
  pose proof (reconnect_singleton registered SockError SockError) as H.
  destruct H as (_ & H1 & _ & H2 & _).
  - exact reachable_registered.
  - left. reflexivity.
  - left. reflexivity.
  - split; [exact H1 | apply H2; discriminate].
Defined.

(** ** Handshake *)

Lemma handleLine_begin s line :
  verb_of line = "BEGIN" →
  handleLine s line
  = Returns (fold_left (λ s dev, addDeviceToCompanion dev s) (devices s)
      (set_connecting false (set_lastBegin (Some (parseParams (body_of line))) s))).
Proof. intros H. unfold handleLine. by rewrite H. Qed.

Lemma fold_addDevice_fresh l : ∀ s,
  NoDup (map id l) → connected s = true → socket s = true →
  (∀ d, d ∈ map id l → (d ∉ pendingDevices s) ∧ (d ∉ registeredDevices s)) →
  let s' := fold_left (λ s dev, addDeviceToCompanion dev s) l s in
  pendingDevices s' = list_to_set (map id l) ∪ pendingDevices s
  ∧ registeredDevices s' = registeredDevices s
  ∧ effects s'
    = (effects s
       ++ map (λ dev, SocketWrite (terminated (command "ADD-DEVICE" (add_device_args dev))))
            l)%list.
Proof.
  induction l as [|dev l IH]; intros s Hnd Hc Hs Hfresh.
  - simpl. split; [set_solver|]. split; [done|]. by rewrite app_nil_r.
  - cbn [map] in Hnd. apply NoDup_cons in Hnd as [Hdev Hnd].
    cbn [fold_left].
    destruct (Hfresh (id dev)) as [Hp Hr]; [cbn [map]; apply list_elem_of_here|].
    rewrite addDevice_fresh by done.
    set (s1 := emit _ _).
    destruct (IH s1 Hnd Hc Hs) as (E1 & E2 & E3).
    { intros d Hd. destruct (Hfresh d) as [Hdp Hdr];
        [cbn [map]; by apply list_elem_of_further|].
      split; [|done]. unfold s1. st_simpl. set_solver. }
    cbv zeta. rewrite E1, E2, E3. unfold s1. st_simpl.
    split; [set_solver|]. split; [done|]. cbn [map]. by rewrite <- app_assoc.
Qed.

Lemma add_device_writes l :
  Forall well_formed l →
  map (λ dev, SocketWrite (terminated (command "ADD-DEVICE" (add_device_args dev)))) l
  = map (λ dev, SocketWrite (add_device_line dev)) l.
Proof.
  induction 1 as [|dev l Hd _ IH]; cbn [map]; [done|].
  by rewrite IH, add_device_rendered.
Qed.

Lemma reload_reconnect_hs s :
  hs s = (∅, ∅) →
  hs (after (and_then (reloadFromConfig s) (λ s, Returns (reconnect s)))) = (∅, ∅).
Proof.
  intros Hs. rewrite after_and_then.
  destruct (reloadFromConfig_rest s) as (_ & Hh & _).
  destruct (reloadFromConfig s) as [s'|c s']; cbn [after] in *; [|by rewrite Hh].
  apply reconnect_rest.
Qed.

Lemma quiet_step s e :
  is_data e = false → hs s = (∅, ∅) → hs (step s e) = (∅, ∅).
Proof.
  intros He Hs. unfold step. destruct e; cbn [handle after]; try done.
  - unfold init. by apply reload_reconnect_hs.
  - unfold on_config_change. by apply reload_reconnect_hs.
  - by destruct (reloadFromConfig_rest s) as (_ & -> & _).
  - apply reconnect_rest.
  - apply disconnect_rest.
  - by destruct (keyPress_keeps deviceId x y pressed s) as (_ & _ & ->).
  - by destruct (openWindow_keeps deviceId s) as (_ & _ & ->).
  - by destruct (openAllWindows_keeps s) as (_ & _ & ->).
  - apply on_error_rest.
  - rewrite on_close_eq. apply on_error_rest.
  - destruct (fire_rest h s) as (_ & [-> | ->] & _); done.
Qed.

Lemma quiet_run es : ∀ s,
  Forall (λ e, is_data e = false) es → hs s = (∅, ∅) → hs (run s es) = (∅, ∅).
Proof.
  induction es as [|e es IH]; intros s Hes Hs; simpl; [done|].
  inversion Hes; subst. apply IH; [done|]. by apply quiet_step.
Qed.

(** C4. From a reachable state in which a device is registered, a socket
    'close' or 'error' event leaves [pendingDevices] and
    [registeredDevices] empty and [lastBegin] cleared.  Whatever happens
    next short of incoming data (the reconnect timer, a new socket, its
    'connect' event), a BEGIN line then received over the connection is
    handled without an error, writes for every configured device, in
    their order, the ADD-DEVICE line that names it (its id, the product
    name with its id, its number of keys, of keys per row and its bitmap
    size) and nothing else, and puts every one of them in
    [pendingDevices]. *)
Theorem disconnect_clears_handshake (s : State) (d : string) (e : event)
    (es : list event) (line : string) :
  reachable s → d ∈ registeredDevices s → socket_down e →
  Forall (λ e, is_data e = false) es →
  let s1 := step s e in
  let s2 := run s1 es in
  connected s2 = true → socket s2 = true → verb_of line = "BEGIN" →
  let s3 := after (handleLine s2 line) in
  (pendingDevices s1 = ∅ ∧ registeredDevices s1 = ∅ ∧ lastBegin s1 = None)
  ∧ pendingDevices s3 = list_to_set (map id (devices s2))
  ∧ registeredDevices s3 = ∅
  ∧ effects s3
    = (effects s2
       ++ map (λ dev, SocketWrite
            ("ADD-DEVICE DEVICEID=" +:+ quoted (id dev)
             +:+ " PRODUCT_NAME=" +:+ quoted ("ScreenDeck " +:+ id dev)
             +:+ " KEYS_TOTAL=" +:+ Z_to_string (columns dev * rows dev)
             +:+ " KEYS_PER_ROW=" +:+ Z_to_string (columns dev)
             +:+ " BITMAPS=" +:+ Z_to_string (bitmap dev)
             +:+ " COLORS=1 TEXT=1 TEXT_STYLE=0 VARIABLES=" +:+ quoted "W10="
             +:+ " BRIGHTNESS=100 PINCODE_LOCK=" +:+ quoted EmptyString
             +:+ String lf EmptyString))
            (devices s2))%list
  ∧ (∀ dev, dev ∈ devices s2 → id dev ∈ pendingDevices s3)
  ∧ raised (handleLine s2 line) = None.
Proof.
  intros Hreach _ He Hes s1 s2 Hc Hs Hline s3.
  assert (E1 : s1 = on_error s) by by apply socket_down_step.
  destruct (on_error_rest s) as (_ & Hhs & Hb & _). rewrite <- E1 in Hhs, Hb.
  assert (Hhs2 : hs s2 = (∅, ∅)) by by apply quiet_run.
  injection Hhs as Hp1 Hr1. injection Hhs2 as Hp2 Hr2.
  assert (Hreach2 : reachable s2).
  { apply reachable_run. by constructor. }
  destruct (reachable_invariant s2 Hreach2) as [Hnd _].
  pose proof (reachable_devices_wf s2 Hreach2) as Hwf.
  split; [done|].
  unfold s3. rewrite handleLine_begin by done. cbn [after raised].
  set (s2' := set_connecting false _).
  destruct (fold_addDevice_fresh (devices s2) s2' Hnd Hc Hs) as (F1 & F2 & F3).
  { intros d' _. unfold s2'. st_simpl. rewrite Hp2, Hr2. set_solver. }
  cbv zeta in F1, F2, F3. change (devices s2') with (devices s2).
  rewrite F1, F2, F3. unfold s2'. st_simpl. rewrite Hp2, Hr2.
  split; [set_solver|]. split; [done|].
  split; [by rewrite (add_device_writes _ Hwf)|].
  split; [|done].
  intros dev Hdev. apply elem_of_union_l, elem_of_list_to_set.
  by apply list_elem_of_fmap_2.
Qed.

Lemma disconnect_clears_handshake_witness :
  let s1 := step registered SockClose in
  let s2 := run s1 [TimerFired 0; SockConnect] in
  let s3 := after (handleLine s2 begin_line) in
  (pendingDevices s1 = ∅ ∧ registeredDevices s1 = ∅ ∧ lastBegin s1 = None)
  ∧ pendingDevices s3 = {[ "dev1" ]}
  ∧ registeredDevices s3 = ∅
  ∧ effects s3 = (effects s2 ++ [SocketWrite add_dev1_text])%list.
Proof.
  pose proof (disconnect_clears_handshake registered "dev1" SockClose
                [TimerFired 0; SockConnect] begin_line) as H.
  destruct H as (H1 & H2 & H3 & H4 & _).
  - exact reachable_registered.
  - vm_compute. reflexivity.
  - right. reflexivity.
  - repeat constructor.
  - vm_compute. reflexivity.
  - vm_compute. reflexivity.
  - vm_compute. reflexivity.
  - cbv zeta. split; [exact H1|].
    split; [rewrite H2; vm_compute; reflexivity|].
    split; [exact H3|]. rewrite H4. vm_compute. reflexivity.
Defined.

(** ** Acknowledgments and clear-keys *)

Lemma handleLine_ack s line :
  verb_of line = "ADD-DEVICE" →
  handleLine s line
  = Returns
      match nonempty_string (ack_deviceId (parseParams (body_of line))) with
      | Some d =>
          let s := set_pendingDevices (pendingDevices s ∖ {[ d ]}) s in
          if ack_ok (parseParams (body_of line))
             && negb (truthy (get (parseParams (body_of line)) "ERROR"))
          then set_registeredDevices ({[ d ]} ∪ registeredDevices s) s
          else s
      | None => s
      end.
Proof.
  intros H. unfold handleLine. rewrite H. cbn [String.eqb Ascii.eqb Bool.eqb].
  destruct (nonempty_string _); [|done]. cbv zeta. by destruct (_ && _).
Qed.

(** A KEYS-CLEAR line with a DEVICEID is passed to [API.internalSurfaceClear]
    whatever the id, and that call raises. *)
Lemma handleLine_keys_clear s line :
  verb_of line = "KEYS-CLEAR" →
  handleLine s line
  = match nonempty_string
            (safeString (get (parseParams (body_of line)) "DEVICEID") (JStr EmptyString)) with
    | None => Returns s
    | Some deviceId => Raises (internalSurfaceClear deviceId) s
    end.
Proof.
  intros H. unfold handleLine. rewrite H. cbn [String.eqb Ascii.eqb Bool.eqb].
  by destruct (nonempty_string _).
Qed.

(** C1, as the code has it.  An ADD-DEVICE acknowledgment is handled
    without an error and touches nothing but the two handshake sets.
    When its DEVICEID is a string that is not empty, the id leaves
    [pendingDevices], and it enters [registeredDevices] exactly when the
    line carries OK (as a flag or as OK=1) and no truthy ERROR; whether
    the id was pending plays no part.  So for an id that is not pending,
    [pendingDevices] stays as it was, and if moreover the acknowledgment
    is not a success, neither set changes.  Without such a DEVICEID the
    line changes nothing. *)
Theorem add_device_ack (s : State) (line : string) :
  verb_of line = "ADD-DEVICE" →
  let params := parseParams (body_of line) in
  let success := ack_ok params && negb (truthy (get params "ERROR")) in
  let s' := after (handleLine s line) in
  frame s s' ∧ effects s' = effects s ∧ connecting s' = connecting s
  ∧ lastBegin s' = lastBegin s
  ∧ match nonempty_string (ack_deviceId params) with
    | Some d =>
        pendingDevices s' = pendingDevices s ∖ {[ d ]}
        ∧ registeredDevices s'
          = (if success then {[ d ]} ∪ registeredDevices s else registeredDevices s)
        ∧ (d ∉ pendingDevices s → pendingDevices s' = pendingDevices s)
        ∧ (d ∉ pendingDevices s → success = false → hs s' = hs s)
    | None => s' = s
    end
  ∧ handleLine s line = Returns s'.
Proof.
  intros Hline params success s'.
  split; [apply handleLine_frame|].
  unfold s'. rewrite handleLine_ack by done. fold params. fold success.
  cbn [after].
  destruct (nonempty_string (ack_deviceId params)) as [d|]; [|done].
  cbv zeta. destruct success; st_simpl.
  - repeat split; try done. set_solver.
  - repeat split; try done; intros; try f_equal; set_solver.
Qed.

Lemma add_device_ack_witness :
  pendingDevices (after (handleLine active ack_dev1)) = pendingDevices active ∖ {[ "dev1" ]}
  ∧ registeredDevices (after (handleLine active ack_dev1))
    = {[ "dev1" ]} ∪ registeredDevices active.
Proof.
  pose proof (add_device_ack active ack_dev1) as H.
  destruct H as (_ & _ & _ & _ & H & _).
  - vm_compute. reflexivity.
  - replace (nonempty_string (ack_deviceId (parseParams (body_of ack_dev1))))
      with (Some "dev1") in H by (vm_compute; reflexivity).
    replace (ack_ok (parseParams (body_of ack_dev1))
             && negb (truthy (get (parseParams (body_of ack_dev1)) "ERROR")))
      with true in H by (vm_compute; reflexivity).
    destruct H as (H1 & H2 & _). split; [exact H1 | exact H2].
Defined.

Lemma reachable_active : reachable active.
Proof.
  unfold active, awaiting. repeat apply reachable_run. apply reachable_new.
Qed.

(** C1, as the specification has it, fails: with [dev1] pending and no
    device called ghost anywhere, a successful acknowledgment for ghost
    puts ghost into [registeredDevices]. *)
Lemma add_device_ack_unrecognized :
  reachable active
  ∧ verb_of ack_ghost = "ADD-DEVICE"
  ∧ devices_get "ghost" (devices active) = None
  ∧ ("ghost" ∉ pendingDevices active)
  ∧ ("ghost" ∉ registeredDevices active)
  ∧ registeredDevices (after (handleLine active ack_ghost)) ≠ registeredDevices active.
Proof.
  split; [apply reachable_active|].
  split; [by vm_compute|]. split; [by vm_compute|].
  split; [vm_compute; discriminate|].
  assert (Hin : "ghost" ∈ registeredDevices (after (handleLine active ack_ghost)))
    by (vm_compute; reflexivity).
  assert (Hout : "ghost" ∉ registeredDevices active) by (vm_compute; discriminate).
  split; [exact Hout|]. intros E. rewrite E in Hin. by apply Hout.
Qed.

(** C3, where the code departs from it.  A KEYS-CLEAR line is not
    resolved against the configured devices: for the id ghost, which no
    device has, the handler goes on to the call of
    [API.internalSurfaceClear] for ghost, as it does for the configured
    [dev1], where KEY-STATE for ghost returns at the lookup.  The call
    raises, so the registry is not instructed and no window is told, for
    a configured device as for any other; raised inside the loop of
    [handleData], the error ends it, and an acknowledgment that came in
    the same chunk stays in [buffer], not handled.  The line is dropped
    only when DEVICEID is missing or empty. *)
Theorem keys_clear_unconfigured :
  reachable active
  ∧ verb_of clear_ghost = "KEYS-CLEAR"
  ∧ devices_get "ghost" (devices active) = None
  ∧ devices_get "dev1" (devices active) = Some dev8x4
  ∧ handleLine active clear_ghost = Raises (internalSurfaceClear "ghost") active
  ∧ handleLine active clear_dev1 = Raises (internalSurfaceClear "dev1") active
  ∧ handleLine active state_ghost = Returns active
  ∧ handleData (ln clear_ghost +:+ ln ack_dev1) active
    = Raises (internalSurfaceClear "ghost") (set_buffer (ln ack_dev1) active)
  ∧ (∀ s, handleLine s "KEYS-CLEAR" = Returns s).
Proof.
  split; [apply reachable_active|].
  split; [by vm_compute|]. split; [by vm_compute|]. split; [by vm_compute|].
  split; [by vm_compute|]. split; [by vm_compute|]. split; [by vm_compute|].
  split; [by vm_compute|].
  intros s. rewrite handleLine_keys_clear by (by vm_compute).
  by replace (nonempty_string _) with (@None string) by (by vm_compute).
Qed.

(** Whether or not the id is one of a configured device, the directive
    goes to the call that raises. *)
Lemma keys_clear_any s line d :
  verb_of line = "KEYS-CLEAR" →
  get (parseParams (body_of line)) "DEVICEID" = JStr d → d ≠ EmptyString →
  handleLine s line = Raises (internalSurfaceClear d) s.
Proof.
  intros Hline Hd Hne. rewrite handleLine_keys_clear by done. rewrite Hd.
  cbn [safeString nonempty_string]. apply is_empty_false_ne in Hne. by rewrite Hne.
Qed.

End BridgeFacts.
(* ===================================================================== *)
(** * Properties of the surface registry *)
(* ===================================================================== *)

Section RegistryFacts.
Import Registry Samples.

Lemma nextState_field (p : Payload) :
  field (nextState p) "text" = string_or (p_text p)
  ∧ field (nextState p) "bgColor" = string_or (p_bgColor p)
  ∧ field (nextState p) "color" = string_or (p_color p)
  ∧ field (nextState p) "imageBase64" = string_or (p_imageBase64 p).
Proof. unfold field, nextState. by simplify_map_eq. Qed.

Lemma nextState_lookup (p : Payload) (f : string) :
  f ∈ ["text"; "bgColor"; "color"; "imageBase64"] → is_Some (nextState p !! f).
Proof.
  unfold nextState. intros Hf.
  repeat (apply elem_of_cons in Hf as [-> | Hf]; [by simplify_map_eq|]).
  by apply elem_of_nil in Hf.
Qed.

(** After a draw, each of the four fields of the key is what the payload
    gave for it: a string, or [undefined] when the payload had none.  The
    value cached before plays no part. *)
Lemma surface_draw_cached sock now p r sid s f :
  target sock (Some p) r = Some (sid, s) →
  f ∈ ["text"; "bgColor"; "color"; "imageBase64"] →
  cached (surface_draw sock now (Some p) r) sid (key_of s p) f
  = field (nextState p) f.
Proof.
  intros Ht Hf. unfold surface_draw, cached. rewrite Ht. cbn [surfaces].
  rewrite lookup_insert_eq. cbn [keys]. rewrite lookup_insert_eq.
  cbn [default from_option Datatypes.id].
  unfold field, spread. destruct (nextState_lookup p f Hf) as [v Hv].
  by rewrite (lookup_union_Some_l _ _ _ _ Hv), Hv.
Qed.

Lemma surface_draw_absent_text sock now p r sid s :
  target sock (Some p) r = Some (sid, s) →
  p_text p = JUndefined →
  cached (surface_draw sock now (Some p) r) sid (key_of s p) "text" = JUndefined.
Proof.
  intros Ht Hp.
  rewrite (surface_draw_cached sock now p r sid s "text" Ht)
    by (apply list_elem_of_here).
  destruct (nextState_field p) as (-> & _). by rewrite Hp.
Qed.

(** C2, where the code departs from it: a draw that carries no text
    leaves the key without text, whatever was cached.  On the surface
    [dev-1], key (0, 0) holds the text Hello after the first draw; the
    second draw carries a colour and no text, and afterwards the key has
    the colour and its text is [undefined]. *)
Theorem draw_drops_absent_fields :
  cached reg2 "dev-1" (Some 0, Some 0) "text" = JStr "Hello"
  ∧ cached reg3 "dev-1" (Some 0, Some 0) "text" = JUndefined
  ∧ cached reg3 "dev-1" (Some 0, Some 0) "color" = JStr "#ffffff".
Proof.
  split; [by vm_compute|]. split; by vm_compute.
Qed.

End RegistryFacts.
(* ===================================================================== *)
(** * Numbers on the wire *)
(* ===================================================================== *)

Section NumberFacts.
Import Bridge Samples Predicates Shapes.

Lemma digits_uint_acc d : ∀ acc,
  digits (NilEmpty.string_of_uint d) (Z.pos acc) true
  = Some (Z.pos (Pos.of_uint_acc d acc)).
Proof.
  induction d; intros acc; cbn [NilEmpty.string_of_uint digits Pos.of_uint_acc];
    [done | ..];
    match goal with |- context [digit_of ?c] =>
      let v := eval vm_compute in (digit_of c) in change (digit_of c) with v end;
    cbv iota beta;
    match goal with |- digits _ ?a true = Some (Z.pos (Pos.of_uint_acc _ ?b)) =>
      replace a with (Z.pos b) by lia end;
    apply IHd.
Qed.

Lemma digits_uint d : ∀ seen,
  d ≠ Decimal.Nil ∨ seen = true →
  digits (NilEmpty.string_of_uint d) 0 seen = Some (Z.of_N (Pos.of_uint d)).
Proof.
  induction d; intros seen H; cbn [NilEmpty.string_of_uint digits Pos.of_uint];
    [by destruct H as [H | ->] | ..];
    match goal with |- context [digit_of ?c] =>
      let v := eval vm_compute in (digit_of c) in change (digit_of c) with v end;
    cbv iota beta;
    first [ apply IHd; by right
          | match goal with
            |- digits _ ?a true = Some (Z.of_N (N.pos (Pos.of_uint_acc _ ?b))) =>
              change a with (Z.pos b) end;
            apply digits_uint_acc ].
Qed.

Lemma round_double_small n : Z.abs n < 2 ^ 53 → to_double n = Num n.
Proof.
  intros H. unfold to_double, round_double.
  apply Z.ltb_lt in H as H'. rewrite H'.
  assert (2 ^ 53 < 2 ^ 1024) by (apply Z.pow_lt_mono_r; lia).
  rewrite (proj2 (Z.leb_gt _ _)) by lia.
  by rewrite (proj2 (Z.leb_gt _ _)) by lia.
Qed.

Lemma uint_head_not_space d :
  trimStart (NilEmpty.string_of_uint d) = NilEmpty.string_of_uint d.
Proof. by destruct d. Qed.

Lemma parseInt_decimal n : parseInt (Z_to_string n) = to_double n.
Proof.
  unfold Z_to_string, parseInt. destruct n as [|p|p]; [by vm_compute | |].
  - cbn [Z.to_int NilZero.string_of_int NilZero.string_of_uint].
    assert (Hnil : Pos.to_uint p ≠ Decimal.Nil).
    { intros E. pose proof (Unsigned.of_to p) as H. rewrite E in H. discriminate. }
    replace (NilZero.string_of_uint (Pos.to_uint p))
      with (NilEmpty.string_of_uint (Pos.to_uint p))
      by (unfold NilZero.string_of_uint; by destruct (Pos.to_uint p)).
    rewrite uint_head_not_space.
    pose proof (digits_uint (Pos.to_uint p) false (or_introl Hnil)) as Hd.
    rewrite Unsigned.of_to in Hd.
    destruct (Pos.to_uint p) eqn:E; try done; cbn [NilEmpty.string_of_uint];
      match goal with |- context [Ascii.eqb ?c "-"] =>
        change (Ascii.eqb c "-") with false; change (Ascii.eqb c "+") with false end;
      cbv iota beta; cbn [NilEmpty.string_of_uint] in Hd; by rewrite Hd.
  - cbn [Z.to_int NilZero.string_of_int NilZero.string_of_uint].
    assert (Hnil : Pos.to_uint p ≠ Decimal.Nil).
    { intros E. pose proof (Unsigned.of_to p) as H. rewrite E in H. discriminate. }
    replace (NilZero.string_of_uint (Pos.to_uint p))
      with (NilEmpty.string_of_uint (Pos.to_uint p))
      by (unfold NilZero.string_of_uint; by destruct (Pos.to_uint p)).
    cbn [trimStart]. change (is_space "-") with false. cbv iota beta.
    change (Ascii.eqb "-" "-") with true. cbv iota beta.
    pose proof (digits_uint (Pos.to_uint p) false (or_introl Hnil)) as Hd.
    rewrite Unsigned.of_to in Hd. by rewrite Hd.
Qed.

Lemma parseInt_decimal_small n :
  Z.abs n < 2 ^ 53 → parseInt (Z_to_string n) = Num n.
Proof. intros H. rewrite parseInt_decimal. by apply round_double_small. Qed.

(** X1. [clampInt] on an integer below 2^53 in magnitude, given as a number
    or as its decimal text, is that integer brought into [min .. max]; the
    fallback is not used.  On [undefined], [null], a boolean or the empty
    string it is the fallback, whatever the bounds. *)
Theorem clampInt_number (n lo hi fb : Z) (b : bool) :
  Z.abs n < 2 ^ 53 →
  clampInt (JNum n) lo hi fb = Z.max lo (Z.min hi n)
  ∧ clampInt (JStr (Z_to_string n)) lo hi fb = Z.max lo (Z.min hi n)
  ∧ clampInt JUndefined lo hi fb = fb
  ∧ clampInt JNull lo hi fb = fb
  ∧ clampInt (JBool b) lo hi fb = fb
  ∧ clampInt (JStr EmptyString) lo hi fb = fb.
Proof.
  intros H. unfold clampInt.
  assert (H53 : 2 ^ 53 < 10 ^ 21) by reflexivity.
  rewrite (Number_small n) by lia. clear H53. cbn [to_String].
  rewrite parseInt_decimal_small by done.
  repeat split; try done. by destruct b.
Qed.

Lemma clampInt_number_witness :
  clampInt (JNum 999) 1 32 8 = 32 ∧ clampInt (JStr (Z_to_string (-4))) 0 7 0 = 0.
Proof.
  destruct (clampInt_number 999 1 32 8 true) as (H1 & _); [vm_compute; reflexivity|].
  destruct (clampInt_number (-4) 0 7 0 true) as (_ & H2 & _); [vm_compute; reflexivity|].
  split; [exact H1 | exact H2].
Defined.

End NumberFacts.
(* ===================================================================== *)
(** * Invariants of the bridge *)
(* ===================================================================== *)

Section BridgeInvariants.
Import Bridge Samples Predicates Shapes.

(** X2. In every reachable state each configured device has an id that is
    not empty, 1 to 32 columns, 1 to 32 rows and a bitmap size from 1 to
    512, and no two devices share an id; looking a device up by id gives a
    descriptor carrying that id. *)
Theorem devices_well_formed (s : State) (k : string) (dev : Device) :
  reachable s →
  Forall well_formed (devices s)
  ∧ NoDup (map id (devices s))
  ∧ (devices_get k (devices s) = Some dev → id dev = k ∧ well_formed dev).
Proof.
  intros Hreach.
  split; [by apply reachable_devices_wf|]. split; [by apply reachable_invariant|].
  by apply reachable_get_wf.
Qed.

Lemma devices_well_formed_witness :
  Forall well_formed (devices registered) ∧ NoDup (map id (devices registered)).
Proof.
  destruct (devices_well_formed registered "dev1" dev8x4 reachable_registered)
    as (H1 & H2 & _).
  split; [exact H1 | exact H2].
Defined.

(** ** The handshake sets never overlap *)

Lemma addDevice_disjoint dev s :
  pendingDevices s ∩ registeredDevices s = ∅ →
  pendingDevices (addDeviceToCompanion dev s)
    ∩ registeredDevices (addDeviceToCompanion dev s) = ∅.
Proof.
  intros H. unfold addDeviceToCompanion, has, sendCommand, sendLine.
  destruct (negb (connected s) || negb (socket s)); [done|].
  destruct (bool_decide (id dev ∈ registeredDevices s)) eqn:Hr; [done|].
  destruct (bool_decide (id dev ∈ pendingDevices s)) eqn:Hp; [done|].
  apply bool_decide_eq_false in Hr.
  cbn [orb]. st_simpl. destruct (_ || _); st_simpl; set_solver.
Qed.

Lemma fold_addDevice_disjoint l : ∀ s,
  pendingDevices s ∩ registeredDevices s = ∅ →
  let s' := fold_left (λ s dev, addDeviceToCompanion dev s) l s in
  pendingDevices s' ∩ registeredDevices s' = ∅.
Proof.
  induction l as [|d l IH]; intros s H; cbn [fold_left]; [done|].
  apply IH. by apply addDevice_disjoint.
Qed.

Lemma sendLine_hs line s : hs (sendLine line s) = hs s.
Proof. unfold sendLine. by destruct (_ || _). Qed.

Lemma broadcast_hs d m s : hs (broadcastToDeviceWindow d m s) = hs s.
Proof. unfold broadcastToDeviceWindow. by destruct (existsb _ _). Qed.

Lemma handleLine_disjoint s line :
  pendingDevices s ∩ registeredDevices s = ∅ →
  pendingDevices (after (handleLine s line))
    ∩ registeredDevices (after (handleLine s line)) = ∅.
Proof.
  intros H. unfold handleLine.
  destruct (String.eqb _ "PING").
  { pose proof (sendLine_hs ("PONG " +:+ body_of line) s) as E.
    unfold hs in E. cbn [after]. by injection E as -> ->. }
  destruct (String.eqb _ "PONG"); [done|].
  destruct (String.eqb _ "BEGIN"); [by apply fold_addDevice_disjoint|].
  destruct (String.eqb _ "ADD-DEVICE").
  { destruct (nonempty_string _); [|done].
    destruct (_ && _); cbn [after]; st_simpl; set_solver. }
  destruct (String.eqb _ "KEYS-CLEAR").
  { by destruct (nonempty_string _). }
  destruct (String.eqb _ "KEY-STATE"); [|done].
  destruct (nonempty_string _) as [d|]; [|done].
  destruct (devices_get _ _); [|done].
  by destruct (decodeKey _ _).
Qed.

Lemma step_disjoint s e :
  pendingDevices s ∩ registeredDevices s = ∅ →
  pendingDevices (step s e) ∩ registeredDevices (step s e) = ∅.
Proof.
  intros H.
  assert (Hcases : hs (step s e) = hs s ∨ hs (step s e) = (∅, ∅)
                   ∨ ∃ chunk, e = SockData chunk).
  { unfold step. destruct e; cbn [handle after]; try (by left).
    - unfold init. rewrite after_and_then.
      destruct (reloadFromConfig_rest (set_apiPort (Some port) s)) as (_ & Hh & _).
      destruct (reloadFromConfig _) as [s'|c s']; cbn [after] in *; [|by left].
      right; left. apply reconnect_rest.
    - unfold on_config_change. rewrite after_and_then.
      destruct (reloadFromConfig_rest (set_config cfg s)) as (_ & Hh & _).
      destruct (reloadFromConfig _) as [s'|c s']; cbn [after] in *; [|by left].
      right; left. apply reconnect_rest.
    - left. apply reloadFromConfig_rest.
    - right; left. apply reconnect_rest.
    - right; left. apply disconnect_rest.
    - left. apply keyPress_keeps.
    - left. apply openWindow_keeps.
    - left. apply openAllWindows_keeps.
    - right; right. by eexists.
    - right; left. apply on_error_rest.
    - right; left. rewrite on_close_eq. apply on_error_rest.
    - destruct (fire_rest h s) as (_ & [E | E] & _); auto. }
  destruct Hcases as [E | [E | [chunk ->]]].
  - unfold hs in E. by injection E as -> ->.
  - unfold hs in E. injection E as -> ->. set_solver.
  - unfold step. cbn [handle].
    apply (handleData_kept (λ a, pendingDevices a ∩ registeredDevices a = ∅));
      [by intros | | done].
    intros a line Ha. by apply handleLine_disjoint.
Qed.

(** X3. In every reachable state no device id is in both [pendingDevices]
    and [registeredDevices]. *)
Theorem handshake_sets_disjoint (s : State) :
  reachable s → pendingDevices s ∩ registeredDevices s = ∅.
Proof.
  induction 1 as [cfg | s e _ IH]; [set_solver|]. by apply step_disjoint.
Qed.

Lemma handshake_sets_disjoint_witness :
  pendingDevices registered ∩ registeredDevices registered = ∅.
Proof. apply handshake_sets_disjoint. exact reachable_registered. Defined.

End BridgeInvariants.
(* ===================================================================== *)
(** * The frame splitter *)
(* ===================================================================== *)

(** Normalise a state built from field updates. *)
Ltac st_norm :=
  cbv [Bridge.apiPort Bridge.socket Bridge.buffer Bridge.connected
       Bridge.connecting Bridge.reconnectTimer Bridge.lastBegin Bridge.devices
       Bridge.windows Bridge.registeredDevices Bridge.pendingDevices
       Bridge.config Bridge.timers Bridge.next_handle Bridge.effects
       Bridge.set_apiPort Bridge.set_socket Bridge.set_buffer
       Bridge.set_connected Bridge.set_connecting Bridge.set_reconnectTimer
       Bridge.set_lastBegin Bridge.set_devices Bridge.set_windows
       Bridge.set_registeredDevices Bridge.set_pendingDevices
       Bridge.set_config Bridge.set_timers Bridge.set_next_handle Bridge.emit].

Section FrameFacts.
Import Bridge Samples Predicates Shapes.

Lemma indexOf_cons (c d : ascii) (s : string) :
  indexOf c (String d s) = if Ascii.eqb d c then Some O else S <$> indexOf c s.
Proof. reflexivity. Qed.

Lemma no_newline_cons (d : ascii) (s : string) :
  no_newline (String d s) ↔ Ascii.eqb d lf = false ∧ no_newline s.
Proof.
  unfold no_newline. rewrite indexOf_cons.
  destruct (Ascii.eqb d lf); [split; [done | by intros [? _]]|].
  destruct (indexOf lf s); cbn; split; try done. by intros [_ ?].
Qed.

Lemma no_newline_snoc (s : string) (d : ascii) :
  no_newline s → Ascii.eqb d lf = false → no_newline (snoc s d).
Proof.
  intros Hs Hd. unfold snoc. induction s as [|a s IH].
  - rewrite append_nil. apply no_newline_cons. by split.
  - rewrite append_cons. apply no_newline_cons in Hs as [Ha Hs].
    apply no_newline_cons. split; [done|]. by apply IH.
Qed.

Lemma no_newline_dropLast (s : string) : no_newline s → no_newline (dropLast s).
Proof.
  induction s as [|a s IH]; [done|]. intros [Ha Hs]%no_newline_cons.
  cbn [dropLast]. destruct s as [|b s]; [done|].
  apply no_newline_cons. split; [done|]. by apply IH.
Qed.

Lemma sendLine_set_buffer b line s :
  sendLine line (set_buffer b s) = set_buffer b (sendLine line s).
Proof. unfold sendLine. st_simpl. by destruct (_ || _). Qed.

Lemma addDevice_set_buffer b dev s :
  addDeviceToCompanion dev (set_buffer b s) = set_buffer b (addDeviceToCompanion dev s).
Proof.
  unfold addDeviceToCompanion, sendCommand, sendLine. st_simpl.
  destruct (connected s), (socket s); try done. cbn [negb orb].
  destruct (_ || _); [done|]. st_simpl. done.
Qed.

Lemma fold_addDevice_set_buffer b l : ∀ s,
  fold_left (λ s dev, addDeviceToCompanion dev s) l (set_buffer b s)
  = set_buffer b (fold_left (λ s dev, addDeviceToCompanion dev s) l s).
Proof.
  induction l as [|d l IH]; intros s; cbn [fold_left]; [done|].
  by rewrite addDevice_set_buffer, IH.
Qed.

Lemma broadcast_set_buffer b d m s :
  broadcastToDeviceWindow d m (set_buffer b s)
  = set_buffer b (broadcastToDeviceWindow d m s).
Proof. unfold broadcastToDeviceWindow. st_simpl. by destruct (existsb _ _). Qed.

Lemma set_buffer_twice a b s : set_buffer a (set_buffer b s) = set_buffer a s.
Proof. reflexivity. Qed.

(** [handleLine] neither reads nor writes [buffer]. *)
Lemma handleLine_set_buffer b s line :
  handleLine (set_buffer b s) line
  = match handleLine s line with
    | Returns s' => Returns (set_buffer b s')
    | Raises c s' => Raises c (set_buffer b s')
    end.
Proof.
  unfold handleLine.
  destruct (String.eqb _ "PING"); [by rewrite sendLine_set_buffer|].
  destruct (String.eqb _ "PONG"); [done|].
  destruct (String.eqb _ "BEGIN").
  { rewrite <- fold_addDevice_set_buffer. st_simpl. done. }
  destruct (String.eqb _ "ADD-DEVICE").
  { destruct (nonempty_string _); [|done]. st_simpl. by destruct (_ && _). }
  destruct (String.eqb _ "KEYS-CLEAR").
  { by destruct (nonempty_string _). }
  destruct (String.eqb _ "KEY-STATE"); [|done].
  destruct (nonempty_string _); [|done]. st_simpl.
  destruct (devices_get _ _); [|done].
  by destruct (decodeKey _ _).
Qed.

Lemma handleLine_buffer s line : buffer (after (handleLine s line)) = buffer s.
Proof. apply (handleLine_frame s line). Qed.

Lemma endsWith_app c a b : b ≠ EmptyString → endsWith c (a +:+ b) = endsWith c b.
Proof. destruct b as [|e r]; [done|]. intros _. apply endsWith_skip. Qed.

Lemma endsWith_nonempty c a : endsWith c a = true → a ≠ EmptyString.
Proof. by destruct a. Qed.


(** Text without a newline that stands before the rest may as well have
    been read already. *)
Lemma handleData_loop_read l2 : ∀ l1 rest s,
  no_newline l2 →
  handleData_loop (l2 +:+ rest) l1 s = handleData_loop rest (l1 +:+ l2) s.
Proof.
  induction l2 as [|c l2 IH]; intros l1 rest s H.
  - by rewrite append_nil, append_empty_r.
  - apply no_newline_cons in H as [Hc H]. rewrite append_cons.
    cbn [handleData_loop]. rewrite Hc. rewrite IH by done.
    unfold snoc. by rewrite append_assoc_s.
Qed.

(** The loop over a text of which only the first part has arrived, and
    over the whole of it. *)
Lemma handleData_loop_app a b : ∀ line s,
  no_newline line →
  handleData_loop (a +:+ b) line (set_buffer (line +:+ a +:+ b) s)
  = match handleData_loop a line (set_buffer (line +:+ a) s) with
    | Returns s1 =>
        handleData_loop (buffer s1 +:+ b) EmptyString (set_buffer (buffer s1 +:+ b) s1)
    | Raises c s1 => Raises c (set_buffer (buffer s1 +:+ b) s1)
    end.
Proof.
  induction a as [|c a IH]; intros line s Hline.
  - rewrite append_nil, append_empty_r. cbn [handleData_loop].
    change (buffer (set_buffer line s)) with line. rewrite set_buffer_twice.
    rewrite handleData_loop_read by done. by rewrite append_nil.
  - rewrite append_cons. cbn [handleData_loop].
    destruct (Ascii.eqb c lf) eqn:Ec.
    + rewrite !set_buffer_twice.
      set (l := if endsWith cr line then dropLast line else line).
      destruct (is_empty l).
      * apply (IH EmptyString s). done.
      * rewrite !handleLine_set_buffer.
        destruct (handleLine s l) as [s2|c' s2]; cbn [and_then].
        -- apply (IH EmptyString s2). done.
        -- change (buffer (set_buffer a s2)) with a. by rewrite set_buffer_twice.
    + rewrite <- !append_snoc. apply IH. by apply no_newline_snoc.
Qed.


(** X5. How the incoming text is cut into chunks makes no difference as
    long as no line raises: when the first chunk is handled without an
    error, handling the second after it is handling their concatenation.
    When a line of the first chunk raises, the concatenation raises at
    the same line, and the second chunk is left in [buffer] behind what
    the first left there. *)
Theorem handleData_chunks (c1 c2 : string) (s : State) :
  handleData (c1 +:+ c2) s
  = match handleData c1 s with
    | Returns s1 => handleData c2 s1
    | Raises c s1 => Raises c (set_buffer (buffer s1 +:+ c2) s1)
    end.
Proof.
  unfold handleData.
  change (buffer (set_buffer ?b ?x)) with b.
  pose proof (handleData_loop_app (buffer s +:+ c1) c2 EmptyString s) as H.
  rewrite !append_nil in H. rewrite <- append_assoc_s.
  rewrite H by done.
  destruct (handleData_loop _ _ _) as [s1|c s1]; [|done].
  by change (buffer (set_buffer ?b ?x)) with b.
Qed.

End FrameFacts.
(* ===================================================================== *)
(** * Key presses, key updates and repeated announcements *)
(* ===================================================================== *)

Section KeyFacts.
Import Bridge Samples Predicates Shapes.

Lemma uint_chars (p : ascii → bool) (d : Decimal.uint) :
  Registry.all_chars p "0123456789" = true →
  Registry.all_chars p (NilEmpty.string_of_uint d) = true.
Proof.
  intros H. cbn [Registry.all_chars] in H.
  repeat (apply andb_true_iff in H as [? H]).
  induction d; cbn [NilEmpty.string_of_uint Registry.all_chars]; [done | ..];
    apply andb_true_iff; by split.
Qed.

(** The decimal text of an integer is made of digits, after a minus sign
    for a negative one. *)
Lemma Z_to_string_chars (p : ascii → bool) (n : Z) :
  Registry.all_chars p "-0123456789" = true →
  Registry.all_chars p (Z_to_string n) = true.
Proof.
  intros H. cbn [Registry.all_chars] in H. apply andb_true_iff in H as [Hm H].
  assert (Hu : ∀ d, Registry.all_chars p (NilZero.string_of_uint d) = true).
  { intros d. pose proof (uint_chars p d H) as Hd.
    unfold NilZero.string_of_uint. destruct d; try done.
    cbn [Registry.all_chars] in H |- *. apply andb_true_iff in H as [H0 _].
    by rewrite H0. }
  unfold Z_to_string. destruct n as [|q|q]; cbn [Z.to_int NilZero.string_of_int].
  - apply Hu.
  - apply Hu.
  - cbn [Registry.all_chars]. rewrite Hm. apply Hu.
Qed.

Lemma all_chars_indexOf (c : ascii) (s : string) :
  Registry.all_chars (λ d, negb (Ascii.eqb d c)) s = true → indexOf c s = None.
Proof.
  induction s as [|d s IH]; [done|]. cbn [Registry.all_chars indexOf].
  intros [Hd Hs]%andb_true_iff. apply negb_true_iff in Hd. rewrite Hd.
  by rewrite IH.
Qed.

Lemma cell_of_index (c xi yi : Z) :
  0 ≤ xi ≤ c - 1 → 0 ≤ yi →
  Z.rem (yi * c + xi) c = xi ∧ (yi * c + xi) / c = yi.
Proof.
  intros Hx Hy.
  assert (0 ≤ yi * c) by nia.
  rewrite Z.rem_mod_nonneg by lia. split.
  - symmetry. apply (Z.mod_unique_pos _ _ yi); lia.
  - symmetry. apply (Z.div_unique_pos _ _ yi xi); lia.
Qed.

Lemma keyPress_configured d x y pressed s dev :
  devices_get d (devices s) = Some dev →
  keyPress d x y pressed s
  = Raises (internalSurfaceKey d (clampInt x 0 (columns dev - 1) 0)
              (clampInt y 0 (rows dev - 1) 0) pressed)
      (if connected s && socket s
       then emit (SocketWrite (terminated (command "KEY-PRESS"
                    [("DEVICEID", JStr d);
                     ("KEY", JNum (clampInt y 0 (rows dev - 1) 0 * columns dev
                                   + clampInt x 0 (columns dev - 1) 0));
                     ("PRESSED", JBool pressed)]))) s
       else s).
Proof.
  intros Hget. unfold keyPress. rewrite Hget.
  unfold sendCommand, sendLine, API.
  by destruct (connected s), (socket s).
Qed.

(** X6. A key press names a cell of the grid: for a configured device the
    coordinates are clamped into the grid, the flat index is within the
    grid, and read back with the addressing of KEY-STATE that index is the
    same cell.  When the connection is up the line KEY-PRESS with the
    device id between quotes, the index and 1 or 0 for pressed or released
    is written, and nothing is written otherwise; then the call of
    [API.internalSurfaceKey] for that cell raises.  For an id that is not
    configured [keyPress] returns and nothing has changed. *)
Theorem keyPress_cell (s : State) (d : string) (x y : jsval) (pressed : bool)
    (dev : Device) :
  reachable s → devices_get d (devices s) = Some dev →
  let xi := clampInt x 0 (columns dev - 1) 0 in
  let yi := clampInt y 0 (rows dev - 1) 0 in
  let keyIndex := yi * columns dev + xi in
  (0 ≤ xi ≤ columns dev - 1 ∧ 0 ≤ yi ≤ rows dev - 1
   ∧ 0 ≤ keyIndex ≤ columns dev * rows dev - 1)
  ∧ decodeKey dev (JStr (Z_to_string keyIndex)) = (xi, yi)
  ∧ keyPress d x y pressed s
    = Raises (internalSurfaceKey d xi yi pressed)
        (if connected s && socket s
         then emit (SocketWrite
                ("KEY-PRESS DEVICEID=" +:+ quoted d
                 +:+ " KEY=" +:+ Z_to_string keyIndex
                 +:+ " PRESSED=" +:+ (if pressed then "1" else "0")
                 +:+ String lf EmptyString)) s
         else s)
  ∧ (∀ s' d', devices_get d' (devices s') = None →
       keyPress d' x y pressed s' = Returns s').
Proof.
  intros Hreach Hget xi yi keyIndex.
  destruct (reachable_get_wf s d dev Hreach Hget) as (_ & _ & Hc & Hr & _).
  assert (Hx : 0 ≤ xi ≤ columns dev - 1) by (apply clampInt_bounds; lia).
  assert (Hy : 0 ≤ yi ≤ rows dev - 1) by (apply clampInt_bounds; lia).
  assert (Hk : 0 ≤ keyIndex ≤ columns dev * rows dev - 1).
  { pose proof (Z.mul_le_mono_nonneg_r yi (rows dev - 1) (columns dev)) as Hm.
    unfold keyIndex. nia. }
  assert (Hsmall : Z.abs keyIndex < 2 ^ 53).
  { assert (columns dev * rows dev ≤ 32 * 32) by nia.
    change (2 ^ 53) with 9007199254740992. lia. }
  split; [done|]. split.
  { rewrite decodeKey_flat.
    2:{ intros k [= <-]. apply all_chars_indexOf, Z_to_string_chars. reflexivity. }
    rewrite (clampInt_numeral _ keyIndex) by (by apply parseInt_decimal_small).
    replace (Z.max 0 (Z.min (columns dev * rows dev - 1) keyIndex)) with keyIndex by lia.
    unfold keyIndex.
    destruct (cell_of_index (columns dev) xi yi) as [-> ->]; [lia | lia | done]. }
  split.
  { rewrite (keyPress_configured d x y pressed s dev Hget).
    fold xi yi keyIndex. rewrite key_press_rendered; [done|].
    change (2 ^ 53) with 9007199254740992 in Hsmall.
    change (10 ^ 21) with 1000000000000000000000. lia. }
  intros s' d' Hnone. unfold keyPress. by rewrite Hnone.
Qed.

Lemma keyPress_cell_witness :
  decodeKey dev8x4 (JStr (Z_to_string (2 * 8 + 3))) = (3, 2)
  ∧ keyPress "dev1" (JNum 3) (JNum 2) true registered
    = Raises (internalSurfaceKey "dev1" 3 2 true)
        (emit (SocketWrite key_press_19_text) registered).
Proof.
  destruct (keyPress_cell registered "dev1" (JNum 3) (JNum 2) true dev8x4)
    as (_ & H1 & H2 & _).
  - exact reachable_registered.
  - vm_compute. reflexivity.
  - split; [exact H1|]. rewrite H2. vm_compute. reflexivity.
Defined.

Lemma handleLine_key_state s line :
  verb_of line = "KEY-STATE" →
  handleLine s line
  = match nonempty_string
            (safeString (get (parseParams (body_of line)) "DEVICEID") (JStr EmptyString)) with
    | None => Returns s
    | Some deviceId =>
        match devices_get deviceId (devices s) with
        | None => Returns s
        | Some dev =>
            Raises (internalSurfaceDraw deviceId
                      (decodeKey dev (get (parseParams (body_of line)) "KEY")).1
                      (decodeKey dev (get (parseParams (body_of line)) "KEY")).2) s
        end
    end.
Proof.
  intros H. unfold handleLine. rewrite H. cbn [String.eqb Ascii.eqb Bool.eqb].
  destruct (nonempty_string _); [|done].
  destruct (devices_get _ _); [|done]. by destruct (decodeKey _ _).
Qed.

(** X7. What a KEY-STATE line does in a reachable state.  When its
    DEVICEID is a string naming a configured device, the key it addresses
    lies inside that device's grid, and the line ends in the call of
    [API.internalSurfaceDraw] for that device and key, which raises: the
    bridge is left as it was and no window is told.  When DEVICEID is
    missing, is no string or names no configured device, the handler
    returns with nothing changed. *)
Theorem key_state_in_grid (s : State) (line : string) :
  reachable s → verb_of line = "KEY-STATE" →
  let params := parseParams (body_of line) in
  match get params "DEVICEID" with
  | JStr d =>
      match devices_get d (devices s) with
      | Some dev =>
          let key := decodeKey dev (get params "KEY") in
          0 ≤ key.1 ≤ columns dev - 1 ∧ 0 ≤ key.2 ≤ rows dev - 1
          ∧ handleLine s line = Raises (internalSurfaceDraw d key.1 key.2) s
      | None => handleLine s line = Returns s
      end
  | _ => handleLine s line = Returns s
  end.
Proof.
  intros Hreach Hline params.
  rewrite handleLine_key_state by done. fold params.
  destruct (get params "DEVICEID") as [| | | |d] eqn:Hd; try done.
  cbn [safeString nonempty_string].
  destruct (devices_get d (devices s)) as [dev|] eqn:Hget.
  - destruct (reachable_get_wf s d dev Hreach Hget) as (Hid & Hne & Hc & Hr & _).
    rewrite Hid in Hne. rewrite Hne, Hget. cbv zeta.
    pose proof (decodeKey_bounds dev (get params "KEY")) as Hb.
    destruct Hb as [Hx Hy]; [lia | lia |]. done.
  - destruct (is_empty d); [done|]. by rewrite Hget.
Qed.

Lemma key_state_in_grid_witness :
  handleLine registered "KEY-STATE DEVICEID=dev1 KEY=1/2 TEXT=SGVsbG8="
  = Raises (internalSurfaceDraw "dev1" 2 1) registered
  ∧ handleLine registered state_ghost = Returns registered.
Proof.
  pose proof (key_state_in_grid registered
                "KEY-STATE DEVICEID=dev1 KEY=1/2 TEXT=SGVsbG8="
                reachable_registered) as H1.
  pose proof (key_state_in_grid registered state_ghost reachable_registered) as H2.
  split.
  - lapply H1; [|vm_compute; reflexivity]. clear H1 H2. intros H. cbv zeta in H.
    replace (get (parseParams (body_of "KEY-STATE DEVICEID=dev1 KEY=1/2 TEXT=SGVsbG8="))
               "DEVICEID") with (JStr "dev1") in H by (vm_compute; reflexivity).
    replace (devices_get "dev1" (devices registered)) with (Some dev8x4) in H
      by (vm_compute; reflexivity).
    destruct H as (_ & _ & H). rewrite H. vm_compute. reflexivity.
  - lapply H2; [|vm_compute; reflexivity]. clear H1 H2. intros H. cbv zeta in H.
    replace (get (parseParams (body_of state_ghost)) "DEVICEID")
      with (JStr "ghost") in H by (vm_compute; reflexivity).
    replace (devices_get "ghost" (devices registered)) with (@None Device) in H
      by (vm_compute; reflexivity).
    exact H.
Defined.

(** ** A repeated announcement *)

Lemma addDevice_grows dev s :
  pendingDevices s ⊆ pendingDevices (addDeviceToCompanion dev s)
  ∧ registeredDevices (addDeviceToCompanion dev s) = registeredDevices s
  ∧ lastBegin (addDeviceToCompanion dev s) = lastBegin s
  ∧ (connected s = true → socket s = true →
     id dev ∈ pendingDevices (addDeviceToCompanion dev s)
     ∨ id dev ∈ registeredDevices (addDeviceToCompanion dev s)).
Proof.
  unfold addDeviceToCompanion, has, sendCommand, sendLine.
  destruct s as [ap so bu co cg rt lb ds ws rd pd cf tms nh ef]. st_simpl.
  destruct co, so; cbn [negb orb]; try done.
  destruct (bool_decide (id dev ∈ rd)) eqn:Hr.
  { apply bool_decide_eq_true in Hr. cbn [orb]. repeat split; try done.
    intros _ _. by right. }
  destruct (bool_decide (id dev ∈ pd)) eqn:Hp.
  { apply bool_decide_eq_true in Hp. cbn [orb]. repeat split; try done.
    intros _ _. by left. }
  cbn [orb]. st_simpl. repeat split; try done; [set_solver|]. intros _ _. left. set_solver.
Qed.

Lemma fold_addDevice_grows l : ∀ s,
  let s' := fold_left (λ s dev, addDeviceToCompanion dev s) l s in
  pendingDevices s ⊆ pendingDevices s'
  ∧ registeredDevices s' = registeredDevices s
  ∧ lastBegin s' = lastBegin s
  ∧ (connected s = true → socket s = true →
     ∀ dev, dev ∈ l → id dev ∈ pendingDevices s' ∨ id dev ∈ registeredDevices s').
Proof.
  induction l as [|d l IH]; intros s; cbn [fold_left].
  - repeat split; try done. intros _ _ dev H. by apply elem_of_nil in H.
  - destruct (addDevice_grows d s) as (G1 & G2 & G3 & G4).
    destruct (addDevice_frame d s) as (_ & Hso & _ & Hco & _).
    destruct (IH (addDeviceToCompanion d s)) as (I1 & I2 & I3 & I4).
    cbv zeta in *. split; [set_solver|]. split; [congruence|]. split; [congruence|].
    intros Hc Hs dev [-> | Hin]%elem_of_cons.
    + destruct (G4 Hc Hs) as [H | H]; [left; set_solver | right; by rewrite I2].
    + apply I4; [by rewrite Hco | by rewrite Hso | done].
Qed.

Lemma fold_addDevice_noop l : ∀ s,
  (connected s = true → socket s = true →
   ∀ dev, dev ∈ l → id dev ∈ pendingDevices s ∨ id dev ∈ registeredDevices s) →
  fold_left (λ s dev, addDeviceToCompanion dev s) l s = s.
Proof.
  induction l as [|d l IH]; intros s H; cbn [fold_left]; [done|].
  assert (E : addDeviceToCompanion d s = s).
  { destruct (connected s) eqn:Hc, (socket s) eqn:Hs;
      try (unfold addDeviceToCompanion; by rewrite Hc, Hs).
    apply addDevice_known. apply H; [done | done | apply list_elem_of_here]. }
  rewrite E. apply IH. intros Hc Hs dev Hin. apply H; [done | done |].
  by apply list_elem_of_further.
Qed.

(** X8. A BEGIN line that follows a BEGIN line writes nothing and leaves
    both handshake sets as they were: every configured device is already
    pending or registered (or the connection is down and nothing was
    sent in the first place).  Only the stored announcement is replaced. *)
Theorem begin_twice (s : State) (l1 l2 : string) :
  verb_of l1 = "BEGIN" → verb_of l2 = "BEGIN" →
  let s1 := after (handleLine s l1) in
  let s2 := after (handleLine s1 l2) in
  effects s2 = effects s1
  ∧ pendingDevices s2 = pendingDevices s1
  ∧ registeredDevices s2 = registeredDevices s1
  ∧ lastBegin s2 = Some (parseParams (body_of l2))
  ∧ s2 = set_lastBegin (Some (parseParams (body_of l2))) s1.
Proof.
  intros H1 H2 s1 s2.
  assert (E : s2 = set_lastBegin (Some (parseParams (body_of l2))) s1).
  { unfold s2. rewrite handleLine_begin by done. cbn [after].
    pose proof (handleLine_frame s l1) as (_ & Hso & _ & Hco & _ & Hdev & _).
    pose proof (handleLine_connecting s l1) as Hcg. rewrite H1 in Hcg.
    fold s1 in Hso, Hco, Hdev, Hcg.
    rewrite fold_addDevice_noop.
    - destruct s1; st_norm. cbn in Hcg. by rewrite Hcg.
    - st_simpl. intros Hc Hs dev Hin. rewrite Hdev in Hin.
      unfold s1. rewrite handleLine_begin by done. cbn [after].
      pose proof (fold_addDevice_grows (devices s)
        (set_connecting false (set_lastBegin (Some (parseParams (body_of l1))) s)))
        as (_ & _ & _ & G).
      cbv zeta in G. st_simpl.
      apply G; [by rewrite <- Hco | by rewrite <- Hso | done]. }
  rewrite E. st_simpl. done.
Qed.

Lemma begin_twice_witness :
  effects (after (handleLine (after (handleLine awaiting begin_line)) "BEGIN"))
  = effects (after (handleLine awaiting begin_line))
  ∧ pendingDevices (after (handleLine (after (handleLine awaiting begin_line)) "BEGIN"))
    = pendingDevices (after (handleLine awaiting begin_line)).
Proof.
  destruct (begin_twice awaiting begin_line "BEGIN") as (H1 & H2 & _).
  - vm_compute. reflexivity.
  - vm_compute. reflexivity.
  - split; [exact H1 | exact H2].
Defined.

End KeyFacts.
(* ===================================================================== *)
(** * What [sendCommand] writes, read back by the tokenizer *)
(* ===================================================================== *)

Section RoundTrip.
Import Bridge Samples Predicates Shapes.















(** ** The tokens of a line *)

Lemma split_loop_nonempty_n (n : nat) : ∀ line cur q toks,
  (String.length line ≤ n)%nat →
  Forall (λ t, is_empty t = false) toks →
  Forall (λ t, is_empty t = false) (split_loop line cur q toks).1.1.
Proof.
  induction n as [|n IH]; intros line cur q toks Hn H.
  { destruct line; [done | cbn in Hn; lia]. }
  destruct line as [|c line]; [done|]. cbn [String.length] in Hn.
  rewrite split_loop_cons.
  destruct (Ascii.eqb c bs).
  { destruct line as [|d line]; [done|]. cbn [String.length] in Hn.
    apply IH; [lia | done]. }
  destruct (Ascii.eqb c dq); [apply IH; [lia | done]|].
  destruct (negb q && Ascii.eqb c sp); [|apply IH; [lia | done]].
  apply IH; [lia|].
  destruct (is_empty cur) eqn:E; [done|].
  apply Forall_app. split; [done|]. by constructor.
Qed.

(** X10. No token that [splitTokensPreservingQuotes] returns is empty,
    whatever the line: runs of spaces, a pair of quotes with nothing
    between them, or a backslash at the end of the line yield no token of
    their own. *)
Theorem tokens_nonempty (line : string) :
  Forall (λ t, is_empty t = false) (splitTokensPreservingQuotes line).
Proof.
  unfold splitTokensPreservingQuotes.
  pose proof (split_loop_nonempty_n (String.length line) line EmptyString false []
                (le_n _) (Forall_nil_2 _)) as H.
  destruct (split_loop _ _ _ _) as [[t c] q]. cbn [fst] in H.
  destruct (is_empty c) eqn:E; [done|].
  apply Forall_app. split; [done|]. by constructor.
Qed.

End RoundTrip.
(* ===================================================================== *)
(** * Invariants of the surface registry *)
(* ===================================================================== *)

Section RegistryInvariants.
Import Registry RegistryRun Samples Shapes.

Lemma trimStart_head (x : string) (c : ascii) (r : string) :
  trimStart x = String c r → is_space c = false.
Proof.
  induction x as [|d x IH]; [done|]. cbn [trimStart].
  destruct (is_space d) eqn:E; [exact IH|]. by intros [= <- _].
Qed.

Lemma trimEnd_idem (x : string) : trimEnd (trimEnd x) = trimEnd x.
Proof.
  induction x as [|c x IH]; [done|]. cbn [trimEnd].
  destruct (is_empty (trimEnd x) && is_space c) eqn:E; [done|].
  cbn [trimEnd]. by rewrite IH, E.
Qed.

Lemma trimEnd_head (c : ascii) (r : string) :
  is_space c = false → trimEnd (String c r) = String c (trimEnd r).
Proof. intros H. cbn [trimEnd]. by rewrite H, andb_false_r. Qed.

(** Trimming a trimmed string changes nothing. *)
Lemma trim_idem (x : string) : trim (trim x) = trim x.
Proof.
  unfold trim. destruct (trimStart x) as [|c r] eqn:E; [done|].
  apply trimStart_head in E. rewrite trimEnd_head by done.
  cbn [trimStart]. rewrite E. rewrite trimEnd_head by done.
  by rewrite trimEnd_idem.
Qed.

(** An accepted id is not empty and is accepted again as it stands. *)
Lemma sanitize_accepts (value : jsval) (i : string) :
  sanitizeSurfaceId value = Some i →
  is_empty i = false ∧ sanitizeSurfaceId (JStr i) = Some i.
Proof.
  unfold sanitizeSurfaceId. destruct value as [| | | |x]; try done.
  destruct (is_empty (trim x)) eqn:Hne; [done|].
  destruct (all_chars id_char (trim x) && (String.length (trim x) <=? 64)%nat) eqn:E;
    [|done].
  intros [= <-]. by rewrite trim_idem, Hne, E.
Qed.

(** X11. What [sanitizeSurfaceId] accepts is the trimmed text of a string
    value: 1 to 64 code units, each a letter, a digit, an underscore or a
    hyphen; and sanitizing an accepted id again gives the same id. *)
Theorem sanitizeSurfaceId_sound (value : jsval) (i : string) :
  sanitizeSurfaceId value = Some i →
  (∃ x, value = JStr x ∧ i = trim x)
  ∧ all_chars id_char i = true
  ∧ (1 ≤ String.length i ≤ 64)%nat
  ∧ sanitizeSurfaceId (JStr i) = Some i.
Proof.
  unfold sanitizeSurfaceId. destruct value as [| | | |x]; try done.
  destruct (is_empty (trim x)) eqn:Hne; [done|].
  destruct (all_chars id_char (trim x) && (String.length (trim x) <=? 64)%nat) eqn:E;
    [|done].
  intros [= <-]. rewrite trim_idem, Hne, E.
  apply andb_true_iff in E as [Hc Hl]. apply Nat.leb_le in Hl.
  split; [by exists x|]. split; [done|]. split; [|done].
  destruct (trim x); [done | cbn [String.length] in *; lia].
Qed.

Lemma sanitizeSurfaceId_sound_witness :
  all_chars id_char "dev-1" = true
  ∧ sanitizeSurfaceId (JStr "dev-1") = Some "dev-1".
Proof.
  destruct (sanitizeSurfaceId_sound (JStr "  dev-1 ") "dev-1") as (_ & H1 & _ & H2).
  - vm_compute. reflexivity.
  - split; [exact H1 | exact H2].
Defined.

(** ** Sizes and cached keys stay within their limits *)

Lemma clampInt_size (v : jsval) (n : Z) :
  clampInt v 1 (Some 32) = Some n → 1 ≤ n ≤ 32.
Proof.
  unfold clampInt. destruct (parseInt _) as [| | |m]; try done.
  destruct (m <? 1) eqn:E1; [intros [= <-]; lia|].
  destruct (32 <? m) eqn:E2; intros [= <-]; lia.
Qed.

Lemma clampInt_key (v : jsval) (c : option Z) :
  size_ok c → in_range c (clampInt v 0 ((λ c, c - 1) <$> c)).
Proof.
  intros Hc. unfold clampInt, in_range.
  destruct (parseInt _) as [| | |n]; try done.
  destruct c as [c|]; cbn in *.
  - destruct (n <? 0) eqn:E1; [lia|].
    destruct (c - 1 <? n) eqn:E2; lia.
  - destruct (n <? 0) eqn:E1; lia.
Qed.

Lemma target_lookup sock payload r sid s :
  target sock payload r = Some (sid, s) → surfaces r !! sid = Some s.
Proof.
  unfold target.
  destruct (match payload ≫= _ with Some i => Some i | None => _ end) as [i|];
    [|done].
  destruct (is_empty i); [done|].
  destruct (surfaces r !! i) as [s0|] eqn:E; [|done]. by intros [= <- <-].
Qed.

Lemma register_ok sock ip now info r :
  registry_ok r → registry_ok (surface_register sock ip now info r).
Proof.
  intros [Hs Hm]. unfold surface_register.
  destruct (info ≫= _) as [sid|] eqn:E; [|by split].
  destruct info as [i|]; [|by split]. cbn in E.
  destruct (sanitize_accepts _ _ E) as [_ Hfix].
  split; cbn [surfaces surfaceIdBySocketId].
  - intros sid' s' [[<- <-] | [_ H]]%lookup_insert_Some; [|by apply Hs].
    split; [done|]. split; [done|]. cbn [columns rows keys].
    split; [|split].
    + destruct (clampInt (i_columns i) 1 (Some 32)) eqn:Ec; [|done].
      by apply clampInt_size in Ec.
    + destruct (clampInt (i_rows i) 1 (Some 32)) eqn:Er; [|done].
      by apply clampInt_size in Er.
    + intros key st H. by rewrite lookup_empty in H.
  - intros sock' sid' [[<- <-] | [_ H]]%lookup_insert_Some; [done|]. by eapply Hm.
Qed.

Lemma draw_ok sock now payload r :
  registry_ok r → registry_ok (surface_draw sock now payload r).
Proof.
  intros [Hs Hm]. unfold surface_draw.
  destruct (target sock payload r) as [[sid s]|] eqn:E; [|by split].
  destruct payload as [p|]; [|by split].
  apply target_lookup in E. destruct (Hs _ _ E) as (Hid & Hfix & Hc & Hr & Hk).
  split; cbn [surfaces surfaceIdBySocketId]; [|done].
  intros sid' s' [[<- <-] | [_ H]]%lookup_insert_Some; [|by apply Hs].
  split; [done|]. split; [done|]. cbn [columns rows keys].
  split; [done|]. split; [done|].
  intros key st [[<- _] | [_ H]]%lookup_insert_Some; [|by eapply Hk].
  unfold key_of. cbn [fst snd]. split; by apply clampInt_key.
Qed.

Lemma key_ok sock now payload r :
  registry_ok r → registry_ok (surface_key sock now payload r).
Proof.
  intros [Hs Hm]. unfold surface_key.
  destruct (target sock payload r) as [[sid s]|] eqn:E; [|by split].
  destruct payload as [p|]; [|by split].
  apply target_lookup in E. destruct (Hs _ _ E) as (Hid & Hfix & Hc & Hr & Hk).
  split; cbn [surfaces surfaceIdBySocketId]; [|done].
  intros sid' s' [[<- <-] | [_ H]]%lookup_insert_Some; [|by apply Hs].
  split; [done|]. split; [done|]. cbn [columns rows keys].
  split; [exact Hc|]. split; [exact Hr | exact Hk].
Qed.

Lemma disconnect_ok sock r :
  registry_ok r → registry_ok (on_disconnect sock r).
Proof.
  intros [Hs Hm]. unfold on_disconnect.
  destruct (surfaceIdBySocketId r !! sock) as [sid|]; [|by split].
  destruct (is_empty sid); [by split|].
  split; cbn [surfaces surfaceIdBySocketId].
  - intros sid' s' [_ H]%lookup_delete_Some. by apply Hs.
  - intros sock' sid' [_ H]%lookup_delete_Some. by eapply Hm.
Qed.

Lemma reachable_reg2 : reachable reg2.
Proof.
  apply (reachable_step _
    (DrawKey "sock1" 101 (Some (draw_at 0 0 (JStr "Hello") JUndefined)))).
  apply (reachable_step _ (Register "sock1" (JStr "10.0.0.7") 100 (Some info1))).
  apply reachable_empty.
Defined.

(** X12. Whatever the clients of the registry send, every registered
    surface is stored under its own id, an id that [sanitizeSurfaceId]
    accepts as it stands; its columns and rows, when they were readable,
    are between 1 and 32; and every cached key has coordinates that are
    not negative and, where the size is known, inside the grid (or no
    coordinate at all, where the client sent none that can be read).
    Every socket is mapped to an id of that kind. *)
Theorem registry_invariant (r : State) :
  reachable r → registry_ok r.
Proof.
  induction 1 as [|r e _ IH].
  - split; intros ? ? H; cbn [Registry.empty surfaces surfaceIdBySocketId] in H;
      by rewrite lookup_empty in H.
  - destruct e; cbn [step].
    + by apply register_ok.
    + by apply draw_ok.
    + by apply key_ok.
    + by apply disconnect_ok.
Qed.

Lemma registry_invariant_witness : registry_ok reg2.
Proof. apply registry_invariant. exact reachable_reg2. Defined.

(** ** What a draw and a key event leave alone *)

Lemma cached_insert_other r sid s s' sid' key' f :
  surfaces r !! sid = Some s →
  (sid' = sid → keys s' !! key' = keys s !! key') →
  match <[sid := s']> (surfaces r) !! sid' with
  | Some s0 => field (default ∅ (keys s0 !! key')) f
  | None => JUndefined
  end = cached r sid' key' f.
Proof.
  intros Hs Hk. unfold cached.
  destruct (decide (sid' = sid)) as [->|Hne].
  - by rewrite lookup_insert_eq, Hs, Hk.
  - by rewrite lookup_insert_ne.
Qed.

(** X13. A draw event changes the cache at one key of one surface only:
    every other key of that surface, and every key of every other
    surface, reads as before, and no surface appears or disappears.  A key
    event changes no cached key at all, the key it addresses included.
    Neither touches the socket map. *)
Theorem draw_is_local (sock : string) (now : Z) (payload : option Payload)
    (r : State) (sid' : string) (key' : option Z * option Z) (f : string) :
  ((∀ sid s p, target sock payload r = Some (sid, s) → payload = Some p →
      (sid', key') ≠ (sid, key_of s p)) →
   cached (surface_draw sock now payload r) sid' key' f = cached r sid' key' f)
  ∧ cached (surface_key sock now payload r) sid' key' f = cached r sid' key' f
  ∧ dom (surfaces (surface_draw sock now payload r)) = dom (surfaces r)
  ∧ dom (surfaces (surface_key sock now payload r)) = dom (surfaces r)
  ∧ surfaceIdBySocketId (surface_draw sock now payload r) = surfaceIdBySocketId r
  ∧ surfaceIdBySocketId (surface_key sock now payload r) = surfaceIdBySocketId r.
Proof.
  unfold surface_draw, surface_key.
  destruct (target sock payload r) as [[sid s]|] eqn:E; [|done].
  destruct payload as [p|]; [|done].
  apply target_lookup in E.
  assert (Hdom : ∀ s', dom (<[sid := s']> (surfaces r)) = dom (surfaces r)).
  { intros s'. rewrite dom_insert_L.
    assert (sid ∈ dom (surfaces r)) by (apply elem_of_dom; by eexists).
    set_solver. }
  cbn [surfaces surfaceIdBySocketId]. unfold cached at 1 3.
  cbn [surfaces]. repeat split; try done.
  - intros Hother.
    apply (cached_insert_other r sid s); [done|]. intros ->. cbn [keys].
    rewrite lookup_insert_ne; [done|]. intros Hk.
    by apply (Hother sid s p); [| |rewrite Hk].
  - by apply (cached_insert_other r sid s).
Qed.

Lemma draw_is_local_witness :
  cached (surface_draw "sock1" 102 (Some (draw_at 0 0 JUndefined (JStr "#ffffff"))) reg2)
    "dev-1" (Some 1, Some 0) "text"
  = cached reg2 "dev-1" (Some 1, Some 0) "text"
  ∧ cached (surface_key "sock1" 102 (Some (draw_at 0 0 JUndefined JUndefined)) reg2)
      "dev-1" (Some 0, Some 0) "text"
    = cached reg2 "dev-1" (Some 0, Some 0) "text".
Proof.
  split.
  - refine (proj1 (draw_is_local "sock1" 102
              (Some (draw_at 0 0 JUndefined (JStr "#ffffff"))) reg2
              "dev-1" (Some 1, Some 0) "text") _).
    intros sid s p Ht [= <-]. vm_compute in Ht. injection Ht as <- <-.
    vm_compute. discriminate.
  - exact (proj1 (proj2 (draw_is_local "sock1" 102
              (Some (draw_at 0 0 JUndefined JUndefined)) reg2
              "dev-1" (Some 0, Some 0) "text"))).
Defined.

(** X14. Registering a surface and then losing the socket that
    registered it leaves neither the surface nor the socket in the
    registry: the surface map is the earlier one without that id, the
    socket map the earlier one without that socket, so a registration
    under a fresh id from a fresh socket is undone exactly. *)
Theorem register_then_disconnect (sock : string) (ip : jsval) (now : Z)
    (i : Info) (r : State) (sid : string) :
  sanitizeSurfaceId (i_surfaceId i) = Some sid →
  let r1 := surface_register sock ip now (Some i) r in
  let r2 := on_disconnect sock r1 in
  (∃ s, surfaces r1 !! sid = Some s ∧ surfaceId s = sid ∧ keys s = ∅)
  ∧ surfaceIdBySocketId r1 !! sock = Some sid
  ∧ surfaces r2 = delete sid (surfaces r)
  ∧ surfaceIdBySocketId r2 = delete sock (surfaceIdBySocketId r)
  ∧ (surfaces r !! sid = None → surfaceIdBySocketId r !! sock = None →
     surfaces r2 = surfaces r ∧ surfaceIdBySocketId r2 = surfaceIdBySocketId r).
Proof.
  intros Hsid r1 r2.
  destruct (sanitize_accepts _ _ Hsid) as [Hne _].
  unfold r2, r1, on_disconnect, surface_register. cbn [mbind option_bind].
  rewrite Hsid. cbn [surfaces surfaceIdBySocketId].
  rewrite !lookup_insert_eq, Hne. cbn [surfaces surfaceIdBySocketId].
  rewrite !delete_insert_eq.
  split; [by eexists|]. split; [done|]. split; [done|]. split; [done|].
  intros H1 H2. by rewrite !delete_id.
Qed.

Lemma register_then_disconnect_witness :
  surfaces (on_disconnect "sock1" reg1) = delete "dev-1" (surfaces Registry.empty).
Proof.
  destruct (register_then_disconnect "sock1" (JStr "10.0.0.7") 100 info1
              Registry.empty "dev-1") as (_ & _ & H & _).
  - vm_compute. reflexivity.
  - exact H.
Defined.

End RegistryInvariants.
(* ===================================================================== *)
(** * The device list of the settings endpoint, and the bridge *)
(* ===================================================================== *)

Section SettingsFacts.
Import Bridge Settings Samples Predicates Shapes.

Lemma settings_clampInt_bounds (v : jsval) (lo hi fb : Z) :
  lo ≤ hi → lo ≤ fb ≤ hi → lo ≤ Settings.clampInt v lo hi fb ≤ hi.
Proof.
  intros Hlh Hfb. unfold Settings.clampInt, Registry.clampInt.
  destruct (parseInt _) as [| | |n]; cbn; try done.
  destruct (n <? lo) eqn:E1; cbn; [lia|].
  destruct (hi <? n) eqn:E2; cbn; lia.
Qed.

Lemma sanitizeColorString_length (v : jsval) (fb : string) :
  (1 ≤ String.length fb ≤ 32)%nat →
  (1 ≤ String.length (sanitizeColorString v fb) ≤ 32)%nat.
Proof.
  intros Hfb. unfold sanitizeColorString. destruct v as [| | | |x]; try done.
  destruct (is_empty (trim x)) eqn:E; [done|].
  destruct (32 <? String.length (trim x))%nat eqn:El; [done|].
  apply Nat.ltb_ge in El. destruct (trim x); [done | cbn [String.length] in *; lia].
Qed.

Lemma clean_entry_ok (e : option Entry) (c : Cleaned) :
  clean_entry e = Some c → clean_ok c.
Proof.
  unfold clean_entry. destruct e as [d|]; [|done].
  set (i := match e_id d with JStr x => trim x | _ => EmptyString end).
  destruct (is_empty i) eqn:Hne; [done|].
  destruct (128 <? String.length i)%nat eqn:Hl; [done|].
  cbn [orb]. intros [= <-]. unfold clean_ok.
  cbn [c_id c_columns c_rows c_bitmap c_backgroundOpacity c_backgroundColor].
  apply Nat.ltb_ge in Hl.
  split; [done|]. split; [done|]. split.
  { unfold i in *. destruct (e_id d); try done. apply trim_idem. }
  unfold clampOpacity01Or100.
  repeat split; try (apply settings_clampInt_bounds; lia);
    apply sanitizeColorString_length; cbn; lia.
Qed.

Lemma omap_cons_eq {A B} (f : A → option B) (x : A) (l : list A) :
  omap f (x :: l) = match f x with Some y => y :: omap f l | None => omap f l end.
Proof. reflexivity. Qed.

(** The loop keeps the first 32 entries that pass. *)
Lemma sanitize_loop_take (devices : list (option Entry)) : ∀ cleaned,
  (length cleaned < 32)%nat →
  sanitize_loop devices cleaned = take 32 (cleaned ++ omap clean_entry devices).
Proof.
  induction devices as [|d devices IH]; intros cleaned Hlen; cbn [sanitize_loop].
  - cbn [omap list_omap]. rewrite app_nil_r, take_ge; [done | lia].
  - rewrite omap_cons_eq.
    destruct (clean_entry d) as [c|]; [|by apply IH].
    cbv zeta.
    replace (cleaned ++ c :: omap clean_entry devices)%list
      with ((cleaned ++ [c]) ++ omap clean_entry devices)%list
      by (by rewrite <- app_assoc).
    destruct (32 <=? length (cleaned ++ [c]))%nat eqn:E.
    + apply Nat.leb_le in E. rewrite length_app in E. cbn [length] in E.
      rewrite take_app_length'; [done|]. rewrite length_app. cbn [length]. lia.
    + apply Nat.leb_gt in E. by apply IH.
Qed.

(** X15. [sanitizeScreenDeckDevices] keeps, in order, the first 32 entries
    of the posted array that are objects with a non-blank string id of at
    most 128 code units, and returns [undefined] for a value that is not
    an array.  Every entry it returns has a trimmed, non-empty id, 1 to 32
    columns and rows, a bitmap size from 1 to 512, an opacity from 0 to
    100 and a colour string of 1 to 32 code units. *)
Theorem sanitized_devices (posted : list (option Entry)) :
  sanitizeScreenDeckDevices (Some posted) = Some (take 32 (omap clean_entry posted))
  ∧ sanitizeScreenDeckDevices None = None
  ∧ Forall clean_ok (take 32 (omap clean_entry posted))
  ∧ (length (take 32 (omap clean_entry posted)) ≤ 32)%nat.
Proof.
  split; [|split; [done|split]].
  - unfold sanitizeScreenDeckDevices. cbn [fmap option_fmap option_map].
    f_equal. rewrite sanitize_loop_take by (cbn; lia). by rewrite app_nil_l.
  - apply Forall_take. apply Forall_forall. intros c Hin.
    apply list_elem_of_omap in Hin as (e & _ & He). by eapply clean_entry_ok.
  - rewrite length_take. lia.
Qed.

(** ** The bridge loads what the endpoint stored *)

Lemma bridge_clampInt_id (n lo hi fb : Z) :
  lo ≤ n ≤ hi → Z.abs n < 2 ^ 53 → Bridge.clampInt (JNum n) lo hi fb = n.
Proof.
  intros Hn Hs. unfold Bridge.clampInt.
  assert (H53 : 2 ^ 53 < 10 ^ 21) by reflexivity.
  rewrite (Number_small n) by lia. clear H53.
  rewrite parseInt_decimal_small by done. lia.
Qed.

Lemma load_stored (m : list Device) (c : Cleaned) :
  clean_ok c → load_device m (stored c) = devices_set (device_of c) m.
Proof.
  intros (Hne & _ & Htrim & Hc & Hr & Hb & _).
  unfold load_device, stored, device_of. cbn [raw_id raw_columns raw_rows raw_bitmap].
  rewrite Htrim, Hne.
  assert (H53 : 2 ^ 53 = 9007199254740992) by reflexivity.
  rewrite !bridge_clampInt_id by lia. done.
Qed.

Lemma devices_set_fresh (d : Device) (m : list Device) :
  id d ∉ map id m → devices_set d m = (m ++ [d])%list.
Proof.
  induction m as [|e m IH]; intros H; cbn [devices_set]; [done|].
  cbn [map] in H. apply not_elem_of_cons in H as [Hne H].
  destruct (String.eqb (id e) (id d)) eqn:E.
  - apply String.eqb_eq in E. congruence.
  - cbn [app]. by rewrite IH.
Qed.

Lemma load_all_stored (cleaned : list Cleaned) : ∀ m,
  Forall clean_ok cleaned →
  fold_left load_device (map stored cleaned) m
  = fold_left (λ m c, devices_set (device_of c) m) cleaned m.
Proof.
  induction cleaned as [|c cleaned IH]; intros m H; [done|].
  inversion H; subst. cbn [map fold_left]. rewrite load_stored by done. by apply IH.
Qed.

Lemma set_all_fresh (cleaned : list Cleaned) : ∀ m,
  NoDup (map id m ++ map c_id cleaned) →
  fold_left (λ m c, devices_set (device_of c) m) cleaned m
  = (m ++ map device_of cleaned)%list.
Proof.
  induction cleaned as [|c cleaned IH]; intros m H; cbn [fold_left map].
  - by rewrite app_nil_r.
  - cbn [map] in H. rewrite devices_set_fresh.
    + rewrite IH; [by rewrite <- app_assoc|].
      rewrite map_app. cbn [map device_of id]. by rewrite <- app_assoc.
    + apply NoDup_app in H as (_ & H & _). intros Hin. apply (H _ Hin).
      cbn [device_of id]. apply list_elem_of_here.
Qed.

(** X16. What the settings endpoint stores, the bridge loads as it is:
    after a change of the configuration to a device list that came out of
    [sanitizeScreenDeckDevices], the bridge's devices are the stored
    entries with their id, columns, rows and bitmap size unchanged, a
    later entry replacing an earlier one with the same id; when the ids
    are distinct the bridge holds exactly one device per stored entry, in
    the same order. *)
Theorem stored_devices_loaded (posted : list (option Entry)) (host port : jsval)
    (s : State) :
  let cleaned := take 32 (omap clean_entry posted) in
  let cfg := {| companionHost := host; companionPort := port;
                cfg_devices := map stored cleaned |} in
  sanitizeScreenDeckDevices (Some posted) = Some cleaned
  ∧ devices (step s (ConfigSet cfg))
    = fold_left (λ m c, devices_set (device_of c) m) cleaned []
  ∧ (NoDup (map c_id cleaned) →
     devices (step s (ConfigSet cfg)) = map device_of cleaned).
Proof.
  intros cleaned cfg.
  assert (Hok : Forall clean_ok cleaned).
  { apply Forall_take. apply Forall_forall. intros c Hin.
    apply list_elem_of_omap in Hin as (e & _ & He). by eapply clean_entry_ok. }
  assert (Hdev : devices (step s (ConfigSet cfg))
                 = fold_left (λ m c, devices_set (device_of c) m) cleaned []).
  { unfold step. cbn [handle]. unfold on_config_change. rewrite reload_devices.
    st_simpl. cbn [cfg_devices cfg]. by apply load_all_stored. }
  split; [|split; [exact Hdev|]].
  - unfold sanitizeScreenDeckDevices. cbn [fmap option_fmap option_map].
    f_equal. rewrite sanitize_loop_take by (cbn; lia). by rewrite app_nil_l.
  - intros Hnd. rewrite Hdev. by rewrite set_all_fresh.
Qed.

End SettingsFacts.
(* ===================================================================== *)
(** * Connection set-up and tear-down, windows, and the bridge at rest *)
(* ===================================================================== *)

Section ConnectionFacts.
Import Bridge Samples Predicates Shapes.

(** ** [disconnect], [connect] and [reconnect] *)

Lemma disconnect_view s :
  devices (disconnect s) = devices s ∧ windows (disconnect s) = windows s
  ∧ config (disconnect s) = config s ∧ apiPort (disconnect s) = apiPort s
  ∧ socket (disconnect s) = false ∧ connected (disconnect s) = false
  ∧ connecting (disconnect s) = false ∧ reconnectTimer (disconnect s) = None
  ∧ buffer (disconnect s) = EmptyString
  ∧ effects (disconnect s) = (effects s ++ teardown s)%list.
Proof.
  destruct s as [ap so bu co cg rt lb ds ws rd pd cf tms nh ef].
  unfold disconnect, clearTimeout, teardown. st_simpl.
  destruct rt, so; st_simpl; repeat split; by rewrite <- ?app_assoc, ?app_nil_r.
Qed.

Lemma disconnect_idem s : disconnect (disconnect s) = disconnect s.
Proof.
  destruct s as [ap so bu co cg rt lb ds ws rd pd cf tms nh ef].
  destruct rt, so; vm_compute; reflexivity.
Qed.

Lemma connect_view host port s :
  devices (connect host port s) = devices s
  ∧ windows (connect host port s) = windows s
  ∧ socket (connect host port s) = true
  ∧ connected (connect host port s) = false
  ∧ connecting (connect host port s) = true
  ∧ reconnectTimer (connect host port s) = None
  ∧ buffer (connect host port s) = EmptyString
  ∧ effects (connect host port s)
    = (effects s ++ teardown s ++ [SocketOpen port host])%list.
Proof.
  destruct s as [ap so bu co cg rt lb ds ws rd pd cf tms nh ef].
  unfold connect, disconnect, clearTimeout, teardown. st_simpl.
  destruct rt, so; st_simpl; repeat split; by rewrite <- ?app_assoc.
Qed.

(** X17. [reconnect] with at least one device configured tears down what
    is there (the pending timeout is cleared, the old socket destroyed) and
    then opens one socket, to a port between 1 and 65535 and a host that is
    a non-empty trimmed string: the configured host when that is a string
    with something other than white space in it, 127.0.0.1 otherwise; the
    port is 16622 when none is configured.  The bridge is left connecting,
    not connected, with no reconnect timer.  With no device configured
    [reconnect] is [disconnect], and [disconnect] twice is [disconnect]
    once. *)
Theorem reconnect_target (s : State) :
  devices s ≠ [] →
  (∃ host port,
     effects (reconnect s) = (effects s ++ teardown s ++ [SocketOpen port host])%list
     ∧ 1 ≤ port ≤ 65535
     ∧ is_empty host = false ∧ trim host = host
     ∧ (∀ h, companionHost (config s) = JStr h → is_empty (trim h) = false →
          host = trim h)
     ∧ ((∀ h, companionHost (config s) = JStr h → is_empty (trim h) = true) →
          host = "127.0.0.1")
     ∧ (companionPort (config s) = JUndefined → port = 16622))
  ∧ socket (reconnect s) = true ∧ connecting (reconnect s) = true
  ∧ connected (reconnect s) = false ∧ reconnectTimer (reconnect s) = None
  ∧ (∀ s', devices s' = [] → reconnect s' = disconnect s')
  ∧ (∀ s', disconnect (disconnect s') = disconnect s').
Proof.
  intros Hdev.
  assert (Hrest : (∀ s', devices s' = [] → reconnect s' = disconnect s')
                  ∧ (∀ s', disconnect (disconnect s') = disconnect s')).
  { split; [|apply disconnect_idem]. intros s' E. unfold reconnect. by rewrite E. }
  unfold reconnect at 1 2 3 4 5.
  destruct (devices s) as [|d ds] eqn:Ed; [done|].
  set (host := match companionHost (config s) with
               | JStr h => if is_empty (trim h) then "127.0.0.1" else trim h
               | _ => "127.0.0.1"
               end).
  set (port := clampInt (companionPort (config s)) 1 65535 16622).
  destruct (connect_view host port s) as (_ & _ & Hso & Hco & Hcg & Hrt & _ & Hef).
  split; [|by rewrite Hso, Hco, Hcg, Hrt].
  exists host, port. split; [exact Hef|].
  split; [apply clampInt_bounds; lia|].
  assert (Hport : companionPort (config s) = JUndefined → port = 16622).
  { unfold port. by intros ->. }
  unfold host. clear Hso Hco Hcg Hrt Hef host.
  destruct (companionHost (config s)) as [| | | |h] eqn:Eh;
    try (by repeat split).
  destruct (is_empty (trim h)) eqn:Et.
  - repeat split; try done.
    intros h' [= <-] Hne. congruence.
  - split; [done|]. split; [apply trim_idem|].
    split; [by intros h' [= <-] _|].
    split; [|done].
    intros Hall. specialize (Hall h eq_refl). congruence.
Qed.

Lemma reconnect_target_witness :
  socket (reconnect registered) = true ∧ connecting (reconnect registered) = true.
Proof.
  destruct (reconnect_target registered) as (_ & H1 & H2 & _).
  - vm_compute. discriminate.
  - split; [exact H1 | exact H2].
Defined.

End ConnectionFacts.
(* ===================================================================== *)
(** * Windows *)
(* ===================================================================== *)

Section WindowFacts.
Import Bridge Samples Predicates Shapes.

Lemma elem_of_List_filter {A} (f : A → bool) (l : list A) (x : A) :
  x ∈ List.filter f l ↔ x ∈ l ∧ f x = true.
Proof. rewrite !list_elem_of_In. apply filter_In. Qed.

Lemma NoDup_List_filter {A} (f : A → bool) (l : list A) :
  NoDup l → NoDup (List.filter f l).
Proof.
  induction 1 as [|x l Hx Hl IH]; cbn [List.filter]; [constructor|].
  destruct (f x); [|done]. constructor; [|done].
  rewrite elem_of_List_filter. by intros [? _].
Qed.

Lemma existsb_eqb_false (d : string) (l : list string) :
  existsb (String.eqb d) l = false → d ∉ l.
Proof.
  intros H Hin. apply list_elem_of_In in Hin.
  assert (existsb (String.eqb d) l = true); [|congruence].
  apply existsb_exists. exists d. split; [done|]. apply String.eqb_refl.
Qed.

(** Closing windows changes the effects only. *)
Lemma closing_fields (l : list string) : ∀ s,
  let s' := fold_left (λ s w, emit (WindowClose w) s) l s in
  s' = set_windows (windows s) s'
  ∧ frame s s' ∧ windows s' = windows s ∧ hs s' = hs s ∧ lastBegin s' = lastBegin s
  ∧ connecting s' = connecting s
  ∧ effects s' = (effects s ++ map WindowClose l)%list.
Proof.
  induction l as [|w l IH]; intros s; cbn [fold_left map].
  - cbv zeta. split; [by destruct s|]. split; [apply frame_refl|].
    by rewrite app_nil_r.
  - destruct (IH (emit (WindowClose w) s)) as (E & Hf & Hw & Hh & Hb & Hc & He).
    cbv zeta. split; [exact E|]. split; [exact Hf|]. split; [exact Hw|].
    split; [exact Hh|]. split; [exact Hb|]. split; [exact Hc|].
    rewrite He. st_simpl. by rewrite <- app_assoc.
Qed.

Lemma devices_has_nil k : devices_has k [] = false.
Proof. reflexivity. Qed.

(** With no device configured the window loop closes every window. *)
Lemma remove_windows_loop_none (l : list string) : ∀ s,
  devices s = [] →
  fold_left (λ s i, if devices_has i (devices s) then s
                    else set_windows
                           (List.filter (λ w, negb (String.eqb w i)) (windows s))
                           (emit (WindowClose i) s)) l s
  = set_windows (List.filter (λ w, negb (existsb (String.eqb w) l)) (windows s))
      (fold_left (λ s w, emit (WindowClose w) s) l s).
Proof.
  induction l as [|i l IH]; intros s Hd; cbn [fold_left existsb].
  - cbn [negb]. destruct s as [? ? ? ? ? ? ? ? ws ? ? ? ? ? ?]. st_norm.
    f_equal. cbn [negb]. induction ws as [|w ws IHw]; [done|].
    cbn [List.filter]. by rewrite <- IHw.
  - rewrite Hd, devices_has_nil.
    rewrite IH by done. st_simpl.
    assert (G : ∀ a b, fold_left (λ s w, emit (WindowClose w) s) l (set_windows b a)
                       = set_windows b (fold_left (λ s w, emit (WindowClose w) s) l a)).
    { clear. induction l as [|w l IH]; intros a b; cbn [fold_left]; [done|].
      by rewrite <- IH. }
    rewrite G.
    change (set_windows ?a (set_windows ?b ?x)) with (set_windows a x).
    f_equal. generalize (windows s). intros ws.
    induction ws as [|w ws IHw]; [done|].
    cbn [List.filter]. destruct (String.eqb w i); cbn [negb orb List.filter];
      [exact IHw|]. destruct (negb _); [by f_equal | exact IHw].
Qed.

Lemma filter_all_out (ws : list string) :
  List.filter (λ w, negb (existsb (String.eqb w) ws)) ws = [].
Proof.
  assert (G : ∀ l, (∀ w, w ∈ l → w ∈ ws) →
              List.filter (λ w, negb (existsb (String.eqb w) ws)) l = []).
  { induction l as [|w l IH]; intros H; [done|]. cbn [List.filter].
    assert (Hex : existsb (String.eqb w) ws = true).
    { apply existsb_exists. exists w. split; [|apply String.eqb_refl].
      apply list_elem_of_In, H, list_elem_of_here. }
    rewrite Hex. cbn [negb]. apply IH. intros v Hv. apply H.
    by apply list_elem_of_further. }
  by apply G.
Qed.

Lemma remove_windows_none s :
  devices s = [] →
  remove_windows s
  = set_windows [] (fold_left (λ s w, emit (WindowClose w) s) (windows s) s).
Proof.
  intros Hd. unfold remove_windows. rewrite remove_windows_loop_none by done.
  by rewrite filter_all_out.
Qed.

(** How [reloadFromConfig] ends.  With a device in the configuration it
    raises at the registration of the first; with none but a device held
    before, at the removal of the first of those; with neither it
    returns, every window closed. *)
Lemma reloadFromConfig_cases s :
  reloadFromConfig s
  = match fold_left load_device (cfg_devices (config s)) [], devices s with
    | dev :: _, _ =>
        Raises (internalRegisterSurface (id dev) (columns dev) (rows dev))
          (set_devices (fold_left load_device (cfg_devices (config s)) []) s)
    | [], old :: _ =>
        Raises (internalRemoveSurface (id old)) (set_devices [] s)
    | [], [] =>
        Returns (set_windows []
                   (fold_left (λ s w, emit (WindowClose w) s) (windows s)
                      (set_devices [] s)))
    end.
Proof.
  unfold reloadFromConfig, register_surfaces.
  destruct (fold_left load_device (cfg_devices (config s)) []) as [|dev l] eqn:El.
  - st_simpl. cbn [for_each and_then]. unfold remove_surfaces.
    destruct (devices s) as [|old ds] eqn:Ed.
    + cbn [map for_each and_then]. by rewrite remove_windows_none.
    + cbn [map for_each and_then]. st_simpl. by rewrite devices_has_nil.
  - st_simpl. by cbn [for_each and_then API].
Qed.

Lemma reloadFromConfig_windows s :
  NoDup (windows s) → NoDup (windows (after (reloadFromConfig s))).
Proof.
  intros Hnd. rewrite reloadFromConfig_cases.
  destruct (fold_left _ _ _); [|done].
  destruct (devices s); [|done]. cbn [after]. st_simpl. constructor.
Qed.

Lemma scheduleReconnect_windows s : windows (scheduleReconnect s) = windows s.
Proof.
  unfold scheduleReconnect. destruct (reconnectTimer s); [done|].
  by destruct (devices s).
Qed.

Lemma on_error_windows s : windows (on_error s) = windows s.
Proof. unfold on_error. by rewrite scheduleReconnect_windows. Qed.

Lemma reconnect_windows s : windows (reconnect s) = windows s.
Proof.
  unfold reconnect. destruct (devices s).
  - apply disconnect_view.
  - apply connect_view.
Qed.

Lemma keyPress_windows d x y p s : windows (after (keyPress d x y p s)) = windows s.
Proof.
  unfold keyPress, sendCommand, sendLine.
  destruct (devices_get _ _); [|done]. cbn [API after]. by destruct (_ || _).
Qed.

Lemma handleData_windows chunk s : windows (after (handleData chunk s)) = windows s.
Proof.
  apply (handleData_kept (λ a, windows a = windows s)); [by intros | | done].
  intros a line Ha.
  by destruct (handleLine_frame a line) as (_ & _ & _ & _ & _ & _ & -> & _).
Qed.

Lemma fire_windows h s : windows (fire h s) = windows s.
Proof.
  unfold fire. destruct (existsb _ _); [|done].
  unfold reconnect_callback. by rewrite reconnect_windows.
Qed.

Lemma openWindow_windows d s : NoDup (windows s) → NoDup (windows (openWindow d s)).
Proof.
  intros Hnd. unfold openWindow.
  destruct (devices_get d (devices s)) as [dev|] eqn:Hget; [|done].
  destruct (negb _); [done|].
  destruct (existsb _ _) eqn:Hex; [done|].
  apply existsb_eqb_false in Hex. st_simpl.
  apply NoDup_app. split; [done|]. split; [|apply NoDup_singleton].
  intros w Hw ->%list_elem_of_singleton. done.
Qed.

Lemma reload_reconnect_windows s :
  NoDup (windows s) →
  NoDup (windows (after (and_then (reloadFromConfig s) (λ s, Returns (reconnect s))))).
Proof.
  intros Hnd. rewrite after_and_then.
  pose proof (reloadFromConfig_windows s Hnd) as H.
  destruct (reloadFromConfig s) as [s'|c s']; cbn [after] in *; [|done].
  by rewrite reconnect_windows.
Qed.

Lemma step_windows s e : NoDup (windows s) → NoDup (windows (step s e)).
Proof.
  intros Hok. unfold step. destruct e; cbn [handle after].
  - unfold init. by apply reload_reconnect_windows.
  - unfold on_config_change. by apply reload_reconnect_windows.
  - by apply reloadFromConfig_windows.
  - by rewrite reconnect_windows.
  - by destruct (disconnect_view s) as (_ & -> & _).
  - by rewrite keyPress_windows.
  - by apply openWindow_windows.
  - unfold openAllWindows. destruct (negb _); [done|].
    apply (fold_left_kept (λ a, NoDup (windows a))); [|done].
    intros a b Ha. by apply openWindow_windows.
  - unfold on_window_closed. st_simpl. by apply NoDup_List_filter.
  - done.
  - by rewrite handleData_windows.
  - by rewrite on_error_windows.
  - by rewrite on_close_eq, on_error_windows.
  - by rewrite fire_windows.
Qed.

Lemma reachable_windows s : reachable s → NoDup (windows s).
Proof.
  induction 1 as [cfg | s e _ IH]; [constructor | by apply step_windows].
Qed.

(** X18. How a reload of the configuration ends, and what it leaves of
    the windows.  With a usable device in the configuration
    [reloadFromConfig] raises at the registration of the first of them
    with the surface registry, the new devices loaded and nothing else
    done; with none, but a device held before, it raises at the removal
    of the first of those; with neither it returns, and every window
    still open has been closed.  So a window of a device that has left
    the configuration stays open until a reload finds no device before
    and after; in every reachable state no device has two windows. *)
Theorem reload_outcome (s : State) :
  reachable s →
  NoDup (windows s)
  ∧ reloadFromConfig s
    = match fold_left load_device (cfg_devices (config s)) [], devices s with
      | dev :: _, _ =>
          Raises (internalRegisterSurface (id dev) (columns dev) (rows dev))
            (set_devices (fold_left load_device (cfg_devices (config s)) []) s)
      | [], old :: _ =>
          Raises (internalRemoveSurface (id old)) (set_devices [] s)
      | [], [] =>
          Returns (set_windows []
                     (fold_left (λ s w, emit (WindowClose w) s) (windows s)
                        (set_devices [] s)))
      end.
Proof.
  intros Hreach. split; [by apply reachable_windows | apply reloadFromConfig_cases].
Qed.

Lemma reload_outcome_witness :
  let opened := run registered [OpenWindow "dev1"] in
  let emptied := run opened [ConfigSet empty_config] in
  windows opened = ["dev1"]
  ∧ reloadFromConfig opened = Raises (internalRegisterSurface "dev1" 8 4) opened
  ∧ handle (ConfigSet empty_config) opened
    = Raises (internalRemoveSurface "dev1") emptied
  ∧ devices emptied = [] ∧ windows emptied = ["dev1"]
  ∧ reloadFromConfig emptied = Returns (emit (WindowClose "dev1") (set_windows [] emptied)).
Proof.
  cbv zeta.
  assert (H1 : reachable (run registered [OpenWindow "dev1"]))
    by (apply reachable_run; exact reachable_registered).
  assert (H2 : reachable (run (run registered [OpenWindow "dev1"]) [ConfigSet empty_config]))
    by (by apply reachable_run).
  destruct (reload_outcome _ H1) as (_ & E1).
  destruct (reload_outcome _ H2) as (_ & E2).
  split; [vm_compute; reflexivity|].
  split; [rewrite E1; vm_compute; reflexivity|].
  split; [vm_compute; reflexivity|].
  split; [vm_compute; reflexivity|].
  split; [vm_compute; reflexivity|].
  rewrite E2. vm_compute. reflexivity.
Defined.

(** ** The bridge at rest *)

Lemma handleLine_idle s line :
  idle s →
  idle (after (handleLine s line)) ∧ effects (after (handleLine s line)) = effects s.
Proof.
  intros (Hd & Hw & Hso & Hrt & Htm).
  destruct s as [ap so bu co cg rt lb ds ws rd pd cf tms nh ef].
  cbn in Hd, Hw, Hso, Hrt, Htm. subst.
  unfold handleLine, sendLine, idle. st_simpl.
  cbn [negb orb fold_left].
  destruct (String.eqb _ "PING"); [done|].
  destruct (String.eqb _ "PONG"); [done|].
  destruct (String.eqb _ "BEGIN"); [done|].
  destruct (String.eqb _ "ADD-DEVICE").
  { destruct (nonempty_string _); [|done]. by destruct (_ && _). }
  destruct (String.eqb _ "KEYS-CLEAR").
  { by destruct (nonempty_string _). }
  destruct (String.eqb _ "KEY-STATE"); [|done].
  by destruct (nonempty_string _).
Qed.

Lemma step_idle s e :
  idle s → leaves_config e = true →
  idle (step s e) ∧ effects (step s e) = effects s.
Proof.
  intros Hs He.
  assert (Hsame : step s e = s ∨ (idle (step s e) ∧ effects (step s e) = effects s)
                  ∨ ∃ chunk, e = SockData chunk).
  { destruct Hs as (Hd & Hw & Hso & Hrt & Htm).
    destruct s as [ap so bu co cg rt lb ds ws rd pd cf tms nh ef].
    cbn in Hd, Hw, Hso, Hrt, Htm. subst.
    unfold step. destruct e; try discriminate He; cbn [handle after].
    - right; left. by vm_compute.
    - right; left. by vm_compute.
    - by left.
    - by left.
    - left. unfold openAllWindows. by destruct (negb _).
    - by left.
    - right; left. by vm_compute.
    - right; right. by eexists.
    - right; left. by vm_compute.
    - right; left. by vm_compute.
    - by left. }
  destruct Hsame as [-> | [H | [chunk ->]]]; [done | done |].
  unfold step. cbn [handle].
  apply (handleData_kept (λ a, idle a ∧ effects a = effects s)); [by intros | | done].
  intros a line [Ha Hea]. rewrite <- Hea. by apply handleLine_idle.
Qed.

Lemma run_idle es : ∀ s,
  idle s → forallb leaves_config es = true →
  idle (run s es) ∧ effects (run s es) = effects s.
Proof.
  induction es as [|e es IH]; intros s Hs Hes; cbn [run fold_left]; [done|].
  cbn [forallb] in Hes. apply andb_true_iff in Hes as [He Hes].
  destruct (step_idle s e Hs He) as (H1 & E1).
  destruct (IH _ H1 Hes) as (H2 & E2).
  split; [done|]. unfold run in E2. by rewrite E2.
Qed.

(** X19. A change of the configuration to one without a usable device.
    When the bridge holds no device either, the callback returns and the
    bridge is at rest: no device, no window, no socket and no timeout;
    and whatever happens next short of another look at the configuration
    (socket events of an old socket, timeouts, key presses, window
    requests, calls of [reconnect] and [disconnect]) it stays so, and
    opens no socket, sets no timeout, writes nothing and tells no window
    anything.  When the bridge holds a device, the callback raises at the
    removal of the first device's surface, before [reconnect] is reached:
    the devices are gone, and the socket, the timer and the windows are
    as they were. *)
Theorem no_devices_at_rest (s : State) (cfg : Config) (es : list event) :
  reachable s →
  fold_left load_device (cfg_devices cfg) [] = [] →
  forallb leaves_config es = true →
  let s0 := step s (ConfigSet cfg) in
  match devices s with
  | [] =>
      raised (handle (ConfigSet cfg) s) = None
      ∧ idle s0 ∧ idle (run s0 es) ∧ effects (run s0 es) = effects s0
  | old :: _ =>
      handle (ConfigSet cfg) s
      = Raises (internalRemoveSurface (id old)) (set_devices [] (set_config cfg s))
  end.
Proof.
  intros Hreach Hcfg Hes s0.
  assert (E : reloadFromConfig (set_config cfg s)
              = match devices s with
                | [] => Returns (set_windows []
                          (fold_left (λ s w, emit (WindowClose w) s) (windows s)
                             (set_devices [] (set_config cfg s))))
                | old :: _ =>
                    Raises (internalRemoveSurface (id old))
                      (set_devices [] (set_config cfg s))
                end).
  { rewrite reloadFromConfig_cases. st_simpl. by rewrite Hcfg. }
  unfold s0, step. cbn [handle]. unfold on_config_change. rewrite E.
  destruct (devices s) as [|old ds] eqn:Ed; [|done].
  cbn [and_then after raised]. split; [done|].
  set (s1 := set_windows [] _).
  assert (H0 : idle (reconnect s1)).
  { destruct (reachable_invariant s Hreach) as [_ Htm].
    destruct (closing_fields (windows s) (set_devices [] (set_config cfg s)))
      as (_ & Hf & _).
    cbv zeta in Hf.
    destruct Hf as (_ & _ & _ & _ & Hrt & _ & _ & _ & Hts & _).
    assert (Hok1 : timers_ok s1).
    { unfold timers_ok, s1 in *. st_simpl. rewrite Hrt, Hts. st_simpl. exact Htm. }
    assert (Hd1 : devices s1 = []).
    { unfold s1. st_simpl.
      by destruct (closing_fields (windows s) (set_devices [] (set_config cfg s)))
        as (_ & (_ & _ & _ & _ & _ & -> & _) & _). }
    unfold reconnect. rewrite Hd1.
    destruct (disconnect_view s1) as (Hd & Hw & _ & _ & Hso & _ & _ & Hrt' & _).
    destruct (disconnect_rest s1) as (_ & _ & _ & Ht). specialize (Ht Hok1).
    unfold tm in Ht. injection Ht as _ Ht.
    unfold idle. rewrite Hd, Hw, Hd1. by repeat split. }
  split; [exact H0|]. by apply run_idle.
Qed.

Lemma no_devices_at_rest_witness :
  let s0 := step (new cfg1) (ConfigSet empty_config) in
  idle (run s0 [SockError; TimerFired 0; Reconnect; SockData (ln clear_ghost)])
  ∧ effects (run s0 [SockError; TimerFired 0; Reconnect; SockData (ln clear_ghost)])
    = effects s0.
Proof.
  pose proof (no_devices_at_rest (new cfg1) empty_config
                [SockError; TimerFired 0; Reconnect; SockData (ln clear_ghost)]
                (reachable_new cfg1) eq_refl eq_refl) as H.
  cbv zeta in H. change (devices (new cfg1)) with (@nil Device) in H.
  destruct H as (_ & _ & H1 & H2). split; [exact H1 | exact H2].
Defined.

End WindowFacts.
(* ===================================================================== *)
(** * The handlers around the bridge *)
(* ===================================================================== *)

Section HandlerFacts.
Import Bridge Settings Samples Predicates Shapes Examples.

(** ** Messages from the device windows *)

Lemma devices_get_NoDup (m : list Device) (dev : Device) :
  NoDup (map id m) → dev ∈ m → devices_get (id dev) m = Some dev.
Proof.
  unfold devices_get. induction m as [|e m IH]; intros Hnd Hin;
    [by apply elem_of_nil in Hin|].
  cbn [map] in Hnd. apply NoDup_cons in Hnd as [Hfresh Hnd]. cbn [find].
  apply elem_of_cons in Hin as [-> | Hin]; [by rewrite String.eqb_refl|].
  destruct (String.eqb (id e) (id dev)) eqn:E; [|by apply IH].
  apply String.eqb_eq in E. exfalso. apply Hfresh. rewrite E.
  by apply list_elem_of_fmap_2.
Qed.

(** X20. What a key message from a device window does, case by case.
    When the message names, by a string, a device that is configured,
    the KEY-PRESS line for the cell it gives, clamped into that device's
    grid, is written if the connection is up, and that is all: the error
    [keyPress] then raises is swallowed by the listener.  In every other
    case (no payload, an id that is no string, or no configured device of
    that id) nothing happens.  The device a window asks for by id is the
    configured device of that id, within the limits of the
    configuration; there is none for any other value. *)
Theorem window_key_message (payload : option Ipc.KeyMessage) (s : State) :
  reachable s →
  Ipc.on_key payload s
  = match payload with
    | Some m =>
        match Ipc.m_deviceId m with
        | JStr d =>
            match devices_get d (devices s) with
            | Some dev =>
                let xi := Bridge.clampInt (Ipc.m_x m) 0 (columns dev - 1) 0 in
                let yi := Bridge.clampInt (Ipc.m_y m) 0 (rows dev - 1) 0 in
                if connected s && socket s
                then emit (SocketWrite
                       ("KEY-PRESS DEVICEID=" +:+ quoted d
                        +:+ " KEY=" +:+ Z_to_string (yi * columns dev + xi)
                        +:+ " PRESSED=" +:+ (if truthy (Ipc.m_pressed m) then "1" else "0")
                        +:+ String lf EmptyString)) s
                else s
            | None => s
            end
        | _ => s
        end
    | None => s
    end
  ∧ keeps s (Ipc.on_key payload s)
  ∧ (∀ v dev, Ipc.getDevice v s = Some dev ↔ v = JStr (id dev) ∧ dev ∈ devices s)
  ∧ (∀ v dev, Ipc.getDevice v s = Some dev → well_formed dev).
Proof.
  intros Hreach. split; [|split; [|split]].
  - unfold Ipc.on_key. destruct payload as [m|]; [|done].
    destruct (Ipc.m_deviceId m) as [| | | |d] eqn:Em; try done.
    cbn [nonempty_string].
    destruct (devices_get d (devices s)) as [dev|] eqn:Hget.
    + destruct (reachable_get_wf s d dev Hreach Hget) as (Hid & Hne & Hc & Hr & _).
      rewrite Hid in Hne. rewrite Hne.
      rewrite (keyPress_configured d _ _ _ s dev Hget). cbn [after]. cbv zeta.
      rewrite key_press_rendered; [done|].
      pose proof (clampInt_bounds (Ipc.m_x m) 0 (columns dev - 1) 0) as Hx.
      pose proof (clampInt_bounds (Ipc.m_y m) 0 (rows dev - 1) 0) as Hy.
      change (10 ^ 21) with 1000000000000000000000. nia.
    + destruct (is_empty d); [done|]. unfold keyPress. by rewrite Hget.
  - unfold Ipc.on_key. destruct payload as [m|]; [|apply keeps_refl].
    destruct (nonempty_string _); [apply keyPress_keeps | apply keeps_refl].
  - intros v dev. unfold Ipc.getDevice. split.
    + destruct v as [| | | |d]; try done. intros Hget.
      apply devices_get_Some in Hget as [<- Hin]. done.
    + intros [-> Hin]. apply devices_get_NoDup; [|done].
      by apply reachable_invariant.
  - intros v dev. unfold Ipc.getDevice. destruct v as [| | | |d]; try done.
    intros Hget. by destruct (reachable_get_wf s d dev Hreach Hget).
Qed.

Lemma window_key_message_witness :
  Ipc.on_key (Some key_message) registered
  = emit (SocketWrite ("KEY-PRESS DEVICEID=" +:+ String dq ("dev1" +:+ String dq
            (" KEY=15 PRESSED=1" +:+ String lf EmptyString)))) registered
  ∧ Ipc.getDevice (JStr "dev1") registered = Some dev8x4.
Proof.
  destruct (window_key_message (Some key_message) registered reachable_registered)
    as (H1 & _ & H2 & _).
  split.
  - rewrite H1. vm_compute. reflexivity.
  - apply H2. split; [reflexivity|]. vm_compute. apply list_elem_of_here.
Defined.

(** ** The status after a reconnect request *)

(** X21. The status that the reconnect request of the settings window
    returns never reports a connection: connected is false, no device is
    registered, no peer version is known; connecting is true exactly when
    a device is configured, and the device count is that of the
    configuration in force. *)
Theorem reconnect_status (s : State) :
  let st := (Ipc.on_reconnect s).1 in
  st_connected st = false
  ∧ st_connecting st = match devices s with [] => false | _ :: _ => true end
  ∧ companionVersion st = JNull ∧ companionApiVersion st = JNull
  ∧ registeredCount st = 0%nat
  ∧ deviceCount st = length (devices s).
Proof.
  unfold Ipc.on_reconnect. cbn [fst]. unfold getStatus.
  cbn [st_connected st_connecting companionVersion companionApiVersion
       registeredCount deviceCount].
  destruct (reconnect_rest s) as (Hd & Hh & Hlb & _).
  unfold hs in Hh. injection Hh as _ Hr. rewrite Hd, Hlb, Hr.
  assert (Hflags : connected (reconnect s) = false
                   ∧ connecting (reconnect s)
                     = match devices s with [] => false | _ :: _ => true end).
  { unfold reconnect. destruct (devices s).
    - destruct (disconnect_view s) as (_ & _ & _ & _ & _ & H1 & H2 & _). by split.
    - match goal with |- context [connect ?h ?p s] =>
        destruct (connect_view h p s) as (_ & _ & _ & H1 & H2 & _) end.
      by split. }
  destruct Hflags as [-> ->]. by rewrite size_empty.
Qed.

(** ** From the settings endpoint to the socket *)

Lemma devices_set_nonempty d m : devices_set d m ≠ [].
Proof. destruct m as [|e m]; cbn [devices_set]; [done|]. by destruct (String.eqb _ _). Qed.

Lemma set_all_nonempty (cleaned : list Cleaned) : ∀ m,
  m ≠ [] ∨ cleaned ≠ [] →
  fold_left (λ m c, devices_set (device_of c) m) cleaned m ≠ [].
Proof.
  induction cleaned as [|c cleaned IH]; intros m H; cbn [fold_left].
  - by destruct H.
  - apply IH. left. apply devices_set_nonempty.
Qed.

(** X22. From the settings endpoint to the bridge.  When a POST to
    /integrations/screendeck carries a host with something other than
    white space in it, a port between 1 and 65535 and a device array of
    which at least one entry is kept, the bridge, told of the change,
    loads the kept devices and raises at the registration of the first
    of them with the surface registry: the configuration and the devices
    are the new ones, everything else is as it was, and no socket has
    been opened.  A call of [reconnect] after that tears down what is
    there and opens one socket, to that very port on the trimmed host. *)
Theorem settings_reach_bridge (s : State) (body : Body) (h : string) (p : Z)
    (posted : list (option Entry)) :
  b_companionHost body = JStr h → is_empty (trim h) = false →
  b_companionPort body = JNum p → 1 ≤ p ≤ 65535 →
  b_devices body = Some posted → omap clean_entry posted ≠ [] →
  let cfg := post body (config s) in
  let loaded := fold_left (λ m c, devices_set (device_of c) m)
                  (take 32 (omap clean_entry posted)) [] in
  let s1 := set_devices loaded (set_config cfg s) in
  (∃ dev rest,
     loaded = dev :: rest
     ∧ handle (ConfigSet cfg) s
       = Raises (internalRegisterSurface (id dev) (columns dev) (rows dev)) s1)
  ∧ effects (reconnect s1)
    = (effects s ++ teardown s ++ [SocketOpen p (trim h)])%list
  ∧ socket (reconnect s1) = true ∧ connecting (reconnect s1) = true
  ∧ connected (reconnect s1) = false.
Proof.
  intros Hh Hne Hp Hrange Hd Hkept cfg loaded s1.
  assert (H53 : 2 ^ 53 = 9007199254740992) by reflexivity.
  assert (H21 : 10 ^ 21 = 1000000000000000000000) by reflexivity.
  assert (Hcfg : cfg
                 = {| companionHost := JStr (trim h); companionPort := JNum p;
                      cfg_devices := map stored (take 32 (omap clean_entry posted)) |}).
  { unfold cfg, post. rewrite Hh, Hne, Hp, Hd.
    rewrite (Number_small p) by lia.
    rewrite parseInt_decimal_small by lia.
    replace ((1 <=? p) && (p <=? 65535)) with true by lia.
    unfold sanitizeScreenDeckDevices. cbn [fmap option_fmap option_map].
    rewrite sanitize_loop_take by (cbn; lia). by rewrite app_nil_l. }
  clear H21.
  set (cleaned := take 32 (omap clean_entry posted)) in *.
  assert (Hok : Forall clean_ok cleaned).
  { apply Forall_take. apply Forall_forall. intros c Hin.
    apply list_elem_of_omap in Hin as (e & _ & He). by eapply clean_entry_ok. }
  assert (Hcl : cleaned ≠ []).
  { unfold cleaned. destruct (omap clean_entry posted); [done|]. done. }
  assert (Hload : fold_left load_device (cfg_devices cfg) [] = loaded).
  { rewrite Hcfg. cbn [cfg_devices]. by apply load_all_stored. }
  assert (Hdev : loaded ≠ []).
  { unfold loaded. apply set_all_nonempty. by right. }
  split.
  - cbn [handle]. unfold on_config_change. rewrite reloadFromConfig_cases. st_simpl.
    rewrite Hload. unfold s1.
    destruct loaded as [|dev rest] eqn:El; [done|]. cbn [and_then].
    by exists dev, rest.
  - clear Hload. unfold reconnect, s1. st_simpl. rewrite Hcfg.
    cbn [companionHost companionPort].
    rewrite trim_idem, Hne, bridge_clampInt_id by lia.
    destruct loaded as [|dev rest] eqn:El; [done|].
    match goal with |- context [connect _ _ ?s0] =>
      destruct (connect_view (trim h) p s0) as (_ & _ & Hso & Hco & Hcg & _ & _ & Hef)
    end.
    rewrite Hso, Hco, Hcg, Hef. done.
Qed.

Lemma settings_reach_bridge_witness :
  let cfg := post posted_body (config registered) in
  raised (handle (ConfigSet cfg) registered) = Some (internalRegisterSurface "deck" 5 4)
  ∧ socket (step registered (ConfigSet cfg)) = socket registered
  ∧ effects (step registered (ConfigSet cfg)) = effects registered
  ∧ effects (reconnect (step registered (ConfigSet cfg)))
    = (effects registered ++ [SocketDestroy; SocketOpen 16623 "companion.local"])%list.
Proof.
  cbv zeta.
  destruct (settings_reach_bridge registered posted_body " companion.local " 16623
              [Some deck_entry]) as ((dev & rest & El & Eh) & H1 & _).
  - reflexivity.
  - vm_compute. reflexivity.
  - reflexivity.
  - lia.
  - reflexivity.
  - vm_compute. discriminate.
  - unfold step. rewrite Eh. cbn [raised after].
    vm_compute in El. injection El as <- <-.
    split; [reflexivity|].
    split; [vm_compute; reflexivity|]. split; [vm_compute; reflexivity|].
    rewrite H1. vm_compute. reflexivity.
Defined.

(** ** PING *)

Lemma endsWith_no_newline (t : string) : no_newline t → endsWith lf t = false.
Proof.
  induction t as [|c t IH]; [done|]. intros [Hc Ht]%no_newline_cons.
  cbn [endsWith]. destruct t; [done | by apply IH].
Qed.

Lemma no_newline_slice_from (n : nat) : ∀ t,
  no_newline t → no_newline (slice_from n t).
Proof.
  induction n as [|n IH]; intros t Ht; [by destruct t|].
  destruct t as [|c t]; [done|]. cbn [slice_from].
  apply no_newline_cons in Ht as [_ Ht]. by apply IH.
Qed.

Lemma no_newline_body (line : string) : no_newline line → no_newline (body_of line).
Proof.
  intros H. unfold body_of. destruct (indexOf sp line); [|done].
  by apply no_newline_slice_from.
Qed.

Lemma and_then_Returns o : and_then o Returns = o.
Proof. by destruct o. Qed.

Lemma set_buffer_same s : buffer s = EmptyString → set_buffer EmptyString s = s.
Proof. destruct s. cbn. by intros ->. Qed.

(** One whole line arriving while the buffer is empty. *)
Lemma handleData_one_line (line : string) (s : State) :
  no_newline line → buffer s = EmptyString →
  handleData (ln line) s
  = (let l := if endsWith cr line then dropLast line else line in
     if is_empty l then Returns s else handleLine s l).
Proof.
  intros Hnl Hbuf. unfold handleData. rewrite Hbuf, append_nil.
  change (buffer (set_buffer ?b ?x)) with b.
  unfold ln, snoc. rewrite handleData_loop_read by done. rewrite append_nil.
  cbn [handleData_loop]. change (Ascii.eqb lf lf) with true. cbv iota.
  rewrite set_buffer_twice, set_buffer_same by done. cbv zeta.
  destruct (is_empty _); [done|]. fold (and_then (handleLine s
    (if endsWith cr line then dropLast line else line)) Returns).
  apply and_then_Returns.
Qed.

(** X23. A PING line, in any letter case, that arrives whole while the
    buffer is empty is answered by one PONG line with the same body,
    ended by a newline, when the connection is up, and by nothing
    otherwise; nothing else changes. *)
Theorem ping_echo (s : State) (line : string) :
  verb_of line = "PING" → no_newline line → endsWith cr line = false →
  buffer s = EmptyString →
  handleData (ln line) s = Returns (sendLine ("PONG " +:+ body_of line) s)
  ∧ effects (after (handleData (ln line) s))
    = (effects s
       ++ if connected s && socket s
          then [SocketWrite (ln ("PONG " +:+ body_of line))] else [])%list
  ∧ (connected s = false ∨ socket s = false → handleData (ln line) s = Returns s).
Proof.
  intros Hverb Hnl Hcr Hbuf.
  assert (Hne : is_empty line = false) by (by destruct line).
  assert (E : handleData (ln line) s = Returns (sendLine ("PONG " +:+ body_of line) s)).
  { rewrite handleData_one_line by done. rewrite Hcr. cbv zeta. rewrite Hne.
    unfold handleLine. by rewrite Hverb. }
  split; [exact E|]. rewrite E. cbn [after]. unfold sendLine.
  assert (Ht : terminated ("PONG " +:+ body_of line) = ln ("PONG " +:+ body_of line)).
  { unfold terminated. rewrite endsWith_no_newline; [done|].
    rewrite !append_cons, append_nil.
    repeat (apply no_newline_cons; split; [done|]). by apply no_newline_body. }
  rewrite Ht. split.
  - destruct (connected s), (socket s); cbn [negb orb andb]; st_simpl;
      by rewrite ?app_nil_r.
  - intros [-> | ->]; by rewrite ?orb_true_r.
Qed.

Lemma ping_echo_witness :
  effects (after (handleData (ln "ping 42") awaiting))
  = (effects awaiting ++ [SocketWrite (ln "PONG 42")])%list.
Proof.
  destruct (ping_echo awaiting "ping 42") as (_ & H & _).
  - vm_compute. reflexivity.
  - vm_compute. reflexivity.
  - vm_compute. reflexivity.
  - vm_compute. reflexivity.
  - exact H.
Defined.

Lemma endsWith_snoc (c : ascii) (t : string) : endsWith c (snoc t c) = true.
Proof.
  unfold snoc. induction t as [|d t IH].
  - rewrite append_nil. cbn [endsWith]. apply Ascii.eqb_refl.
  - rewrite append_cons. cbn [endsWith].
    destruct (t +:+ String c EmptyString) eqn:E; [by destruct t|]. exact IH.
Qed.

Lemma dropLast_snoc (c : ascii) (t : string) : dropLast (snoc t c) = t.
Proof.
  unfold snoc. induction t as [|d t IH]; [done|].
  rewrite append_cons. cbn [dropLast].
  destruct (t +:+ String c EmptyString) eqn:E; [by destruct t|]. by rewrite IH.
Qed.

(** X24. Both line endings are accepted: a line that arrives whole while
    the buffer is empty is handled in the same way whether it ends in
    CR LF or in LF alone: it is passed to [handleLine] once when it is not
    empty, and the buffer is empty afterwards. *)
Theorem crlf_as_lf (s : State) (line : string) :
  no_newline line → endsWith cr line = false → buffer s = EmptyString →
  handleData (ln (snoc line cr)) s = handleData (ln line) s
  ∧ handleData (ln line) s = (if is_empty line then Returns s else handleLine s line)
  ∧ buffer (after (handleData (ln line) s)) = EmptyString.
Proof.
  intros Hnl Hcr Hbuf.
  assert (Hnl' : no_newline (snoc line cr)) by (by apply no_newline_snoc).
  rewrite !handleData_one_line by done.
  rewrite endsWith_snoc, dropLast_snoc, Hcr. cbv zeta.
  split; [done|]. split; [done|].
  destruct (is_empty line); [done|]. by rewrite handleLine_buffer.
Qed.

Lemma crlf_as_lf_witness :
  handleData (ln (snoc begin_line cr)) awaiting = handleData (ln begin_line) awaiting.
Proof.
  destruct (crlf_as_lf awaiting begin_line) as (H & _).
  - vm_compute. reflexivity.
  - vm_compute. reflexivity.
  - vm_compute. reflexivity.
  - exact H.
Defined.

End HandlerFacts.
(* ===================================================================== *)
(** * Image signatures *)
(* ===================================================================== *)

Section ImageFacts.
Import Images.

(** X25. [detectImageMime] looks at the first four bytes only, and not
    at all at a buffer of fewer than four: such a buffer, or none, has no
    type, even when it starts like a JPEG file; a longer one is a PNG
    image exactly when it starts with 89 50 4E 47, a JPEG image exactly
    when it starts with FF D8, a BMP image exactly when it starts with
    42 4D and a GIF image exactly when it starts with 47 49 46.  The data
    URL of a bitmap names one of these four types or
    application/octet-stream. *)
Theorem image_signature (b rest : list Z) :
  detectImageMime None = None
  ∧ ((length b < 4)%nat → detectImageMime (Some b) = None)
  ∧ ((4 ≤ length b)%nat →
     detectImageMime (Some (b ++ rest)%list) = detectImageMime (Some (take 4 b)))
  ∧ (detectImageMime (Some b) = Some "image/png"
     ↔ take 4 b = [0x89; 0x50; 0x4e; 0x47])
  ∧ (detectImageMime (Some b) = Some "image/jpeg"
     ↔ (4 ≤ length b)%nat ∧ take 2 b = [0xff; 0xd8])
  ∧ (detectImageMime (Some b) = Some "image/bmp"
     ↔ (4 ≤ length b)%nat ∧ take 2 b = [0x42; 0x4d])
  ∧ (detectImageMime (Some b) = Some "image/gif"
     ↔ (4 ≤ length b)%nat ∧ take 3 b = [0x47; 0x49; 0x46])
  ∧ mime_of b ∈ ["image/png"; "image/jpeg"; "image/bmp"; "image/gif";
                 "application/octet-stream"].
Proof.
  split; [done|].
  destruct b as [|b0 [|b1 [|b2 [|b3 b]]]];
    try (repeat split; try done; try (cbn; intros; lia);
         try (by intros [? ?]; cbn in *; lia);
         unfold mime_of; cbn; set_solver).
  unfold mime_of, detectImageMime.
  cbn [length app nth take Nat.ltb Nat.leb].
  destruct (Z.eqb_spec b0 0x89) as [-> | H0];
    [cbn [andb Z.eqb Pos.eqb]|].
  - destruct (Z.eqb_spec b1 0x50) as [-> | H1];
      [destruct (Z.eqb_spec b2 0x4e) as [-> | H2];
         [destruct (Z.eqb_spec b3 0x47) as [-> | H3]|]|];
      cbn [andb default from_option id];
      (repeat split; try done; try (cbn; intros; lia);
       try (by intros [= ?]); try (by intros [_ [= ?]]); set_solver).
  - cbn [andb].
    destruct (Z.eqb_spec b0 0xff) as [-> | Hf];
      [destruct (Z.eqb_spec b1 0xd8) as [-> | Hd]|]; cbn [andb Z.eqb Pos.eqb].
    + cbn [default from_option id].
      repeat split; try done; try (cbn; intros; lia);
        try (by intros [= ?]); try (by intros [_ [= ?]]); set_solver.
    + cbn [default from_option id].
      repeat split; try done; try (cbn; intros; lia);
        try (by intros [= ?]); try (by intros [_ [= ?]]); set_solver.
    + destruct (Z.eqb_spec b0 0x42) as [-> | Hb];
        [destruct (Z.eqb_spec b1 0x4d) as [-> | Hm]|]; cbn [andb Z.eqb Pos.eqb].
      * cbn [default from_option id].
        repeat split; try done; try (cbn; intros; lia);
          try (by intros [= ?]); try (by intros [_ [= ?]]); set_solver.
      * cbn [default from_option id].
        repeat split; try done; try (cbn; intros; lia);
          try (by intros [= ?]); try (by intros [_ [= ?]]); set_solver.
      * destruct (Z.eqb_spec b0 0x47) as [-> | Hg];
          [destruct (Z.eqb_spec b1 0x49) as [-> | Hi];
             [destruct (Z.eqb_spec b2 0x46) as [-> | Hj]|]|];
          cbn [andb default from_option id];
          (repeat split; try done; try (cbn; intros; lia);
           try (by intros [= ?]); try (by intros [_ [= ?]]); set_solver).
Qed.

End ImageFacts.
